(** * The Codex usage collector (src/collector.ts)

    A shallow embedding of the session-log collector: the usage-delta
    normaliser, the signature builder, the line-by-line session parser,
    the fork-aware deduplicator, the collection loop that merges the
    sessions of a year, the discovery of the session files and the first
    prompt of the history.

    Conventions of the embedding.
    - A log line is the JSON value [JSON.parse] returned for it, [None]
      for a blank line or a line that does not parse.
    - A JavaScript number is [number]: an integer or one of the values
      that are not finite.  Token counters are integers, and arithmetic
      on them is exact.
    - [undefined] is [None] of an [option]; [null] is [JNull].
    - The loops of the source are folds over the lines of a file and over
      the sorted sessions; the variables they update are the fields of
      [ParseState] and [Accumulator]. *)

From Stdlib Require Import ZArith String Ascii List Sorted Permutation Lia.
From stdpp Require Import base tactics option list gmap strings fin_maps pretty.

Local Open Scope string_scope.
Local Open Scope Z_scope.
Local Open Scope list_scope.
Local Set Warnings "-register-all".

(** ** JavaScript values *)

Inductive number : Type :=
| Finite (z : Z)
| PosInfinity
| NegInfinity
| NaN.

Inductive json : Type :=
| JNull
| JBool (b : bool)
| JNumber (n : number)
| JString (s : string)
| JArray (items : list json)
| JObject (fields : list (string * json)).

(** [a - b] on numbers. *)
Definition num_sub (a b : number) : number :=
  match a, b with
  | Finite x, Finite y => Finite (x - y)
  | NaN, _ | _, NaN => NaN
  | PosInfinity, PosInfinity => NaN
  | NegInfinity, NegInfinity => NaN
  | PosInfinity, _ => PosInfinity
  | NegInfinity, _ => NegInfinity
  | Finite _, PosInfinity => NegInfinity
  | Finite _, NegInfinity => PosInfinity
  end.

(** [a + b] on numbers. *)
Definition num_add (a b : number) : number :=
  match a, b with
  | Finite x, Finite y => Finite (x + y)
  | NaN, _ | _, NaN => NaN
  | PosInfinity, NegInfinity => NaN
  | NegInfinity, PosInfinity => NaN
  | PosInfinity, _ | _, PosInfinity => PosInfinity
  | NegInfinity, _ | _, NegInfinity => NegInfinity
  end.

(** [a < b] on numbers: false as soon as one side is [NaN]. *)
Definition num_lt (a b : number) : bool :=
  match a, b with
  | NaN, _ | _, NaN => false
  | Finite x, Finite y => x <? y
  | NegInfinity, NegInfinity => false
  | NegInfinity, _ => true
  | _, NegInfinity => false
  | PosInfinity, _ => false
  | Finite _, PosInfinity => true
  end.

(** [a !== b] on numbers: [NaN] differs from itself. *)
Definition num_strict_neq (a b : number) : bool :=
  match a, b with
  | Finite x, Finite y => negb (x =? y)
  | PosInfinity, PosInfinity => false
  | NegInfinity, NegInfinity => false
  | _, _ => true
  end.

(** [String(n)] for an integer or a value that is not finite. *)
Definition num_to_string (n : number) : string :=
  match n with
  | Finite z => pretty z
  | PosInfinity => "Infinity"
  | NegInfinity => "-Infinity"
  | NaN => "NaN"
  end.

(** Property access [v?.k] on a parsed value.  The fields of a parsed
    object have distinct keys, so the first field with the key is the
    property.  Only the keys of the logs are ever read, and no string,
    number or array has one of them as a property of its own, so every
    value but an object answers [undefined]. *)
Fixpoint lookupField (k : string) (fields : list (string * json)) : option json :=
  match fields with
  | [] => None
  | (k', v) :: rest => if String.eqb k k' then Some v else lookupField k rest
  end.

Definition getProp (v : option json) (k : string) : option json :=
  match v with
  | Some (JObject fields) => lookupField k fields
  | _ => None
  end.

(** Truthiness of a value, as [if (v)] and [!v] test it. *)
Definition truthy (v : option json) : bool :=
  match v with
  | None | Some JNull => false
  | Some (JBool b) => b
  | Some (JNumber (Finite z)) => negb (z =? 0)
  | Some (JNumber NaN) => false
  | Some (JNumber _) => true
  | Some (JString s) => negb (String.eqb s "")
  | Some (JArray _) | Some (JObject _) => true
  end.

(** [a ?? b]: the right operand replaces [undefined] and [null] only. *)
Definition nullish (a b : option json) : option json :=
  match a with
  | None | Some JNull => b
  | Some _ => a
  end.

(** [v != null && typeof v === "object"]. *)
Definition isObject (v : option json) : bool :=
  match v with
  | Some (JArray _) | Some (JObject _) => true
  | _ => false
  end.

(** Truthiness of an optional string ([undefined] and [""] are falsy). *)
Definition truthyString (s : option string) : bool :=
  match s with
  | None => false
  | Some s => negb (String.eqb s "")
  end.

(** [String.prototype.trim], on the white space of the ASCII range:
    TAB, LF, VT, FF, CR and SPACE. *)
Definition isWhiteSpace (c : ascii) : bool :=
  let n := nat_of_ascii c in
  ((9 <=? n)%nat && (n <=? 13)%nat) || (n =? 32)%nat.

Fixpoint trimStart (s : string) : string :=
  match s with
  | EmptyString => EmptyString
  | String c rest => if isWhiteSpace c then trimStart rest else s
  end.

Definition trim (s : string) : string :=
  String.rev (trimStart (String.rev (trimStart s))).

(** ** Data model *)

Record RawUsage : Type := {
  input_tokens : Z;
  cached_input_tokens : Z;
  output_tokens : Z;
  reasoning_output_tokens : Z;
  total_tokens : Z
}.

(** [Omit<CodexUsageEvent, "timestamp" | "model">], the result type of
    [convertToDelta]. *)
Record UsageDelta : Type := {
  inputTokens : Z;
  cachedInputTokens : Z;
  outputTokens : Z;
  reasoningOutputTokens : Z;
  totalTokens : Z
}.

(** The five counters of an event are those of its delta; the timestamp
    is the value found in the log line. *)
Record CodexUsageEvent : Type := {
  timestamp : json;
  model : string;
  delta :> UsageDelta
}.

Record SessionUserMessage : Type := {
  messageTimestamp : json;
  signature : string
}.

Record SessionDedupSignatures : Type := {
  messageSignatures : list string;
  tokenSignatures : list string
}.

(** A [Date] is its time value: milliseconds, or [NaN] for an invalid
    date. *)
Abbreviation Date := number.

(** [SessionDedupSignatures & { ... }]. *)
Record SessionUsage : Type := {
  signatures :> SessionDedupSignatures;
  filePath : string;
  cwd : option string;
  sessionId : option string;
  forkedFromId : option string;
  sessionDate : option Date;
  userMessages : list SessionUserMessage;
  events : list CodexUsageEvent
}.

Definition LEGACY_FALLBACK_MODEL : string := "gpt-5".
Definition FORK_PREFIX_MIN_MATCH : nat := 3.

(** ** Usage-delta normaliser *)

Definition ensureNumber (value : option json) : Z :=
  match value with
  | Some (JNumber (Finite z)) => z
  | _ => 0
  end.

Definition normalizeRawUsage (value : option json) : option RawUsage :=
  if isObject value then
    let input := ensureNumber (getProp value "input_tokens") in
    let cached :=
      ensureNumber (nullish (getProp value "cached_input_tokens")
                            (getProp value "cache_read_input_tokens")) in
    let output := ensureNumber (getProp value "output_tokens") in
    let reasoning := ensureNumber (getProp value "reasoning_output_tokens") in
    let total := ensureNumber (getProp value "total_tokens") in
    Some {| input_tokens := input;
            cached_input_tokens := cached;
            output_tokens := output;
            reasoning_output_tokens := reasoning;
            total_tokens := if 0 <? total then total else input + output |}
  else None.

(** [previous?.field ?? 0]. *)
Definition previousField (f : RawUsage -> Z) (previous : option RawUsage) : Z :=
  match previous with
  | Some p => f p
  | None => 0
  end.

Definition subtractRawUsage (current : RawUsage) (previous : option RawUsage) : RawUsage :=
  {| input_tokens :=
       Z.max (input_tokens current - previousField input_tokens previous) 0;
     cached_input_tokens :=
       Z.max (cached_input_tokens current - previousField cached_input_tokens previous) 0;
     output_tokens :=
       Z.max (output_tokens current - previousField output_tokens previous) 0;
     reasoning_output_tokens :=
       Z.max (reasoning_output_tokens current
              - previousField reasoning_output_tokens previous) 0;
     total_tokens :=
       Z.max (total_tokens current - previousField total_tokens previous) 0 |}.

Definition convertToDelta (raw : RawUsage) : UsageDelta :=
  let total :=
    if 0 <? total_tokens raw then total_tokens raw
    else input_tokens raw + output_tokens raw in
  let cached := Z.min (cached_input_tokens raw) (input_tokens raw) in
  {| inputTokens := input_tokens raw;
     cachedInputTokens := cached;
     outputTokens := output_tokens raw;
     reasoningOutputTokens := reasoning_output_tokens raw;
     totalTokens := total |}.

(** ** Model extraction *)

Definition asNonEmptyString (value : option json) : option string :=
  match value with
  | Some (JString s) =>
      let trimmed := trim s in
      if String.eqb trimmed "" then None else Some trimmed
  | _ => None
  end.

(** The loop over [direct]: the first candidate whose string is truthy. *)
Fixpoint firstModel (candidates : list (option json)) : option string :=
  match candidates with
  | [] => None
  | candidate :: rest =>
      let model := asNonEmptyString candidate in
      if truthyString model then model else firstModel rest
  end.

(** [if (o && typeof o === "object") { model = asNonEmptyString(o.model);
    if (model) return model }]. *)
Definition metadataModel (metadata : option json) : option string :=
  if truthy metadata && isObject metadata then
    let model := asNonEmptyString (getProp metadata "model") in
    if truthyString model then model else None
  else None.

Definition extractModel (value : option json) : option string :=
  if negb (isObject value) then None
  else
    let info := getProp value "info" in
    let fromInfo :=
      if truthy info && isObject info then
        match firstModel [getProp info "model"; getProp info "model_name"] with
        | Some model => Some model
        | None => metadataModel (getProp info "metadata")
        end
      else None in
    match fromInfo with
    | Some model => Some model
    | None =>
        let fallbackModel := asNonEmptyString (getProp value "model") in
        if truthyString fallbackModel then fallbackModel
        else metadataModel (getProp value "metadata")
    end.

(** ** Signature builder *)

(** [parts.join("|")]. *)
Fixpoint join (sep : string) (parts : list string) : string :=
  match parts with
  | [] => ""
  | [p] => p
  | p :: rest => p +:+ sep +:+ join sep rest
  end.

Definition createTokenEventSignature (event : CodexUsageEvent) : string :=
  join "|" [ model event;
             num_to_string (Finite (inputTokens event));
             num_to_string (Finite (cachedInputTokens event));
             num_to_string (Finite (outputTokens event));
             num_to_string (Finite (reasoningOutputTokens event));
             num_to_string (Finite (totalTokens event)) ].

(** ** Discovery of the session files *)

Section Discovery.

(** What the file system provides: the home directory, [join] of
    [node:path] on two segments, and [readdir] with [withFileTypes],
    [None] when it throws. *)
Record Dirent : Type := {
  name : string;
  isDirectory : bool;
  isFile : bool
}.

Variable homedir : string.
Variable pathJoin : string -> string -> string.
Variable readdir : string -> option (list Dirent).

Definition CODEX_DATA_PATH : string := pathJoin homedir ".codex".
Definition CODEX_HISTORY_PATH : string := pathJoin CODEX_DATA_PATH "history.jsonl".
Definition CODEX_SESSIONS_PATH : string := pathJoin CODEX_DATA_PATH "sessions".

(** [s.endsWith(suffix)]: the end of [s], of the length of [suffix], is
    compared with [suffix]. *)
Definition endsWith (s suffix : string) : bool :=
  let start := (String.length s - String.length suffix)%nat in
  (String.length suffix <=? String.length s)%nat
  && String.eqb (substring start (String.length suffix) s) suffix.

(** [entries.filter((e) => e.isDirectory()).map((e) => e.name)]. *)
Definition directoryNames (entries : list Dirent) : list string :=
  map name (List.filter isDirectory entries).

(** The loop over the entries of a day directory (lines 67 to 71). *)
Definition pushSessionFiles (dayPath : string) (files : list string)
    (entries : list Dirent) : list string :=
  foldl (fun files entry =>
           if isFile entry && endsWith (name entry) ".jsonl"
           then files ++ [pathJoin dayPath (name entry)]
           else files)
        files entries.

(** The body of the loop over the days of a month (lines 63 to 75). *)
Definition listDay (monthPath : string) (files : list string) (day : string)
  : list string :=
  let dayPath := pathJoin monthPath day in
  match readdir dayPath with
  | Some entries => pushSessionFiles dayPath files entries
  | None => files
  end.

(** The body of the loop over the months of the year (lines 53 to 76). *)
Definition listMonth (yearPath : string) (files : list string) (month : string)
  : list string :=
  let monthPath := pathJoin yearPath month in
  match readdir monthPath with
  | Some entries => foldl (listDay monthPath) files (directoryNames entries)
  | None => files
  end.

Definition listCodexSessionFiles (year : number) : list string :=
  let yearPath := pathJoin CODEX_SESSIONS_PATH (num_to_string year) in
  match readdir yearPath with
  | Some entries => foldl (listMonth yearPath) [] (directoryNames entries)
  | None => []
  end.

End Discovery.

(** ** First prompt *)

Section FirstPrompt.

(** [a < b] on two values of a history line.  On two numbers it is
    [num_lt]; the comparison of values of other kinds is the runtime's. *)
Variable lessThanOther : json -> json -> bool.

Definition lessThan (a b : json) : bool :=
  match a, b with
  | JNumber x, JNumber y => num_lt x y
  | _, _ => lessThanOther a b
  end.

(** The body of the loop of lines 85 to 96.  A line is the value
    [JSON.parse] returned for it, [None] for a blank line or one that
    does not parse; reading [ts] of [null] throws, and the line is
    skipped like one that has no [ts]. *)
Definition firstPromptStep (minTs : option json) (line : option json) : option json :=
  match getProp line "ts" with
  | Some ts =>
      if negb (truthy (Some ts)) then minTs
      else
        match minTs with
        | None => Some ts
        | Some current => if lessThan ts current then Some ts else minTs
        end
  | None => minTs
  end.

(** [getCodexFirstPromptTimestamp], from the lines of the history file,
    [None] when [readFile] throws.  [null] is [None]. *)
Definition getCodexFirstPromptTimestamp (history : option (list (option json)))
  : option json :=
  match history with
  | Some historyLines => foldl firstPromptStep None historyLines
  | None => None
  end.

End FirstPrompt.

(** ** Session parser *)

(** The variables of the loop over the lines of one file. *)
Record ParseState : Type := {
  st_previousTotals : option RawUsage;
  st_currentModel : option string;
  st_currentModelIsFallback : bool;
  st_legacyFallbackUsed : bool;
  st_sessionDate : option Date;
  st_sessionCwd : option string;
  st_sessionId : option string;
  st_forkedFromId : option string;
  st_userMessages : list SessionUserMessage;
  st_sessionEvents : list CodexUsageEvent
}.

Definition initialParseState : ParseState :=
  {| st_previousTotals := None;
     st_currentModel := None;
     st_currentModelIsFallback := false;
     st_legacyFallbackUsed := false;
     st_sessionDate := None;
     st_sessionCwd := None;
     st_sessionId := None;
     st_forkedFromId := None;
     st_userMessages := [];
     st_sessionEvents := [] |}.

(** The assignments of the loop body, one setter per group of variables
    assigned together. *)
Definition setSessionMeta (st : ParseState) (date : option Date)
    (cwd id forkedFrom : option string) : ParseState :=
  {| st_previousTotals := st_previousTotals st;
     st_currentModel := st_currentModel st;
     st_currentModelIsFallback := st_currentModelIsFallback st;
     st_legacyFallbackUsed := st_legacyFallbackUsed st;
     st_sessionDate := date;
     st_sessionCwd := cwd;
     st_sessionId := id;
     st_forkedFromId := forkedFrom;
     st_userMessages := st_userMessages st;
     st_sessionEvents := st_sessionEvents st |}.

Definition setCurrentModel (st : ParseState) (model : option string)
    (isFallback : bool) : ParseState :=
  {| st_previousTotals := st_previousTotals st;
     st_currentModel := model;
     st_currentModelIsFallback := isFallback;
     st_legacyFallbackUsed := st_legacyFallbackUsed st;
     st_sessionDate := st_sessionDate st;
     st_sessionCwd := st_sessionCwd st;
     st_sessionId := st_sessionId st;
     st_forkedFromId := st_forkedFromId st;
     st_userMessages := st_userMessages st;
     st_sessionEvents := st_sessionEvents st |}.

Definition setLegacyFallbackUsed (st : ParseState) : ParseState :=
  {| st_previousTotals := st_previousTotals st;
     st_currentModel := st_currentModel st;
     st_currentModelIsFallback := st_currentModelIsFallback st;
     st_legacyFallbackUsed := true;
     st_sessionDate := st_sessionDate st;
     st_sessionCwd := st_sessionCwd st;
     st_sessionId := st_sessionId st;
     st_forkedFromId := st_forkedFromId st;
     st_userMessages := st_userMessages st;
     st_sessionEvents := st_sessionEvents st |}.

Definition setPreviousTotals (st : ParseState) (totals : option RawUsage) : ParseState :=
  {| st_previousTotals := totals;
     st_currentModel := st_currentModel st;
     st_currentModelIsFallback := st_currentModelIsFallback st;
     st_legacyFallbackUsed := st_legacyFallbackUsed st;
     st_sessionDate := st_sessionDate st;
     st_sessionCwd := st_sessionCwd st;
     st_sessionId := st_sessionId st;
     st_forkedFromId := st_forkedFromId st;
     st_userMessages := st_userMessages st;
     st_sessionEvents := st_sessionEvents st |}.

Definition pushUserMessage (st : ParseState) (message : SessionUserMessage) : ParseState :=
  {| st_previousTotals := st_previousTotals st;
     st_currentModel := st_currentModel st;
     st_currentModelIsFallback := st_currentModelIsFallback st;
     st_legacyFallbackUsed := st_legacyFallbackUsed st;
     st_sessionDate := st_sessionDate st;
     st_sessionCwd := st_sessionCwd st;
     st_sessionId := st_sessionId st;
     st_forkedFromId := st_forkedFromId st;
     st_userMessages := st_userMessages st ++ [message];
     st_sessionEvents := st_sessionEvents st |}.

Definition pushEvent (st : ParseState) (event : CodexUsageEvent) : ParseState :=
  {| st_previousTotals := st_previousTotals st;
     st_currentModel := st_currentModel st;
     st_currentModelIsFallback := st_currentModelIsFallback st;
     st_legacyFallbackUsed := st_legacyFallbackUsed st;
     st_sessionDate := st_sessionDate st;
     st_sessionCwd := st_sessionCwd st;
     st_sessionId := st_sessionId st;
     st_forkedFromId := st_forkedFromId st;
     st_userMessages := st_userMessages st;
     st_sessionEvents := st_sessionEvents st ++ [event] |}.

(** [entry?.type === name], and the same test on a payload. *)
Definition hasType (v : option json) (name : string) : bool :=
  match getProp v "type" with
  | Some (JString s) => String.eqb s name
  | _ => false
  end.

(** The test of lines 209 to 214: the four component counters are zero. *)
Definition isZeroDelta (d : UsageDelta) : bool :=
  (inputTokens d =? 0) && (cachedInputTokens d =? 0)
  && (outputTokens d =? 0) && (reasoningOutputTokens d =? 0).

(** [{ ...payload, info }] where [info] is [payload?.info]: the object
    answers [info] for the key [info] and is the payload elsewhere. *)
Definition spreadWithInfo (payload info : option json) : option json :=
  match payload, info with
  | Some (JObject fields), Some i => Some (JObject (("info", i) :: fields))
  | _, _ => payload
  end.

(** The usage of a [token_count] record: the direct delta when there is
    one, else the difference of the cumulative totals (lines 194 to 200). *)
Definition rawUsageOf (info : option json) (previousTotals : option RawUsage)
  : option RawUsage :=
  let lastUsage := normalizeRawUsage (getProp info "last_token_usage") in
  let totalUsage := normalizeRawUsage (getProp info "total_token_usage") in
  match lastUsage with
  | Some raw => Some raw
  | None =>
      match totalUsage with
      | Some total => Some (subtractRawUsage total previousTotals)
      | None => None
      end
  end.

Section Collector.

(** What the runtime provides: [new Date(v)] for a value of a log line,
    [JSON.stringify], the getters of a date in local time, and
    [a.localeCompare(b)] on file paths. *)
Variable newDate : json -> Date.
Variable stringify : json -> string.
Variable getFullYear getMonth getDate : Date -> number.
Variable localeCompare : string -> string -> Z.

Definition createUserMessageSignature (payload : option json) : string :=
  let message := default "" (asNonEmptyString (getProp payload "message")) in
  let textElements :=
    match getProp payload "text_elements" with
    | Some (JArray items) => items
    | _ => []
    end in
  let imageCount :=
    match getProp payload "images" with
    | Some (JArray items) => Z.of_nat (length items)
    | _ => 0
    end in
  let localImageCount :=
    match getProp payload "local_images" with
    | Some (JArray items) => Z.of_nat (length items)
    | _ => 0
    end in
  stringify (JObject [ ("message", JString message);
                       ("textElements", JArray textElements);
                       ("imageCount", JNumber (Finite imageCount));
                       ("localImageCount", JNumber (Finite localImageCount)) ]).

(** Lines 136 to 162.  The working directory is a string in the logs and
    in the declared type of [sessionCwd]; a value of another kind leaves
    the variable as it is, where the code would store any truthy value.
    What is proved of the working directory of a parsed file is stated
    for logs whose working directories are strings. *)
Definition handleSessionMeta (st : ParseState) (entry : option json) : ParseState :=
  let metaPayload := getProp entry "payload" in
  let sessionTimestamp :=
    nullish (getProp metaPayload "timestamp") (getProp entry "timestamp") in
  let sessionDate :=
    match sessionTimestamp with
    | Some ts =>
        if truthy sessionTimestamp then
          let parsedDate := newDate ts in
          match st_sessionDate st with
          | None => Some parsedDate
          | Some current =>
              if num_lt parsedDate current then Some parsedDate else Some current
          end
        else st_sessionDate st
    | None => st_sessionDate st
    end in
  let cwd := getProp metaPayload "cwd" in
  let sessionCwd :=
    match cwd with
    | Some (JString dir) => if truthy cwd then Some dir else st_sessionCwd st
    | _ => st_sessionCwd st
    end in
  let sessionId :=
    if negb (truthyString (st_sessionId st)) then
      let parsedSessionId := asNonEmptyString (getProp metaPayload "id") in
      if truthyString parsedSessionId then parsedSessionId else st_sessionId st
    else st_sessionId st in
  let forkedFromId :=
    if negb (truthyString (st_forkedFromId st)) then
      let parsedForkedFromId := asNonEmptyString (getProp metaPayload "forked_from_id") in
      if truthyString parsedForkedFromId then parsedForkedFromId
      else st_forkedFromId st
    else st_forkedFromId st in
  setSessionMeta st sessionDate sessionCwd sessionId forkedFromId.

(** Lines 164 to 171. *)
Definition handleTurnContext (st : ParseState) (entry : option json) : ParseState :=
  let model := extractModel (getProp entry "payload") in
  if truthyString model then setCurrentModel st model false else st.

(** Lines 175 to 184. *)
Definition handleUserMessage (st : ParseState) (entry payload : option json) : ParseState :=
  match getProp entry "timestamp" with
  | Some ts =>
      if truthy (Some ts) then
        pushUserMessage st {| messageTimestamp := ts;
                              signature := createUserMessageSignature payload |}
      else st
  | None => st
  end.

(** Lines 218 to 244: the model of the event, and the update of the
    tracker. *)
Definition resolveModel (st : ParseState) (extractedModel : option string)
  : string * ParseState :=
  let st1 :=
    if truthyString extractedModel then setCurrentModel st extractedModel false
    else st in
  let model :=
    match extractedModel with
    | Some m => Some m
    | None => st_currentModel st1
    end in
  match model with
  | Some m =>
      if truthyString model then (m, st1)
      else (LEGACY_FALLBACK_MODEL,
            setCurrentModel (setLegacyFallbackUsed st1) (Some LEGACY_FALLBACK_MODEL) true)
  | None =>
      (LEGACY_FALLBACK_MODEL,
       setCurrentModel (setLegacyFallbackUsed st1) (Some LEGACY_FALLBACK_MODEL) true)
  end.

(** Lines 190 to 249. *)
Definition handleTokenCount (st : ParseState) (entry payload : option json) : ParseState :=
  match getProp entry "timestamp" with
  | None => st
  | Some ts =>
      if negb (truthy (Some ts)) then st
      else
        let info := getProp payload "info" in
        let totalUsage := normalizeRawUsage (getProp info "total_token_usage") in
        let raw := rawUsageOf info (st_previousTotals st) in
        let st1 :=
          match totalUsage with
          | Some total => setPreviousTotals st (Some total)
          | None => st
          end in
        match raw with
        | None => st1
        | Some raw =>
            let delta := convertToDelta raw in
            if isZeroDelta delta then st1
            else
              let extractedModel := extractModel (spreadWithInfo payload info) in
              let '(model, st2) := resolveModel st1 extractedModel in
              pushEvent st2 {| timestamp := ts; model := model; delta := delta |}
        end
  end.

(** The body of the loop over the lines, once the line is parsed. *)
Definition processEntry (st : ParseState) (entry : option json) : ParseState :=
  if hasType entry "session_meta" then handleSessionMeta st entry
  else if hasType entry "turn_context" then handleTurnContext st entry
  else if hasType entry "event_msg" then
    let payload := getProp entry "payload" in
    if hasType payload "user_message" then handleUserMessage st entry payload
    else if negb (hasType payload "token_count") then st
    else handleTokenCount st entry payload
  else st.

(** A line: [None] when it is blank or [JSON.parse] throws. *)
Definition processLine (st : ParseState) (line : option json) : ParseState :=
  match line with
  | None => st
  | Some entry => processEntry st (Some entry)
  end.

Record SessionFile : Type := {
  path : string;
  lines : list (option json)
}.

(** Lines 256 to 266. *)
Definition finalizeSession (filePath : string) (st : ParseState) : SessionUsage :=
  {| signatures :=
       {| messageSignatures := map signature (st_userMessages st);
          tokenSignatures := map createTokenEventSignature (st_sessionEvents st) |};
     filePath := filePath;
     cwd := st_sessionCwd st;
     sessionId := st_sessionId st;
     forkedFromId := st_forkedFromId st;
     sessionDate := st_sessionDate st;
     userMessages := st_userMessages st;
     events := st_sessionEvents st |}.

Definition parseSessionFile (file : SessionFile) : SessionUsage :=
  finalizeSession (path file) (foldl processLine initialParseState (lines file)).

(** ** Fork-aware deduplicator *)

(** The loop of [commonPrefixLength]: [index] advances while it is below
    [limit] and the two elements at [index] are equal.  [fuel] bounds the
    number of iterations; [limit] iterations always suffice. *)
Fixpoint commonPrefixLoop (left right : list string) (limit fuel index : nat) : nat :=
  match fuel with
  | O => index
  | S fuel' =>
      if (index <? limit)%nat && bool_decide (left !! index = right !! index)
      then commonPrefixLoop left right limit fuel' (S index)
      else index
  end.

Definition commonPrefixLength (left right : list string) : nat :=
  let limit := Nat.min (length left) (length right) in
  commonPrefixLoop left right limit limit 0.

(** The loop over the candidates of [findLargestPrefixOverlap], with the
    early return once the whole sequence is matched. *)
Fixpoint largestOverlapLoop (sequence : list string) (candidateSequences : list (list string))
    (best : nat) : nat :=
  match candidateSequences with
  | [] => best
  | candidate :: rest =>
      if (length candidate =? 0)%nat then largestOverlapLoop sequence rest best
      else
        let overlap := commonPrefixLength sequence candidate in
        if (best <? overlap)%nat then
          if (overlap =? length sequence)%nat then overlap
          else largestOverlapLoop sequence rest overlap
        else largestOverlapLoop sequence rest best
  end.

Definition findLargestPrefixOverlap (sequence : list string)
    (candidateSequences : list (list string)) : nat :=
  if (length sequence =? 0)%nat || (length candidateSequences =? 0)%nat then 0%nat
  else largestOverlapLoop sequence candidateSequences 0.

Definition shouldApplyForkDedup (overlap sequenceLength : nat) : bool :=
  if (overlap <? FORK_PREFIX_MIN_MATCH)%nat then false
  else if (sequenceLength <=? 4)%nat then (overlap =? sequenceLength)%nat
  else true.

(** The variables of the loop over the sorted sessions (lines 269 to 275). *)
Record Accumulator : Type := {
  acc_events : list CodexUsageEvent;
  acc_dailyActivity : gmap string Z;
  acc_projects : gset string;
  acc_totalMessages : Z;
  acc_earliestSessionDate : option Date;
  acc_priorSessionsByCwd : gmap string (list SessionDedupSignatures);
  acc_sessionsById : gmap string SessionDedupSignatures
}.

Definition initialAccumulator : Accumulator :=
  {| acc_events := [];
     acc_dailyActivity := ∅;
     acc_projects := ∅;
     acc_totalMessages := 0;
     acc_earliestSessionDate := None;
     acc_priorSessionsByCwd := ∅;
     acc_sessionsById := ∅ |}.

(** [session.forkedFromId ? sessionsById.get(session.forkedFromId) : undefined]. *)
Definition parentSessionOf (sessionsById : gmap string SessionDedupSignatures)
    (session : SessionUsage) : option SessionDedupSignatures :=
  match forkedFromId session with
  | Some id => if truthyString (Some id) then sessionsById !! id else None
  | None => None
  end.

(** The working directory when [if (session.cwd)] holds. *)
Definition knownCwd (session : SessionUsage) : option string :=
  match cwd session with
  | Some dir => if truthyString (Some dir) then Some dir else None
  | None => None
  end.

(** The overlap of one signature sequence with the candidates of its
    directory, once the guard has decided (lines 300 to 306, and 308 to
    314 for the token signatures). *)
Definition heuristicStartIndex (sequence : list string)
    (candidateSequences : list (list string)) : nat :=
  let overlap := findLargestPrefixOverlap sequence candidateSequences in
  if shouldApplyForkDedup overlap (length sequence) then overlap else 0%nat.

(** Lines 288 to 321: the two start indexes of a session and the
    directory index after it. *)
Definition forkDedup (priorSessionsByCwd : gmap string (list SessionDedupSignatures))
    (sessionsById : gmap string SessionDedupSignatures) (session : SessionUsage)
  : nat * nat * gmap string (list SessionDedupSignatures) :=
  match parentSessionOf sessionsById session with
  | Some parentSession =>
      (commonPrefixLength (messageSignatures session) (messageSignatures parentSession),
       commonPrefixLength (tokenSignatures session) (tokenSignatures parentSession),
       priorSessionsByCwd)
  | None =>
      match knownCwd session with
      | Some dir =>
          let previousSessions := default [] (priorSessionsByCwd !! dir) in
          let messageStartIndex :=
            heuristicStartIndex (messageSignatures session)
                                (map messageSignatures previousSessions) in
          let tokenStartIndex :=
            heuristicStartIndex (tokenSignatures session)
                                (map tokenSignatures previousSessions) in
          (messageStartIndex, tokenStartIndex,
           <[dir := previousSessions ++ [signatures session]]> priorSessionsByCwd)
      | None => (0%nat, 0%nat, priorSessionsByCwd)
      end
  end.

(** [String(n).padStart(2, "0")]. *)
Definition padStart2 (s : string) : string :=
  match String.length s with
  | O => "00"
  | S O => "0" +:+ s
  | _ => s
  end.

Definition formatDateKey (date : Date) : string :=
  num_to_string (getFullYear date) +:+ "-"
  +:+ padStart2 (num_to_string (num_add (getMonth date) (Finite 1))) +:+ "-"
  +:+ padStart2 (num_to_string (getDate date)).

(** One turn of the loop of lines 323 to 327. *)
Definition countMessage (counters : Z * gmap string Z) (message : SessionUserMessage)
  : Z * gmap string Z :=
  let '(totalMessages, dailyActivity) := counters in
  let dateKey := formatDateKey (newDate (messageTimestamp message)) in
  let current :=
    match dailyActivity !! dateKey with
    | Some n => if n =? 0 then 0 else n
    | None => 0
    end in
  (totalMessages + 1, <[dateKey := current + 1]> dailyActivity).

(** The body of the loop of lines 279 to 337. *)
Definition dedupSession (acc : Accumulator) (session : SessionUsage) : Accumulator :=
  let projects :=
    match knownCwd session with
    | Some dir => {[dir]} ∪ acc_projects acc
    | None => acc_projects acc
    end in
  let earliestSessionDate :=
    match sessionDate session with
    | Some date =>
        match acc_earliestSessionDate acc with
        | None => Some date
        | Some earliest => if num_lt date earliest then Some date else Some earliest
        end
    | None => acc_earliestSessionDate acc
    end in
  let '(messageStartIndex, tokenStartIndex, priorSessionsByCwd) :=
    forkDedup (acc_priorSessionsByCwd acc) (acc_sessionsById acc) session in
  let '(totalMessages, dailyActivity) :=
    foldl countMessage (acc_totalMessages acc, acc_dailyActivity acc)
          (drop messageStartIndex (userMessages session)) in
  let events := acc_events acc ++ drop tokenStartIndex (events session) in
  let sessionsById :=
    match sessionId session with
    | Some id =>
        if truthyString (Some id) then <[id := signatures session]> (acc_sessionsById acc)
        else acc_sessionsById acc
    | None => acc_sessionsById acc
    end in
  {| acc_events := events;
     acc_dailyActivity := dailyActivity;
     acc_projects := projects;
     acc_totalMessages := totalMessages;
     acc_earliestSessionDate := earliestSessionDate;
     acc_priorSessionsByCwd := priorSessionsByCwd;
     acc_sessionsById := sessionsById |}.

Definition dedupSessions (sessions : list SessionUsage) : Accumulator :=
  foldl dedupSession initialAccumulator sessions.

(** ** Sorting *)

(** The number a comparator returns, as [Array.prototype.sort] reads it:
    [NaN] counts as zero. *)
Definition sortCompare {A : Type} (comparefn : A -> A -> number) (x y : A) : Z :=
  match comparefn x y with
  | Finite z => z
  | PosInfinity => 1
  | NegInfinity => -1
  | NaN => 0
  end.

(** [Array.prototype.sort] is stable, and for a consistent comparator its
    result is the one stable arrangement in ascending order; a stable
    insertion sort computes it. *)
Fixpoint insertSorted {A : Type} (comparefn : A -> A -> number) (x : A) (l : list A) : list A :=
  match l with
  | [] => [x]
  | y :: rest =>
      if 0 <? sortCompare comparefn x y then y :: insertSorted comparefn x rest
      else x :: l
  end.

Definition sort {A : Type} (comparefn : A -> A -> number) (l : list A) : list A :=
  foldr (insertSorted comparefn) [] l.

Definition compareSessionsByDate (a b : SessionUsage) : number :=
  let aTime := sessionDate a in
  let bTime := sessionDate b in
  match aTime, bTime with
  | Some ta, Some tb =>
      if num_strict_neq ta tb then num_sub ta tb
      else Finite (localeCompare (filePath a) (filePath b))
  | Some _, None => Finite (-1)
  | None, Some _ => Finite 1
  | None, None => Finite (localeCompare (filePath a) (filePath b))
  end.

(** The comparator of line 339. *)
Definition compareEventsByTime (a b : CodexUsageEvent) : number :=
  num_sub (newDate (timestamp a)) (newDate (timestamp b)).

(** ** Collection *)

Record CodexUsageData : Type := {
  mergedEvents : list CodexUsageEvent;
  dailyActivity : gmap string Z;
  totalMessages : Z;
  totalSessions : Z;
  projects : gset string;
  earliestSessionDate : option Date
}.

(** The sessions in the order the deduplicator receives them (line 277). *)
Definition sortedSessions (files : list SessionFile) : list SessionUsage :=
  sort compareSessionsByDate (map parseSessionFile files).

(** [collectCodexUsageData], from the files [listCodexSessionFiles]
    discovered and their lines. *)
Definition collectCodexUsageData (files : list SessionFile) : CodexUsageData :=
  let acc := dedupSessions (sortedSessions files) in
  {| mergedEvents := sort compareEventsByTime (acc_events acc);
     dailyActivity := acc_dailyActivity acc;
     totalMessages := acc_totalMessages acc;
     totalSessions := Z.of_nat (length files);
     projects := acc_projects acc;
     earliestSessionDate := acc_earliestSessionDate acc |}.

(** * Vocabulary of the specification

    The notions the properties are stated with.  None of them is part of
    the collector: each is a reading of the words of the specification,
    or names a value the loop body computes. *)

(** ** Token-count records *)

(** The payload and the usage information of an entry. *)
Definition payloadOf (entry : option json) : option json := getProp entry "payload".
Definition infoOf (entry : option json) : option json := getProp (payloadOf entry) "info".

(** The entry is a [token_count] record with a timestamp: the usage path
    of the parser runs on it. *)
Definition tokenCountRecord (entry : option json) (ts : json) : Prop :=
  hasType entry "event_msg" = true
  /\ hasType (payloadOf entry) "token_count" = true
  /\ getProp entry "timestamp" = Some ts
  /\ truthy (Some ts) = true.

(** The state after the update of the last-seen totals (lines 202 to 204). *)
Definition afterTotals (st : ParseState) (info : option json) : ParseState :=
  match normalizeRawUsage (getProp info "total_token_usage") with
  | Some total => setPreviousTotals st (Some total)
  | None => st
  end.

(** The difference of one counter with the last-seen totals, never
    negative. *)
Definition clampedDifference (counter : RawUsage -> Z) (current : RawUsage)
    (previous : option RawUsage) : Z :=
  Z.max (counter current - previousField counter previous) 0.

(** The direct delta of a line, when it has one. *)
Definition lastUsageOf (line : option json) : option json :=
  getProp (infoOf line) "last_token_usage".

(** No counter of a delta is negative. *)
Definition nonNegativeDelta (d : UsageDelta) : Prop :=
  0 <= inputTokens d /\ 0 <= cachedInputTokens d /\ 0 <= outputTokens d
  /\ 0 <= reasoningOutputTokens d /\ 0 <= totalTokens d.

(** The counters of a usage object of the log are not negative. *)
Definition nonNegativeCounters (usage : option json) : Prop :=
  0 <= ensureNumber (getProp usage "input_tokens")
  /\ 0 <= ensureNumber (nullish (getProp usage "cached_input_tokens")
                                (getProp usage "cache_read_input_tokens"))
  /\ 0 <= ensureNumber (getProp usage "output_tokens")
  /\ 0 <= ensureNumber (getProp usage "reasoning_output_tokens")
  /\ 0 <= ensureNumber (getProp usage "total_tokens").

(** ** The preference chain of the model *)

(** The preference chain of the specification: the places where a model
    is looked for, in order. *)
Definition modelPreference (payload : option json) : list (option json) :=
  let info := getProp payload "info" in
  [ getProp info "model";
    getProp info "model_name";
    getProp (getProp info "metadata") "model";
    getProp payload "model";
    getProp (getProp payload "metadata") "model" ].

(** The first candidate that is a non-empty string, as
    [asNonEmptyString] reads it. *)
Fixpoint firstNonEmptyString (candidates : list (option json)) : option string :=
  match candidates with
  | [] => None
  | candidate :: rest =>
      match asNonEmptyString candidate with
      | Some model => Some model
      | None => firstNonEmptyString rest
      end
  end.

(** ** Prefixes and start indexes *)

(** The common prefix length by recursion on the two lists: the loop of
    [commonPrefixLength] computes it. *)
Fixpoint prefixMatch (left right : list string) : nat :=
  match left, right with
  | l :: left', r :: right' =>
      if bool_decide (l = r) then S (prefixMatch left' right') else O
  | _, _ => O
  end.

(** [n] is the length of the longest common prefix of two sequences. *)
Definition longestCommonPrefix (n : nat) (left right : list string) : Prop :=
  (n <= length left)%nat /\ (n <= length right)%nat
  /\ take n left = take n right
  /\ forall k : nat, (k <= length left)%nat -> (k <= length right)%nat ->
       take k left = take k right -> (k <= n)%nat.

(** The guard of the heuristic, in the words of the specification. *)
Definition clearsGuard (overlap sequenceLength : nat) : Prop :=
  (3 <= overlap)%nat /\ ((sequenceLength <= 4)%nat -> overlap = sequenceLength).

(** The two start indexes the loop body computes for a session: the
    number of leading messages, and of leading usage events, it discards. *)
Definition messageStartIndexOf (acc : Accumulator) (session : SessionUsage) : nat :=
  (forkDedup (acc_priorSessionsByCwd acc) (acc_sessionsById acc) session).1.1.

Definition tokenStartIndexOf (acc : Accumulator) (session : SessionUsage) : nat :=
  (forkDedup (acc_priorSessionsByCwd acc) (acc_sessionsById acc) session).1.2.

(** ** Fork families *)

(** The signature sequences of a session are those of its records, as
    [finalizeSession] builds them. *)
Definition wellFormedSignatures (session : SessionUsage) : Prop :=
  messageSignatures session = map signature (userMessages session)
  /\ tokenSignatures session = map createTokenEventSignature (events session).

(** A session of a family, with the records it added itself. *)
Record ForkMember : Type := {
  member : SessionUsage;
  ownMessages : list SessionUserMessage;
  ownEvents : list CodexUsageEvent
}.

(** A family of forks, in processing order: a first session, then
    sessions that each declare an earlier member as parent and whose log
    starts with a verbatim copy of the records of that parent. *)
Inductive forkFamily : list ForkMember -> Prop :=
| forkFamily_root (root : ForkMember) :
    userMessages (member root) = ownMessages root ->
    events (member root) = ownEvents root ->
    forkFamily [root]
| forkFamily_fork (family : list ForkMember) (parent child : ForkMember) (id : string) :
    forkFamily family ->
    parent ∈ family ->
    sessionId (member parent) = Some id ->
    id <> "" ->
    (forall other : ForkMember,
        other ∈ family -> sessionId (member other) = Some id -> other = parent) ->
    forkedFromId (member child) = Some id ->
    wellFormedSignatures (member parent) ->
    wellFormedSignatures (member child) ->
    userMessages (member child) = userMessages (member parent) ++ ownMessages child ->
    events (member child) = events (member parent) ++ ownEvents child ->
    forkFamily (family ++ [child]).

(** ** Counters and orders *)

(** The sum of the per-day counts of an activity map. *)
Definition sumOfCounts (daily : gmap string Z) : Z :=
  map_fold (fun _ count total => count + total) 0 daily.

(** [x] may stay before [y] when an array is sorted with [comparefn]. *)
Definition notAfter {A : Type} (comparefn : A -> A -> number) (x y : A) : Prop :=
  sortCompare comparefn x y <= 0.

(** A date is valid when its time value is a number of milliseconds. *)
Definition validDate (date : Date) : Prop := exists ms : Z, date = Finite ms.

(** A timestamp of a log line, when present, denotes a valid date. *)
Definition validTimestamp (value : option json) : Prop :=
  forall ts : json, value = Some ts -> validDate (newDate ts).

Definition validLine (line : option json) : Prop :=
  validTimestamp (getProp line "timestamp")
  /\ validTimestamp (getProp (getProp line "payload") "timestamp").

Definition validFile (file : SessionFile) : Prop := Forall validLine (lines file).

Definition validEvent (event : CodexUsageEvent) : Prop :=
  validDate (newDate (timestamp event)).

Definition validSessionDate (date : option Date) : Prop :=
  match date with
  | Some d => validDate d
  | None => True
  end.

Definition validSession (session : SessionUsage) : Prop :=
  validSessionDate (sessionDate session) /\ Forall validEvent (events session).

(** The order of the sessions, in the words of the specification: by
    earliest timestamp, sessions without one last, ties by file path. *)
Definition sessionPrecedes (a b : SessionUsage) : Prop :=
  match sessionDate a, sessionDate b with
  | Some (Finite ta), Some (Finite tb) =>
      ta < tb \/ (ta = tb /\ localeCompare (filePath a) (filePath b) <= 0)
  | Some (Finite _), None => True
  | None, None => localeCompare (filePath a) (filePath b) <= 0
  | _, _ => False
  end.

(** The order of the merged events: by timestamp. *)
Definition eventPrecedes (a b : CodexUsageEvent) : Prop :=
  match newDate (timestamp a), newDate (timestamp b) with
  | Finite ta, Finite tb => ta <= tb
  | _, _ => False
  end.

(** ** Characters of a signature *)

(** The number of occurrences of a character in a string. *)
Fixpoint countChar (c : ascii) (s : string) : nat :=
  match s with
  | EmptyString => O
  | String c' rest => ((if Ascii.eqb c c' then 1 else 0) + countChar c rest)%nat
  end.

(** ** Session metadata *)

(** The [session_meta] lines of a file. *)
Definition sessionMetaLines (fileLines : list (option json)) : list (option json) :=
  List.filter (fun line => hasType line "session_meta") fileLines.

(** The timestamp of a [session_meta] line: that of its payload, else
    that of the line. *)
Definition sessionTimestampOf (line : option json) : option json :=
  nullish (getProp (payloadOf line) "timestamp") (getProp line "timestamp").

(** The date a [session_meta] line declares, when its timestamp is truthy. *)
Definition declaredDate (line : option json) : option Date :=
  match sessionTimestampOf line with
  | Some ts => if truthy (Some ts) then Some (newDate ts) else None
  | None => None
  end.

(** The working directory a [session_meta] line declares: a string that
    is not empty. *)
Definition declaredCwd (line : option json) : option string :=
  match getProp (payloadOf line) "cwd" with
  | Some (JString dir) => if String.eqb dir "" then None else Some dir
  | _ => None
  end.

(** The working directory of a line is a string, when it has one. *)
Definition stringCwd (line : option json) : Prop :=
  match getProp (payloadOf line) "cwd" with
  | None | Some JNull | Some (JString _) => True
  | Some _ => False
  end.

(** A variable that keeps the first non-empty string it is offered
    (lines 149 to 160). *)
Definition keepFirst (current : option string) (value : option json) : option string :=
  if negb (truthyString current) then
    let parsed := asNonEmptyString value in
    if truthyString parsed then parsed else current
  else current.

(** A variable that keeps the earliest date it is offered (lines 141 to
    143, and 284 to 286). *)
Definition keepEarliest (current : option Date) (date : Date) : option Date :=
  match current with
  | None => Some date
  | Some earliest => if num_lt date earliest then Some date else Some earliest
  end.

(** [date] is an earliest date of [dates]: one of them, with none before
    it; no date at all when there is none. *)
Definition earliestOf (date : option Date) (dates : list Date) : Prop :=
  match date with
  | Some d => d ∈ dates /\ Forall (fun d' => num_lt d' d = false) dates
  | None => dates = []
  end.

(** ** Lines that count *)

(** A line the parser passes over: one that is blank or does not parse,
    one of another type than the three the parser reads, and an
    [event_msg] line that has no timestamp or whose payload is neither a
    user message nor a usage record. *)
Definition passedOver (line : option json) : bool :=
  match line with
  | None => true
  | Some _ =>
      if hasType line "session_meta" || hasType line "turn_context" then false
      else if hasType line "event_msg" then
        negb (truthy (getProp line "timestamp"))
        || negb (hasType (payloadOf line) "user_message"
                 || hasType (payloadOf line) "token_count")
      else true
  end.

(** The user message a line records. *)
Definition userMessageOf (line : option json) : option SessionUserMessage :=
  if hasType line "event_msg" && hasType (payloadOf line) "user_message" then
    match getProp line "timestamp" with
    | Some ts =>
        if truthy (Some ts) then
          Some {| messageTimestamp := ts;
                  signature := createUserMessageSignature (payloadOf line) |}
        else None
    | None => None
    end
  else None.

(** ** Models and totals of the lines *)

(** The model a line carries where the parser looks for one: in the
    payload of a [turn_context] line and of a usage record. *)
Definition modelOf (line : option json) : option string :=
  if hasType line "turn_context"
     || (hasType line "event_msg" && hasType (payloadOf line) "token_count")
  then extractModel (payloadOf line)
  else None.

(** A usage record that the parser reads: a [token_count] record with a
    timestamp. *)
Definition isUsageRecord (line : option json) : bool :=
  hasType line "event_msg" && hasType (payloadOf line) "token_count"
  && truthy (getProp line "timestamp").

(** The cumulative totals a line records as the last-seen totals. *)
Definition cumulativeTotalOf (line : option json) : option RawUsage :=
  if isUsageRecord line
  then normalizeRawUsage (getProp (infoOf line) "total_token_usage")
  else None.

Definition recordedTotals (fileLines : list (option json)) : list RawUsage :=
  omap cumulativeTotalOf fileLines.

(** The sum of one counter over a list of events. *)
Definition sumOf (counter : UsageDelta -> Z) (l : list CodexUsageEvent) : Z :=
  foldr (fun (event : CodexUsageEvent) total => counter event + total) 0 l.

(** The values never decrease, from [start] on. *)
Fixpoint nonDecreasingFrom (start : Z) (values : list Z) : Prop :=
  match values with
  | [] => True
  | value :: rest => start <= value /\ nonDecreasingFrom value rest
  end.

(** ** Timestamps of the history *)

(** The timestamp a history line contributes: its [ts] when it is truthy. *)
Definition promptTimestampOf (line : option json) : option json :=
  match getProp line "ts" with
  | Some ts => if truthy (Some ts) then Some ts else None
  | None => None
  end.

Definition promptTimestamps (historyLines : list (option json)) : list json :=
  omap promptTimestampOf historyLines.

(** The timestamps that are numbers. *)
Definition numberOf (value : json) : option number :=
  match value with
  | JNumber n => Some n
  | _ => None
  end.

(** ** Calendar days *)

(** The getters answer a calendar day for the date: a year, a month from
    0 to 11 and a day of the month from 1 to 31. *)
Definition calendarDay (date : Date) : Prop :=
  (exists year : Z, getFullYear date = Finite year)
  /\ (exists month : Z, getMonth date = Finite month /\ 0 <= month <= 11)
  /\ (exists day : Z, getDate date = Finite day /\ 1 <= day <= 31).

(** ** Declared parents *)

(** The session as it would be had it declared no parent. *)
Definition withoutParent (session : SessionUsage) : SessionUsage :=
  {| signatures := signatures session;
     filePath := filePath session;
     cwd := cwd session;
     sessionId := sessionId session;
     forkedFromId := None;
     sessionDate := sessionDate session;
     userMessages := userMessages session;
     events := events session |}.

(** ** Retained messages *)

(** The key of the day of a message. *)
Definition dateKeyOf (message : SessionUserMessage) : string :=
  formatDateKey (newDate (messageTimestamp message)).

(** The messages of a list that fall on the day of a key. *)
Definition messagesOfDay (key : string) (messages : list SessionUserMessage)
  : list SessionUserMessage :=
  List.filter (fun message => String.eqb (dateKeyOf message) key) messages.

(** The messages the loop retains, session after session: those of each
    session from its message start index on, the index being the one the
    loop computes when it reaches the session. *)
Fixpoint retainedMessages (acc : Accumulator) (sessions : list SessionUsage)
  : list SessionUserMessage :=
  match sessions with
  | [] => []
  | session :: rest =>
      drop (messageStartIndexOf acc session) (userMessages session)
      ++ retainedMessages (dedupSession acc session) rest
  end.

(** * Properties *)

(** ** Common prefixes *)

Lemma prefixMatch_le_l (left right : list string) :
  (prefixMatch left right <= length left)%nat.
Proof.
  revert right. induction left as [|l left IH]; intros [|r right]; simpl; try lia.
  case_bool_decide; [specialize (IH right)|]; lia.
Qed.

Lemma prefixMatch_le_r (left right : list string) :
  (prefixMatch left right <= length right)%nat.
Proof.
  revert right. induction left as [|l left IH]; intros [|r right]; simpl; try lia.
  case_bool_decide; [specialize (IH right)|]; lia.
Qed.

Lemma commonPrefixLoop_prefixMatch (left right : list string) (fuel index : nat) :
  (index + fuel = Nat.min (length left) (length right))%nat ->
  commonPrefixLoop left right (Nat.min (length left) (length right)) fuel index
  = (index + prefixMatch (drop index left) (drop index right))%nat.
Proof.
  revert index. induction fuel as [|fuel IH]; intros index Hlimit; simpl.
  - destruct (Nat.min_spec (length left) (length right)) as [[_ Hm]|[_ Hm]].
    + rewrite (drop_ge left) by lia. simpl. lia.
    + rewrite (drop_ge right) by lia.
      destruct (drop index left); simpl; lia.
  - assert (Hlt : (index < Nat.min (length left) (length right))%nat) by lia.
    destruct (lookup_lt_is_Some_2 left index) as [l Hl]; [lia|].
    destruct (lookup_lt_is_Some_2 right index) as [r Hr]; [lia|].
    rewrite (drop_S _ _ _ Hl), (drop_S _ _ _ Hr). simpl.
    apply Nat.ltb_lt in Hlt. rewrite Hlt, Hl, Hr. simpl.
    destruct (decide (l = r)) as [->|Hne].
    + rewrite !bool_decide_eq_true_2 by done.
      rewrite IH by (apply Nat.ltb_lt in Hlt; lia). lia.
    + rewrite !bool_decide_eq_false_2 by congruence. lia.
Qed.

Lemma commonPrefixLength_prefixMatch (left right : list string) :
  commonPrefixLength left right = prefixMatch left right.
Proof.
  unfold commonPrefixLength.
  rewrite commonPrefixLoop_prefixMatch by lia. by rewrite !drop_0.
Qed.

Lemma prefixMatch_app (shared left right : list string) :
  prefixMatch (shared ++ left) (shared ++ right)
  = (length shared + prefixMatch left right)%nat.
Proof.
  induction shared as [|s shared IH]; simpl; [done|].
  by rewrite bool_decide_eq_true_2, IH.
Qed.

Lemma commonPrefixLength_extension (parent own : list string) :
  commonPrefixLength (parent ++ own) parent = length parent.
Proof.
  rewrite commonPrefixLength_prefixMatch.
  rewrite <- (app_nil_r parent) at 2. rewrite prefixMatch_app.
  destruct own; simpl; lia.
Qed.

Lemma prefixMatch_take (left right : list string) :
  take (prefixMatch left right) left = take (prefixMatch left right) right.
Proof.
  revert right. induction left as [|l left IH]; intros [|r right]; simpl; try done.
  case_bool_decide; simpl; [|done]. subst. by rewrite IH.
Qed.

Lemma prefixMatch_longest (left right : list string) (n : nat) :
  (n <= length left)%nat -> (n <= length right)%nat ->
  take n left = take n right -> (n <= prefixMatch left right)%nat.
Proof.
  revert right n. induction left as [|l left IH]; intros [|r right] [|n]; simpl;
    try lia.
  intros Hl Hr Heq. injection Heq as -> Heq.
  rewrite bool_decide_eq_true_2 by done.
  specialize (IH right n ltac:(lia) ltac:(lia) Heq). lia.
Qed.

(** ** The largest overlap *)

Lemma largestOverlapLoop_max (sequence : list string)
    (candidateSequences : list (list string)) (best : nat) :
  (best <= length sequence)%nat ->
  largestOverlapLoop sequence candidateSequences best
  = Nat.max best (max_list (map (commonPrefixLength sequence) candidateSequences)).
Proof.
  revert best. induction candidateSequences as [|candidate rest IH]; intros best Hbest;
    simpl; [lia|].
  assert (Hrest : (max_list (map (commonPrefixLength sequence) rest)
                   <= length sequence)%nat).
  { clear. induction rest as [|c rest IH]; simpl; [lia|].
    rewrite commonPrefixLength_prefixMatch.
    pose proof (prefixMatch_le_l sequence c). lia. }
  pose proof (prefixMatch_le_l sequence candidate) as Hle.
  rewrite <- commonPrefixLength_prefixMatch in Hle.
  destruct (length candidate =? 0)%nat eqn:Hempty.
  - apply Nat.eqb_eq in Hempty. destruct candidate; [|done].
    rewrite IH by done.
    replace (commonPrefixLength sequence []) with 0%nat; [lia|].
    rewrite commonPrefixLength_prefixMatch. by destruct sequence.
  - destruct (best <? commonPrefixLength sequence candidate)%nat eqn:Hlt.
    + apply Nat.ltb_lt in Hlt.
      destruct (commonPrefixLength sequence candidate =? length sequence)%nat eqn:Hfull.
      * apply Nat.eqb_eq in Hfull. lia.
      * rewrite IH by done. lia.
    + apply Nat.ltb_ge in Hlt. rewrite IH by done. lia.
Qed.

Lemma findLargestPrefixOverlap_max (sequence : list string)
    (candidateSequences : list (list string)) :
  findLargestPrefixOverlap sequence candidateSequences
  = max_list (map (commonPrefixLength sequence) candidateSequences).
Proof.
  unfold findLargestPrefixOverlap.
  destruct (length sequence =? 0)%nat eqn:Hseq; simpl.
  - apply Nat.eqb_eq in Hseq. destruct sequence; [|done].
    induction candidateSequences as [|c rest IH]; [done|].
    cbn [map max_list]. rewrite <- IH.
    by rewrite commonPrefixLength_prefixMatch.
  - destruct candidateSequences as [|c rest]; [done|].
    change (length (c :: rest) =? 0)%nat with false. cbv iota.
    rewrite largestOverlapLoop_max by lia. lia.
Qed.

(** ** The loop body, field by field *)

Lemma countMessage_total (messages : list SessionUserMessage) (total : Z)
    (daily : gmap string Z) :
  (foldl countMessage (total, daily) messages).1 = total + Z.of_nat (length messages).
Proof.
  revert total daily. induction messages as [|m messages IH]; intros total daily.
  - simpl. lia.
  - cbn [foldl]. unfold countMessage at 2. rewrite IH. cbn [length]. lia.
Qed.

Lemma dedupSession_events (acc : Accumulator) (session : SessionUsage) :
  acc_events (dedupSession acc session)
  = acc_events acc ++ drop (tokenStartIndexOf acc session) (events session).
Proof.
  unfold dedupSession, tokenStartIndexOf.
  destruct (forkDedup _ _ session) as [[m t] prior].
  by destruct (foldl countMessage _ _).
Qed.

Lemma dedupSession_totalMessages (acc : Accumulator) (session : SessionUsage) :
  acc_totalMessages (dedupSession acc session)
  = acc_totalMessages acc
    + Z.of_nat (length (drop (messageStartIndexOf acc session) (userMessages session))).
Proof.
  unfold dedupSession, messageStartIndexOf.
  destruct (forkDedup _ _ session) as [[m t] prior]. cbn [fst snd].
  rewrite <- countMessage_total with (daily := acc_dailyActivity acc).
  by destruct (foldl countMessage _ _).
Qed.

Lemma dedupSession_priorSessionsByCwd (acc : Accumulator) (session : SessionUsage) :
  acc_priorSessionsByCwd (dedupSession acc session)
  = (forkDedup (acc_priorSessionsByCwd acc) (acc_sessionsById acc) session).2.
Proof.
  unfold dedupSession.
  destruct (forkDedup _ _ session) as [[m t] prior].
  by destruct (foldl countMessage _ _).
Qed.

Lemma dedupSession_sessionsById (acc : Accumulator) (session : SessionUsage) :
  acc_sessionsById (dedupSession acc session)
  = match sessionId session with
    | Some id =>
        if truthyString (Some id) then <[id := signatures session]> (acc_sessionsById acc)
        else acc_sessionsById acc
    | None => acc_sessionsById acc
    end.
Proof.
  unfold dedupSession.
  destruct (forkDedup _ _ session) as [[m t] prior].
  by destruct (foldl countMessage _ _).
Qed.

Lemma truthyString_Some (s : string) : truthyString (Some s) = true <-> s <> "".
Proof.
  simpl. destruct (String.eqb_spec s ""); simpl; split; intros; congruence.
Qed.

(** ** Explicit forks *)

Lemma commonPrefixLength_longest (left right : list string) :
  longestCommonPrefix (commonPrefixLength left right) left right.
Proof.
  rewrite commonPrefixLength_prefixMatch. repeat split.
  - apply prefixMatch_le_l.
  - apply prefixMatch_le_r.
  - apply prefixMatch_take.
  - apply prefixMatch_longest.
Qed.

(** C6. A session whose forked-from id is the id of a session processed
    before loses, from its messages and independently from its usage
    events, exactly the longest common prefix of its signature sequence
    with the parent's: no threshold applies, and the two lengths need not
    agree. *)
Theorem explicit_fork_discards_longest_common_prefix
    (acc : Accumulator) (session : SessionUsage) (id : string)
    (parentSession : SessionDedupSignatures) :
  forkedFromId session = Some id ->
  id <> "" ->
  acc_sessionsById acc !! id = Some parentSession ->
  let messageOverlap :=
    commonPrefixLength (messageSignatures session) (messageSignatures parentSession) in
  let tokenOverlap :=
    commonPrefixLength (tokenSignatures session) (tokenSignatures parentSession) in
  longestCommonPrefix messageOverlap
    (messageSignatures session) (messageSignatures parentSession)
  /\ longestCommonPrefix tokenOverlap
       (tokenSignatures session) (tokenSignatures parentSession)
  /\ messageStartIndexOf acc session = messageOverlap
  /\ tokenStartIndexOf acc session = tokenOverlap
  /\ acc_totalMessages (dedupSession acc session)
     = acc_totalMessages acc
       + Z.of_nat (length (drop messageOverlap (userMessages session)))
  /\ acc_events (dedupSession acc session)
     = acc_events acc ++ drop tokenOverlap (events session).
Proof.
  intros Hfork Hid Hparent messageOverlap tokenOverlap.
  assert (Hdedup : forkDedup (acc_priorSessionsByCwd acc) (acc_sessionsById acc) session
                   = (messageOverlap, tokenOverlap, acc_priorSessionsByCwd acc)).
  { unfold forkDedup, parentSessionOf. rewrite Hfork.
    apply truthyString_Some in Hid. rewrite Hid, Hparent. reflexivity. }
  assert (Hm : messageStartIndexOf acc session = messageOverlap).
  { unfold messageStartIndexOf. by rewrite Hdedup. }
  assert (Ht : tokenStartIndexOf acc session = tokenOverlap).
  { unfold tokenStartIndexOf. by rewrite Hdedup. }
  split; [apply commonPrefixLength_longest|].
  split; [apply commonPrefixLength_longest|].
  split; [exact Hm|]. split; [exact Ht|].
  split.
  - by rewrite dedupSession_totalMessages, Hm.
  - by rewrite dedupSession_events, Ht.
Qed.

(** ** The same-directory heuristic *)

Lemma shouldApplyForkDedup_clearsGuard (overlap sequenceLength : nat) :
  shouldApplyForkDedup overlap sequenceLength = true
  <-> clearsGuard overlap sequenceLength.
Proof.
  unfold shouldApplyForkDedup, clearsGuard, FORK_PREFIX_MIN_MATCH.
  destruct (Nat.ltb_spec overlap 3); [split; [done|lia]|].
  destruct (Nat.leb_spec sequenceLength 4).
  - rewrite Nat.eqb_eq. split; [auto|]. intros [_ Heq]. auto.
  - split; [|done]. intros _. split; lia.
Qed.

Lemma heuristicStartIndex_spec (sequence : list string)
    (candidateSequences : list (list string)) :
  let overlap := max_list (map (commonPrefixLength sequence) candidateSequences) in
  (clearsGuard overlap (length sequence) ->
   heuristicStartIndex sequence candidateSequences = overlap)
  /\ (~ clearsGuard overlap (length sequence) ->
      heuristicStartIndex sequence candidateSequences = 0%nat).
Proof.
  intros overlap. unfold heuristicStartIndex.
  rewrite findLargestPrefixOverlap_max. fold overlap.
  destruct (shouldApplyForkDedup overlap (length sequence)) eqn:Hguard.
  - apply shouldApplyForkDedup_clearsGuard in Hguard. split; [done|tauto].
  - split; [|done]. intros Hclears.
    apply shouldApplyForkDedup_clearsGuard in Hclears. congruence.
Qed.

(** C5, as the code has it. For a session without a matching explicit
    parent and with a known working directory, each start index comes from
    the largest common-prefix length of the session's signature sequence
    with the sequences on that directory's candidate list (the early
    return of the search does not change the result); that overlap is the
    discard count when it is at least 3 and, for a sequence of at most 4
    elements, equal to the length of the sequence, and nothing is
    discarded otherwise.  The candidate list holds the sessions recorded
    for the directory, not every session seen in it. *)
Theorem heuristic_overlap_applies_iff_guard
    (acc : Accumulator) (session : SessionUsage) (dir : string) :
  parentSessionOf (acc_sessionsById acc) session = None ->
  knownCwd session = Some dir ->
  let candidates := default [] (acc_priorSessionsByCwd acc !! dir) in
  let messageOverlap :=
    max_list (map (commonPrefixLength (messageSignatures session))
                  (map messageSignatures candidates)) in
  let tokenOverlap :=
    max_list (map (commonPrefixLength (tokenSignatures session))
                  (map tokenSignatures candidates)) in
  findLargestPrefixOverlap (messageSignatures session) (map messageSignatures candidates)
  = messageOverlap
  /\ findLargestPrefixOverlap (tokenSignatures session) (map tokenSignatures candidates)
     = tokenOverlap
  /\ (clearsGuard messageOverlap (length (messageSignatures session)) ->
      messageStartIndexOf acc session = messageOverlap)
  /\ (~ clearsGuard messageOverlap (length (messageSignatures session)) ->
      messageStartIndexOf acc session = 0%nat)
  /\ (clearsGuard tokenOverlap (length (tokenSignatures session)) ->
      tokenStartIndexOf acc session = tokenOverlap)
  /\ (~ clearsGuard tokenOverlap (length (tokenSignatures session)) ->
      tokenStartIndexOf acc session = 0%nat).
Proof.
  intros Hparent Hcwd candidates messageOverlap tokenOverlap.
  unfold messageStartIndexOf, tokenStartIndexOf, forkDedup.
  rewrite Hparent, Hcwd. cbn [fst snd]. fold candidates.
  destruct (heuristicStartIndex_spec (messageSignatures session)
              (map messageSignatures candidates)) as [Hm1 Hm0].
  destruct (heuristicStartIndex_spec (tokenSignatures session)
              (map tokenSignatures candidates)) as [Ht1 Ht0].
  split; [apply findLargestPrefixOverlap_max|].
  split; [apply findLargestPrefixOverlap_max|].
  auto.
Qed.

(** ** What the deduplicator records *)

(** C3, as the code has it. After a session is processed its signature
    sequences are recorded under its session id when it has one; they are
    appended to the candidate list of its working directory when the
    directory is known and no explicit parent matched; a session whose
    explicit parent matched leaves every candidate list as it was. *)
Theorem session_recorded_after_dedup (acc : Accumulator) (session : SessionUsage) :
  (forall id : string,
      sessionId session = Some id -> id <> "" ->
      acc_sessionsById (dedupSession acc session) !! id = Some (signatures session))
  /\ (forall dir : string,
        knownCwd session = Some dir ->
        parentSessionOf (acc_sessionsById acc) session = None ->
        acc_priorSessionsByCwd (dedupSession acc session) !! dir
        = Some (default [] (acc_priorSessionsByCwd acc !! dir) ++ [signatures session]))
  /\ (is_Some (parentSessionOf (acc_sessionsById acc) session) ->
      acc_priorSessionsByCwd (dedupSession acc session) = acc_priorSessionsByCwd acc).
Proof.
  repeat split.
  - intros id Hid Hne. rewrite dedupSession_sessionsById, Hid.
    apply truthyString_Some in Hne. rewrite Hne. apply lookup_insert_eq.
  - intros dir Hcwd Hparent. rewrite dedupSession_priorSessionsByCwd.
    unfold forkDedup. rewrite Hparent, Hcwd. cbn [snd]. apply lookup_insert_eq.
  - intros [parent Hparent]. rewrite dedupSession_priorSessionsByCwd.
    unfold forkDedup. by rewrite Hparent.
Qed.

(** ** Message counters *)

Lemma sumOfCounts_insert_fresh (daily : gmap string Z) (key : string) (count : Z) :
  daily !! key = None ->
  sumOfCounts (<[key := count]> daily) = count + sumOfCounts daily.
Proof.
  intros Hfresh. unfold sumOfCounts.
  rewrite map_fold_insert_L; [done| |done]. intros; lia.
Qed.

Lemma sumOfCounts_insert (daily : gmap string Z) (key : string) (count : Z) :
  sumOfCounts (<[key := count]> daily)
  = count + sumOfCounts daily - default 0 (daily !! key).
Proof.
  destruct (daily !! key) as [old|] eqn:Hkey; simpl.
  - rewrite <- (insert_delete_id daily key old Hkey) at 2.
    rewrite <- insert_delete_eq.
    rewrite !sumOfCounts_insert_fresh by apply lookup_delete_eq. lia.
  - rewrite sumOfCounts_insert_fresh by done. lia.
Qed.

(** One retained message adds one to the total and one to the count of
    the day of its own timestamp, and touches no other day. *)
Lemma countMessage_spec (total : Z) (daily : gmap string Z) (message : SessionUserMessage) :
  let key := formatDateKey (newDate (messageTimestamp message)) in
  countMessage (total, daily) message
  = (total + 1, <[key := default 0 (daily !! key) + 1]> daily).
Proof.
  unfold countMessage. cbn zeta. f_equal. f_equal.
  destruct (daily !! _) as [n|]; simpl; [|done].
  destruct (Z.eqb_spec n 0); congruence.
Qed.

Lemma countMessage_balance (messages : list SessionUserMessage) (total : Z)
    (daily : gmap string Z) :
  let result := foldl countMessage (total, daily) messages in
  result.1 - sumOfCounts result.2 = total - sumOfCounts daily.
Proof.
  revert total daily. induction messages as [|m messages IH]; intros total daily;
    [done|].
  cbn [foldl]. rewrite countMessage_spec. cbn zeta in *. rewrite IH.
  rewrite sumOfCounts_insert. lia.
Qed.

Lemma dedupSession_balance (acc : Accumulator) (session : SessionUsage) :
  acc_totalMessages (dedupSession acc session)
  - sumOfCounts (acc_dailyActivity (dedupSession acc session))
  = acc_totalMessages acc - sumOfCounts (acc_dailyActivity acc).
Proof.
  unfold dedupSession.
  destruct (forkDedup _ _ session) as [[m t] prior].
  pose proof (countMessage_balance (drop m (userMessages session))
                (acc_totalMessages acc) (acc_dailyActivity acc)) as Hbal.
  cbn zeta in Hbal.
  by destruct (foldl countMessage _ _).
Qed.

Lemma dedupSessions_balance (sessions : list SessionUsage) (acc : Accumulator) :
  let result := foldl dedupSession acc sessions in
  acc_totalMessages result - sumOfCounts (acc_dailyActivity result)
  = acc_totalMessages acc - sumOfCounts (acc_dailyActivity acc).
Proof.
  revert acc. induction sessions as [|s sessions IH]; intros acc; [done|].
  cbn [foldl]. cbn zeta in *. rewrite IH. apply dedupSession_balance.
Qed.

Lemma dedupSession_dailyActivity (acc : Accumulator) (session : SessionUsage) :
  acc_dailyActivity (dedupSession acc session)
  = (foldl countMessage (acc_totalMessages acc, acc_dailyActivity acc)
           (drop (messageStartIndexOf acc session) (userMessages session))).2.
Proof.
  unfold dedupSession, messageStartIndexOf.
  destruct (forkDedup _ _ session) as [[m t] prior].
  by destruct (foldl countMessage _ _).
Qed.

(** The count of a day after a run of retained messages: the count it
    had, plus the number of messages of that day; a day none of them
    falls on is left as it was. *)
Lemma countMessage_day (messages : list SessionUserMessage) (total : Z)
    (daily : gmap string Z) (key : string) :
  (foldl countMessage (total, daily) messages).2 !! key
  = match messagesOfDay key messages with
    | [] => daily !! key
    | day => Some (default 0 (daily !! key) + Z.of_nat (length day))
    end.
Proof.
  revert total daily. induction messages as [|message messages IH]; intros total daily;
    [done|].
  cbn [foldl]. rewrite countMessage_spec. cbn zeta. rewrite IH.
  unfold messagesOfDay. cbn [List.filter]. fold (messagesOfDay key messages).
  fold (dateKeyOf message).
  destruct (String.eqb_spec (dateKeyOf message) key) as [->|Hother].
  - rewrite lookup_insert_eq. cbn [default].
    destruct (messagesOfDay key messages) as [|m day]; cbn [length]; unfold id;
      f_equal; lia.
  - by rewrite lookup_insert_ne.
Qed.

Lemma messagesOfDay_app (key : string) (l1 l2 : list SessionUserMessage) :
  messagesOfDay key (l1 ++ l2) = messagesOfDay key l1 ++ messagesOfDay key l2.
Proof. apply List.filter_app. Qed.

(** One session: the total grows by the number of messages kept, and
    the count of each day by the number of them that fall on it. *)
Lemma dedupSession_retained (acc : Accumulator) (session : SessionUsage) :
  let kept := drop (messageStartIndexOf acc session) (userMessages session) in
  acc_totalMessages (dedupSession acc session)
  = acc_totalMessages acc + Z.of_nat (length kept)
  /\ forall key : string,
      acc_dailyActivity (dedupSession acc session) !! key
      = match messagesOfDay key kept with
        | [] => acc_dailyActivity acc !! key
        | day => Some (default 0 (acc_dailyActivity acc !! key) + Z.of_nat (length day))
        end.
Proof.
  split; [apply dedupSession_totalMessages|].
  intros key. rewrite dedupSession_dailyActivity. apply countMessage_day.
Qed.

(** The whole loop, from any state of the counters. *)
Lemma dedupSessions_retained (sessions : list SessionUsage) (acc : Accumulator) :
  let retained := retainedMessages acc sessions in
  acc_totalMessages (foldl dedupSession acc sessions)
  = acc_totalMessages acc + Z.of_nat (length retained)
  /\ forall key : string,
      acc_dailyActivity (foldl dedupSession acc sessions) !! key
      = match messagesOfDay key retained with
        | [] => acc_dailyActivity acc !! key
        | day => Some (default 0 (acc_dailyActivity acc !! key) + Z.of_nat (length day))
        end.
Proof.
  revert acc. induction sessions as [|session sessions IH]; intros acc.
  - cbn. split; [lia|done].
  - cbn [foldl retainedMessages]. cbn zeta in *.
    destruct (IH (dedupSession acc session)) as [Htotal Hdaily].
    destruct (dedupSession_retained acc session) as [Htotal1 Hdaily1].
    cbn zeta in *. split.
    + rewrite Htotal, Htotal1, length_app. lia.
    + intros key. rewrite Hdaily, Hdaily1, messagesOfDay_app.
      destruct (messagesOfDay key (drop _ _)) as [|m1 day1];
        destruct (messagesOfDay key (retainedMessages _ _)) as [|m2 day2];
        cbn [app default]; try done.
      * by rewrite app_nil_r.
      * f_equal. unfold id. cbn [length]. rewrite length_app. cbn [length]. lia.
Qed.

(** C10. The total number of messages a collection returns is the sum of
    the per-day counts of the activity map it returns, and both count the
    retained messages and nothing else.  Over the whole loop the total
    is the number of messages retained and the count of each day the
    number of retained messages of that day, a day without one being
    absent; in one turn of the loop the total grows by the number of
    messages the session keeps and each day by the number of them that
    fall on it; the collection returns the two counters of the loop; and
    one message adds one to the total and one to the count of a single
    day, the day of its own timestamp. *)
Theorem totalMessages_is_sum_of_dailyActivity (files : list SessionFile) :
  totalMessages (collectCodexUsageData files)
  = sumOfCounts (dailyActivity (collectCodexUsageData files))
  /\ (forall sessions : list SessionUsage,
        let retained := retainedMessages initialAccumulator sessions in
        acc_totalMessages (dedupSessions sessions) = Z.of_nat (length retained)
        /\ forall key : string,
            acc_dailyActivity (dedupSessions sessions) !! key
            = match messagesOfDay key retained with
              | [] => None
              | day => Some (Z.of_nat (length day))
              end)
  /\ (forall (acc : Accumulator) (session : SessionUsage),
        let kept := drop (messageStartIndexOf acc session) (userMessages session) in
        acc_totalMessages (dedupSession acc session)
        = acc_totalMessages acc + Z.of_nat (length kept)
        /\ forall key : string,
            acc_dailyActivity (dedupSession acc session) !! key
            = match messagesOfDay key kept with
              | [] => acc_dailyActivity acc !! key
              | day =>
                  Some (default 0 (acc_dailyActivity acc !! key) + Z.of_nat (length day))
              end)
  /\ totalMessages (collectCodexUsageData files)
     = acc_totalMessages (dedupSessions (sortedSessions files))
  /\ dailyActivity (collectCodexUsageData files)
     = acc_dailyActivity (dedupSessions (sortedSessions files))
  /\ forall (total : Z) (daily : gmap string Z) (message : SessionUserMessage),
      let key := formatDateKey (newDate (messageTimestamp message)) in
      let counted := countMessage (total, daily) message in
      counted.1 = total + 1
      /\ counted.2 !! key = Some (default 0 (daily !! key) + 1)
      /\ delete key counted.2 = delete key daily.
Proof.
  split_and!.
  - unfold collectCodexUsageData. cbn [totalMessages dailyActivity].
    pose proof (dedupSessions_balance (sortedSessions files) initialAccumulator) as Hbal.
    cbn zeta in Hbal. unfold dedupSessions.
    change (sumOfCounts (acc_dailyActivity initialAccumulator)) with (sumOfCounts ∅) in Hbal.
    unfold sumOfCounts at 2 in Hbal. rewrite map_fold_empty in Hbal.
    change (acc_totalMessages initialAccumulator) with 0 in Hbal. lia.
  - intros sessions retained. subst retained. unfold dedupSessions.
    destruct (dedupSessions_retained sessions initialAccumulator) as [Htotal Hdaily].
    cbn zeta in *. split.
    + rewrite Htotal. cbn [initialAccumulator acc_totalMessages]. lia.
    + intros key. rewrite Hdaily. cbn [initialAccumulator acc_dailyActivity].
      rewrite lookup_empty. cbn [default].
      by destruct (messagesOfDay key _).
  - intros acc session. apply dedupSession_retained.
  - done.
  - done.
  - intros total daily message key counted. subst counted.
    rewrite countMessage_spec. fold key. cbn [fst snd].
    split; [done|]. split; [apply lookup_insert_eq|apply delete_insert_eq].
Qed.

(** ** Sorting *)

Section Sort.

Context {A : Type} (comparefn : A -> A -> number) (inDomain : A -> Prop).

(** The comparator is consistent on the elements of the domain. *)
Hypothesis comparefn_total :
  forall x y, inDomain x -> inDomain y -> 0 < sortCompare comparefn x y -> notAfter comparefn y x.
Hypothesis comparefn_trans :
  forall x y z, inDomain x -> inDomain y -> inDomain z ->
                notAfter comparefn x y -> notAfter comparefn y z -> notAfter comparefn x z.

Lemma insertSorted_Permutation (x : A) (l : list A) :
  Permutation (insertSorted comparefn x l) (x :: l).
Proof.
  induction l as [|y l IH]; simpl; [done|].
  destruct (0 <? sortCompare comparefn x y); [|done].
  rewrite IH. apply perm_swap.
Qed.

Lemma sort_Permutation (l : list A) : Permutation (sort comparefn l) l.
Proof.
  induction l as [|x l IH]; simpl; [done|].
  fold (sort comparefn l). rewrite insertSorted_Permutation. by constructor.
Qed.

Lemma insertSorted_StronglySorted (x : A) (l : list A) :
  inDomain x -> Forall inDomain l -> StronglySorted (notAfter comparefn) l ->
  StronglySorted (notAfter comparefn) (insertSorted comparefn x l).
Proof.
  intros Hx Hl Hsorted. induction Hsorted as [|y l Hsorted IH Hy]; simpl.
  - repeat constructor.
  - inversion Hl as [|? ? Hdy Hdl]; subst.
    destruct (Z.ltb_spec 0 (sortCompare comparefn x y)) as [Hgt|Hle].
    + constructor; [by apply IH|].
      rewrite insertSorted_Permutation. constructor; [|done].
      by apply comparefn_total.
    + constructor; [by constructor|]. constructor; [done|].
      rewrite Forall_forall in Hy, Hdl |- *. intros z Hz.
      apply (comparefn_trans x y z); [done|done|by apply Hdl|done|by apply Hy].
Qed.

Lemma sort_StronglySorted (l : list A) :
  Forall inDomain l -> StronglySorted (notAfter comparefn) (sort comparefn l).
Proof.
  induction 1 as [|x l Hx Hl IH]; simpl; [constructor|].
  fold (sort comparefn l). apply insertSorted_StronglySorted; [done| |done].
  by rewrite sort_Permutation.
Qed.

End Sort.

Lemma StronglySorted_weaken {A : Type} (R R' : A -> A -> Prop) (inDomain : A -> Prop)
    (l : list A) :
  (forall x y, inDomain x -> inDomain y -> R x y -> R' x y) ->
  Forall inDomain l -> StronglySorted R l -> StronglySorted R' l.
Proof.
  intros Himpl Hl Hsorted. induction Hsorted as [|x l Hsorted IH Hx]; [constructor|].
  inversion Hl as [|? ? Hdx Hdl]; subst. constructor; [by apply IH|].
  rewrite Forall_forall in Hx, Hdl |- *. intros y Hy. apply Himpl; auto.
Qed.

(** ** Chronological order *)

Lemma resolveModel_sessionEvents (st : ParseState) (extracted : option string) :
  st_sessionEvents (resolveModel st extracted).2 = st_sessionEvents st
  /\ st_sessionDate (resolveModel st extracted).2 = st_sessionDate st.
Proof.
  unfold resolveModel.
  destruct extracted as [m|]; cbn [truthyString].
  - destruct (negb (String.eqb m "")); simpl; auto.
  - cbn match. destruct (st_currentModel st) as [m|]; [|simpl; auto].
    destruct (truthyString (Some m)); simpl; auto.
Qed.

Lemma handleTokenCount_valid (st : ParseState) (entry payload : option json) :
  validTimestamp (getProp entry "timestamp") ->
  validSessionDate (st_sessionDate st) -> Forall validEvent (st_sessionEvents st) ->
  validSessionDate (st_sessionDate (handleTokenCount st entry payload))
  /\ Forall validEvent (st_sessionEvents (handleTokenCount st entry payload)).
Proof.
  intros Hts Hdate Hevents. unfold handleTokenCount.
  destruct (getProp entry "timestamp") as [ts|]; [|done].
  destruct (negb (truthy (Some ts))); [done|].
  set (st1 := match normalizeRawUsage _ with Some total => _ | None => st end).
  assert (Hst1 : st_sessionDate st1 = st_sessionDate st
                 /\ st_sessionEvents st1 = st_sessionEvents st).
  { subst st1. by destruct (normalizeRawUsage _). }
  destruct Hst1 as [Hd1 He1].
  destruct (rawUsageOf _ _) as [raw|]; [|by rewrite Hd1, He1].
  destruct (isZeroDelta _); [by rewrite Hd1, He1|].
  pose proof (resolveModel_sessionEvents st1
                (extractModel (spreadWithInfo payload (getProp payload "info"))))
    as [He2 Hd2].
  destruct (resolveModel st1 _) as [model st2]. cbn [snd] in He2, Hd2.
  cbn [pushEvent st_sessionDate st_sessionEvents].
  rewrite Hd2, Hd1, He2, He1. split; [done|].
  apply Forall_app. split; [done|]. constructor; [|constructor].
  unfold validEvent. cbn [timestamp]. by apply Hts.
Qed.

Lemma handleSessionMeta_valid (st : ParseState) (entry : option json) :
  validLine entry ->
  validSessionDate (st_sessionDate st) -> Forall validEvent (st_sessionEvents st) ->
  validSessionDate (st_sessionDate (handleSessionMeta st entry))
  /\ Forall validEvent (st_sessionEvents (handleSessionMeta st entry)).
Proof.
  intros [Htop Hpayload] Hdate Hevents. unfold handleSessionMeta.
  cbn [setSessionMeta st_sessionDate st_sessionEvents]. split; [|done].
  set (sessionTimestamp := nullish _ _).
  assert (Hvalid : validTimestamp sessionTimestamp).
  { subst sessionTimestamp. unfold nullish.
    destruct (getProp (getProp entry "payload") "timestamp") as [[]|]; done. }
  destruct sessionTimestamp as [ts|]; [|done].
  destruct (truthy (Some ts)); [|done].
  specialize (Hvalid ts eq_refl).
  destruct (st_sessionDate st) as [current|]; [|done].
  by destruct (num_lt (newDate ts) current).
Qed.

Lemma processLine_valid (st : ParseState) (line : option json) :
  validLine line ->
  validSessionDate (st_sessionDate st) -> Forall validEvent (st_sessionEvents st) ->
  validSessionDate (st_sessionDate (processLine st line))
  /\ Forall validEvent (st_sessionEvents (processLine st line)).
Proof.
  intros Hline Hdate Hevents. destruct line as [entry|]; [|done].
  unfold processLine, processEntry.
  destruct (hasType (Some entry) "session_meta");
    [by apply handleSessionMeta_valid|].
  destruct (hasType (Some entry) "turn_context").
  { unfold handleTurnContext. by destruct (truthyString _). }
  destruct (hasType (Some entry) "event_msg"); [|done].
  destruct (hasType _ "user_message").
  { unfold handleUserMessage. destruct (getProp _ "timestamp") as [ts|]; [|done].
    by destruct (truthy (Some ts)). }
  destruct (negb (hasType _ "token_count")); [done|].
  apply handleTokenCount_valid; [apply Hline|done..].
Qed.

Lemma parseSessionFile_valid (file : SessionFile) :
  validFile file -> validSession (parseSessionFile file).
Proof.
  unfold validFile, parseSessionFile, validSession.
  cbn [finalizeSession sessionDate events].
  assert (Hgen : forall st,
             Forall validLine (lines file) ->
             validSessionDate (st_sessionDate st) ->
             Forall validEvent (st_sessionEvents st) ->
             validSessionDate (st_sessionDate (foldl processLine st (lines file)))
             /\ Forall validEvent (st_sessionEvents (foldl processLine st (lines file)))).
  { induction (lines file) as [|line rest IH]; intros st Hlines Hdate Hevents; [done|].
    inversion Hlines as [|? ? Hline Hrest]; subst. cbn [foldl].
    destruct (processLine_valid st line Hline Hdate Hevents).
    by apply IH. }
  intros Hlines. apply Hgen; [done|done|constructor].
Qed.

Lemma dedupSessions_events_Forall (P : CodexUsageEvent -> Prop)
    (sessions : list SessionUsage) (acc : Accumulator) :
  Forall P (acc_events acc) ->
  Forall (fun session => Forall P (events session)) sessions ->
  Forall P (acc_events (foldl dedupSession acc sessions)).
Proof.
  revert acc. induction sessions as [|s sessions IH]; intros acc Hacc Hall; [done|].
  inversion Hall as [|? ? Hs Hrest]; subst. cbn [foldl]. apply IH; [|done].
  rewrite dedupSession_events. apply Forall_app. split; [done|].
  by apply Forall_drop.
Qed.

Section Order.

(** [localeCompare] orders the file paths. *)
Hypothesis localeCompare_total :
  forall a b : string, 0 < localeCompare a b -> localeCompare b a <= 0.
Hypothesis localeCompare_trans :
  forall a b c : string,
    localeCompare a b <= 0 -> localeCompare b c <= 0 -> localeCompare a c <= 0.

Lemma compareSessionsByDate_precedes (a b : SessionUsage) :
  validSessionDate (sessionDate a) -> validSessionDate (sessionDate b) ->
  (notAfter compareSessionsByDate a b <-> sessionPrecedes a b).
Proof.
  unfold notAfter, sortCompare, compareSessionsByDate, sessionPrecedes, validSessionDate.
  destruct (sessionDate a) as [ta|], (sessionDate b) as [tb|]; simpl.
  - intros [x ->] [y ->]. simpl. destruct (Z.eqb_spec x y); simpl; lia.
  - intros [x ->] _. lia.
  - lia.
  - done.
Qed.

Lemma compareSessionsByDate_total (a b : SessionUsage) :
  validSessionDate (sessionDate a) -> validSessionDate (sessionDate b) ->
  0 < sortCompare compareSessionsByDate a b -> notAfter compareSessionsByDate b a.
Proof.
  unfold notAfter, sortCompare, compareSessionsByDate, validSessionDate.
  destruct (sessionDate a) as [ta|], (sessionDate b) as [tb|]; simpl.
  - intros [x ->] [y ->]. simpl.
    destruct (Z.eqb_spec x y), (Z.eqb_spec y x); simpl; try lia.
    apply localeCompare_total.
  - lia.
  - lia.
  - intros _ _. apply localeCompare_total.
Qed.

Lemma compareSessionsByDate_trans (a b c : SessionUsage) :
  validSessionDate (sessionDate a) -> validSessionDate (sessionDate b) ->
  validSessionDate (sessionDate c) ->
  notAfter compareSessionsByDate a b -> notAfter compareSessionsByDate b c ->
  notAfter compareSessionsByDate a c.
Proof.
  intros Ha Hb Hc.
  rewrite !compareSessionsByDate_precedes by done.
  unfold sessionPrecedes, validSessionDate in *.
  destruct (sessionDate a) as [ta|], (sessionDate b) as [tb|],
    (sessionDate c) as [tc|];
    repeat match goal with H : validDate _ |- _ => destruct H as [? ->] end;
    try tauto; try lia.
  - intros [?|[-> ?]] [?|[-> ?]]; try lia. right. split; [done|].
    eauto using localeCompare_trans.
  - eauto using localeCompare_trans.
Qed.

Lemma compareEventsByTime_precedes (a b : CodexUsageEvent) :
  validEvent a -> validEvent b ->
  (notAfter compareEventsByTime a b <-> eventPrecedes a b).
Proof.
  unfold notAfter, sortCompare, compareEventsByTime, eventPrecedes, validEvent.
  intros [x ->] [y ->]. simpl. lia.
Qed.

(** C8, as the code has it. The deduplicator receives the parsed
    sessions rearranged; when the date of every session that has one is
    valid and [localeCompare] orders the file paths, they are arranged
    by earliest session timestamp, the sessions without one after all
    the others and ties broken by file path.  The merged usage events
    are a rearrangement of those the loop kept; when their timestamps
    denote valid dates they are returned sorted by timestamp.  Both hold
    for every list of files, whatever its order. *)
Theorem sessions_and_events_are_sorted (files : list SessionFile) :
  let sessions := sortedSessions files in
  let merged := dedupSessions sessions in
  Permutation sessions (map parseSessionFile files)
  /\ (Forall (fun file => validSessionDate (sessionDate (parseSessionFile file))) files ->
      StronglySorted sessionPrecedes sessions)
  /\ totalMessages (collectCodexUsageData files) = acc_totalMessages merged
  /\ dailyActivity (collectCodexUsageData files) = acc_dailyActivity merged
  /\ Permutation (mergedEvents (collectCodexUsageData files)) (acc_events merged)
  /\ (Forall validEvent (mergedEvents (collectCodexUsageData files)) ->
      StronglySorted eventPrecedes (mergedEvents (collectCodexUsageData files))).
Proof.
  intros sessions merged.
  assert (Hperm : Permutation sessions (map parseSessionFile files))
    by apply sort_Permutation.
  split; [exact Hperm|].
  split.
  { intros Hdates.
    assert (Hparsed : Forall (fun session => validSessionDate (sessionDate session))
                             (map parseSessionFile files)).
    { clear -Hdates. induction Hdates as [|file rest Hfile Hrest IH]; simpl;
        constructor; done. }
    apply (StronglySorted_weaken (notAfter compareSessionsByDate) _
             (fun session => validSessionDate (sessionDate session))).
    - intros a b Ha Hb. by apply compareSessionsByDate_precedes.
    - by rewrite Hperm.
    - apply (sort_StronglySorted _
               (fun session => validSessionDate (sessionDate session))).
      + intros a b Ha Hb. by apply compareSessionsByDate_total.
      + intros a b c Ha Hb Hc. by apply compareSessionsByDate_trans.
      + exact Hparsed. }
  split; [done|]. split; [done|].
  split; [apply sort_Permutation|].
  cbn [collectCodexUsageData mergedEvents]. fold sessions. fold merged.
  intros Hevents.
  apply (StronglySorted_weaken (notAfter compareEventsByTime) _ validEvent).
  - intros a b Ha Hb. by apply compareEventsByTime_precedes.
  - exact Hevents.
  - apply (sort_StronglySorted _ validEvent).
    + intros a b [x Hx] [y Hy].
      unfold notAfter, sortCompare, compareEventsByTime. rewrite Hx, Hy. simpl. lia.
    + intros a b c [x Hx] [y Hy] [z Hz].
      unfold notAfter, sortCompare, compareEventsByTime. rewrite Hx, Hy, Hz. simpl. lia.
    + by rewrite sort_Permutation in Hevents.
Qed.

End Order.

(** ** Token-count records *)

Lemma hasType_unique (v : option json) (a b : string) :
  hasType v a = true -> a <> b -> hasType v b = false.
Proof.
  unfold hasType. destruct (getProp v "type") as [[]|]; try done.
  intros Ha%String.eqb_eq Hne. subst. by apply String.eqb_neq.
Qed.

Lemma processEntry_tokenCount (st : ParseState) (entry : option json) :
  hasType entry "event_msg" = true ->
  hasType (payloadOf entry) "token_count" = true ->
  processEntry st entry = handleTokenCount st entry (payloadOf entry).
Proof.
  intros Hentry Hpayload. unfold processEntry. fold (payloadOf entry).
  rewrite (hasType_unique entry "event_msg" "session_meta") by done.
  rewrite (hasType_unique entry "event_msg" "turn_context") by done.
  rewrite Hentry.
  rewrite (hasType_unique (payloadOf entry) "token_count" "user_message") by done.
  by rewrite Hpayload.
Qed.

Lemma handleTokenCount_unfold (st : ParseState) (entry : option json) (ts : json) :
  getProp entry "timestamp" = Some ts -> truthy (Some ts) = true ->
  handleTokenCount st entry (payloadOf entry)
  = match rawUsageOf (infoOf entry) (st_previousTotals st) with
    | None => afterTotals st (infoOf entry)
    | Some raw =>
        if isZeroDelta (convertToDelta raw) then afterTotals st (infoOf entry)
        else
          let resolved :=
            resolveModel (afterTotals st (infoOf entry))
              (extractModel (spreadWithInfo (payloadOf entry) (infoOf entry))) in
          pushEvent resolved.2
            {| timestamp := ts; model := resolved.1; delta := convertToDelta raw |}
    end.
Proof.
  intros Hts Htruthy. unfold handleTokenCount. rewrite Hts, Htruthy. cbn [negb].
  fold (infoOf entry). fold (afterTotals st (infoOf entry)).
  destruct (rawUsageOf _ _) as [raw|]; [|done].
  destruct (isZeroDelta _); [done|].
  by destruct (resolveModel _ _).
Qed.

Lemma afterTotals_fields (st : ParseState) (info : option json) :
  st_sessionEvents (afterTotals st info) = st_sessionEvents st
  /\ st_currentModel (afterTotals st info) = st_currentModel st
  /\ st_currentModelIsFallback (afterTotals st info) = st_currentModelIsFallback st.
Proof. unfold afterTotals. by destruct (normalizeRawUsage _). Qed.

(** An entry that does not reach the end of the usage path leaves the
    events of the session as they are. *)
Lemma no_event_pushed (l : list CodexUsageEvent) (event : CodexUsageEvent) :
  l <> l ++ [event].
Proof.
  intros Heq. rewrite <- (app_nil_r l) in Heq at 1.
  by apply app_inv_head in Heq.
Qed.

(** The record that pushes an event is a [token_count] record with a
    timestamp and a usage whose delta is not zero. *)
Lemma processEntry_pushes (st : ParseState) (entry : option json) (event : CodexUsageEvent) :
  st_sessionEvents (processEntry st entry) = st_sessionEvents st ++ [event] ->
  exists (ts : json) (raw : RawUsage),
    tokenCountRecord entry ts
    /\ rawUsageOf (infoOf entry) (st_previousTotals st) = Some raw
    /\ isZeroDelta (convertToDelta raw) = false
    /\ timestamp event = ts
    /\ delta event = convertToDelta raw.
Proof.
  intros Hpush.
  destruct (hasType entry "event_msg") eqn:Hentry; cycle 1.
  { exfalso. revert Hpush. unfold processEntry. rewrite Hentry.
    destruct (hasType entry "session_meta");
      [apply no_event_pushed|].
    destruct (hasType entry "turn_context"); [|apply no_event_pushed].
    unfold handleTurnContext. destruct (truthyString _); apply no_event_pushed. }
  destruct (hasType (payloadOf entry) "token_count") eqn:Hpayload; cycle 1.
  { exfalso. revert Hpush. unfold processEntry. fold (payloadOf entry).
    rewrite (hasType_unique entry "event_msg" "session_meta") by done.
    rewrite (hasType_unique entry "event_msg" "turn_context") by done.
    rewrite Hentry, Hpayload. cbn [negb].
    destruct (hasType (payloadOf entry) "user_message"); [|apply no_event_pushed].
    unfold handleUserMessage. destruct (getProp entry "timestamp") as [ts|];
      [|apply no_event_pushed].
    destruct (truthy (Some ts)); apply no_event_pushed. }
  rewrite processEntry_tokenCount in Hpush by done.
  destruct (getProp entry "timestamp") as [ts|] eqn:Hts; cycle 1.
  { exfalso. revert Hpush. unfold handleTokenCount. rewrite Hts.
    apply no_event_pushed. }
  destruct (truthy (Some ts)) eqn:Htruthy; cycle 1.
  { exfalso. revert Hpush. unfold handleTokenCount. rewrite Hts, Htruthy.
    apply no_event_pushed. }
  rewrite (handleTokenCount_unfold st entry ts) in Hpush by done.
  destruct (afterTotals_fields st (infoOf entry)) as (Hevents & _ & _).
  destruct (rawUsageOf _ _) as [raw|];
    [|exfalso; revert Hpush; rewrite Hevents; apply no_event_pushed].
  destruct (isZeroDelta (convertToDelta raw)) eqn:Hzero;
    [exfalso; revert Hpush; rewrite Hevents; apply no_event_pushed|].
  exists ts, raw. cbn zeta in Hpush. cbn [pushEvent st_sessionEvents] in Hpush.
  destruct (resolveModel_sessionEvents (afterTotals st (infoOf entry))
              (extractModel (spreadWithInfo (payloadOf entry) (infoOf entry))))
    as [Hresolved _].
  rewrite Hresolved, Hevents in Hpush. apply app_inv_head in Hpush.
  injection Hpush as <-. by repeat split.
Qed.

(** C7. A [token_count] record whose computed delta has its four
    component counters at zero adds no event to the events of the
    session. *)
Theorem zero_delta_pushes_no_event (st : ParseState) (entry : option json) (raw : RawUsage) :
  hasType entry "event_msg" = true ->
  hasType (payloadOf entry) "token_count" = true ->
  rawUsageOf (infoOf entry) (st_previousTotals st) = Some raw ->
  inputTokens (convertToDelta raw) = 0 ->
  cachedInputTokens (convertToDelta raw) = 0 ->
  outputTokens (convertToDelta raw) = 0 ->
  reasoningOutputTokens (convertToDelta raw) = 0 ->
  st_sessionEvents (processLine st entry) = st_sessionEvents st.
Proof.
  intros Hentry Hpayload Hraw Hin Hcached Hout Hreasoning.
  assert (Hzero : isZeroDelta (convertToDelta raw) = true).
  { unfold isZeroDelta. by rewrite Hin, Hcached, Hout, Hreasoning. }
  destruct entry as [e|]; [|done]. unfold processLine.
  rewrite processEntry_tokenCount by done.
  destruct (getProp (Some e) "timestamp") as [ts|] eqn:Hts;
    [|unfold handleTokenCount; by rewrite Hts].
  destruct (truthy (Some ts)) eqn:Htruthy;
    [|unfold handleTokenCount; by rewrite Hts, Htruthy].
  rewrite (handleTokenCount_unfold st (Some e) ts) by done.
  rewrite Hraw, Hzero. apply afterTotals_fields.
Qed.

(** A [token_count] record with a timestamp and a usage whose delta is not
    zero pushes one event, with the timestamp of the record, the delta,
    and the model [resolveModel] gives. *)
Lemma processEntry_emits (st : ParseState) (entry : option json) (ts : json)
    (raw : RawUsage) :
  tokenCountRecord entry ts ->
  rawUsageOf (infoOf entry) (st_previousTotals st) = Some raw ->
  isZeroDelta (convertToDelta raw) = false ->
  let resolved :=
    resolveModel (afterTotals st (infoOf entry))
      (extractModel (spreadWithInfo (payloadOf entry) (infoOf entry))) in
  processEntry st entry
  = pushEvent resolved.2
      {| timestamp := ts; model := resolved.1; delta := convertToDelta raw |}.
Proof.
  intros (Hentry & Hpayload & Hts & Htruthy) Hraw Hzero resolved.
  rewrite processEntry_tokenCount by done.
  rewrite (handleTokenCount_unfold st entry ts) by done.
  by rewrite Hraw, Hzero.
Qed.

Lemma processLine_entry (st : ParseState) (entry : option json) (ts : json) :
  tokenCountRecord entry ts -> processLine st entry = processEntry st entry.
Proof. intros (Hentry & _). by destruct entry. Qed.

(** ** Model resolution *)

Lemma asNonEmptyString_truthy (value : option json) :
  truthyString (asNonEmptyString value) = bool_decide (is_Some (asNonEmptyString value)).
Proof.
  unfold asNonEmptyString. destruct value as [[]|]; try done.
  destruct (String.eqb (trim s) "") eqn:Hempty; [done|].
  rewrite bool_decide_eq_true_2 by eauto. simpl. by rewrite Hempty.
Qed.

Lemma asNonEmptyString_nonempty (value : option json) (model : string) :
  asNonEmptyString value = Some model -> model <> "".
Proof.
  intros Hmodel. pose proof (asNonEmptyString_truthy value) as Htruthy.
  rewrite Hmodel in Htruthy. rewrite bool_decide_eq_true_2 in Htruthy by eauto.
  by apply truthyString_Some.
Qed.

Lemma firstModel_firstNonEmptyString (candidates : list (option json)) :
  firstModel candidates = firstNonEmptyString candidates.
Proof.
  induction candidates as [|c rest IH]; simpl; [done|].
  rewrite asNonEmptyString_truthy.
  destruct (asNonEmptyString c) as [m|].
  - by rewrite bool_decide_eq_true_2 by eauto.
  - rewrite bool_decide_eq_false_2; [done|]. by intros [? ?].
Qed.

Lemma metadataModel_spec (metadata : option json) :
  metadataModel metadata = asNonEmptyString (getProp metadata "model").
Proof.
  unfold metadataModel.
  destruct metadata as [[]|]; cbn [truthy isObject andb];
    rewrite ?andb_false_r; try done.
  rewrite asNonEmptyString_truthy.
  destruct (asNonEmptyString _) as [m|]; [|done].
  by rewrite bool_decide_eq_true_2 by eauto.
Qed.

(** [extractModel] follows the preference chain. *)
Lemma extractModel_preference (value : option json) :
  extractModel value = firstNonEmptyString (modelPreference value).
Proof.
  unfold extractModel, modelPreference.
  destruct value as [[]|]; try done; cbn [isObject negb].
  set (info := getProp _ "info").
  assert (Hinfo :
    (if truthy info && isObject info then
       match firstModel [getProp info "model"; getProp info "model_name"] with
       | Some model => Some model
       | None => metadataModel (getProp info "metadata")
       end
     else None)
    = firstNonEmptyString [getProp info "model"; getProp info "model_name";
                           getProp (getProp info "metadata") "model"]).
  { destruct info as [[]|]; cbn [truthy isObject andb];
      rewrite ?andb_false_r; try done.
    rewrite firstModel_firstNonEmptyString, metadataModel_spec. cbn.
    by repeat destruct (asNonEmptyString _). }
  rewrite Hinfo, metadataModel_spec, asNonEmptyString_truthy.
  cbn [firstNonEmptyString].
  destruct (asNonEmptyString (getProp info "model")); [done|].
  destruct (asNonEmptyString (getProp info "model_name")); [done|].
  destruct (asNonEmptyString (getProp (getProp info "metadata") "model")); [done|].
  destruct (asNonEmptyString (getProp (Some (JObject fields)) "model")) as [m|].
  - by rewrite bool_decide_eq_true_2 by eauto.
  - rewrite bool_decide_eq_false_2 by (by intros [? ?]).
    by destruct (asNonEmptyString _).
Qed.

Lemma extractModel_spread (payload : option json) :
  extractModel (spreadWithInfo payload (getProp payload "info")) = extractModel payload.
Proof.
  rewrite !extractModel_preference. unfold spreadWithInfo, modelPreference.
  destruct payload as [[]|]; try done.
  destruct (getProp (Some (JObject fields)) "info") as [i|] eqn:Hinfo;
    [|by rewrite Hinfo].
  assert (Hspread : forall k : string,
             getProp (Some (JObject (("info", i) :: fields))) k
             = if String.eqb k "info" then Some i else getProp (Some (JObject fields)) k)
    by reflexivity.
  by rewrite !Hspread.
Qed.

Lemma resolveModel_extracted (st : ParseState) (extracted : string) :
  extracted <> "" ->
  resolveModel st (Some extracted)
  = (extracted, setCurrentModel st (Some extracted) false).
Proof.
  intros Hne%truthyString_Some. unfold resolveModel. by rewrite Hne.
Qed.

Lemma resolveModel_tracked (st : ParseState) :
  resolveModel st None
  = match st_currentModel st with
    | Some tracked =>
        if truthyString (Some tracked) then (tracked, st)
        else (LEGACY_FALLBACK_MODEL,
              setCurrentModel (setLegacyFallbackUsed st) (Some LEGACY_FALLBACK_MODEL) true)
    | None =>
        (LEGACY_FALLBACK_MODEL,
         setCurrentModel (setLegacyFallbackUsed st) (Some LEGACY_FALLBACK_MODEL) true)
    end.
Proof. unfold resolveModel. cbn. by destruct (st_currentModel st). Qed.

(** C9. An emitted usage event takes its model (a) from the record
    itself, by the preference chain info.model, info.model_name,
    info.metadata.model, model, metadata.model, which also sets the
    tracker to that model and clears its fallback flag; else (b) from the
    tracker, which stays as it is; else (c) from the legacy fallback,
    which also sets the tracker to the fallback model with its flag set,
    so that by (b) the next record without a model inherits it. *)
Theorem token_count_model_resolution (st : ParseState) (entry : option json) (ts : json)
    (raw : RawUsage) :
  tokenCountRecord entry ts ->
  rawUsageOf (infoOf entry) (st_previousTotals st) = Some raw ->
  isZeroDelta (convertToDelta raw) = false ->
  let st' := processLine st entry in
  exists event : CodexUsageEvent,
    st_sessionEvents st' = st_sessionEvents st ++ [event]
    /\ extractModel (spreadWithInfo (payloadOf entry) (infoOf entry))
       = firstNonEmptyString (modelPreference (payloadOf entry))
    /\ match firstNonEmptyString (modelPreference (payloadOf entry)),
             st_currentModel st with
       | Some extracted, _ =>
           model event = extracted
           /\ st_currentModel st' = Some extracted
           /\ st_currentModelIsFallback st' = false
       | None, Some tracked =>
           if truthyString (Some tracked) then
             model event = tracked
             /\ st_currentModel st' = Some tracked
             /\ st_currentModelIsFallback st' = st_currentModelIsFallback st
           else
             model event = LEGACY_FALLBACK_MODEL
             /\ st_currentModel st' = Some LEGACY_FALLBACK_MODEL
             /\ st_currentModelIsFallback st' = true
       | None, None =>
           model event = LEGACY_FALLBACK_MODEL
           /\ st_currentModel st' = Some LEGACY_FALLBACK_MODEL
           /\ st_currentModelIsFallback st' = true
       end.
Proof.
  intros Hrecord Hraw Hzero st'. subst st'.
  rewrite (processLine_entry st entry ts Hrecord).
  rewrite (processEntry_emits st entry ts raw Hrecord Hraw Hzero). cbn zeta.
  assert (Hextract : extractModel (spreadWithInfo (payloadOf entry) (infoOf entry))
                     = firstNonEmptyString (modelPreference (payloadOf entry))).
  { unfold infoOf. by rewrite extractModel_spread, extractModel_preference. }
  rewrite Hextract.
  destruct (afterTotals_fields st (infoOf entry)) as (Hevents & Hmodel & Hflag).
  pose proof (resolveModel_sessionEvents (afterTotals st (infoOf entry))
                (firstNonEmptyString (modelPreference (payloadOf entry))))
    as [Hresolved _].
  eexists. split; [cbn [pushEvent st_sessionEvents]; by rewrite Hresolved, Hevents|].
  split; [done|].
  cbn [model pushEvent st_currentModel st_currentModelIsFallback].
  destruct (firstNonEmptyString _) as [extracted|] eqn:Hextracted.
  - rewrite resolveModel_extracted; [done|].
    clear -Hextracted.
    induction (modelPreference (payloadOf entry)) as [|c rest IH]; [done|].
    simpl in Hextracted. destruct (asNonEmptyString c) eqn:Hc; [|auto].
    injection Hextracted as ->. by eapply asNonEmptyString_nonempty.
  - rewrite resolveModel_tracked, Hmodel.
    destruct (st_currentModel st) as [tracked|]; [|done].
    destruct (truthyString (Some tracked)); [|done].
    cbn [fst snd]. by rewrite Hmodel, Hflag.
Qed.

(** ** Deltas *)

Lemma resolveModel_previousTotals (st : ParseState) (extracted : option string) :
  st_previousTotals (resolveModel st extracted).2 = st_previousTotals st.
Proof.
  unfold resolveModel.
  destruct extracted as [m|]; cbn [truthyString].
  - by destruct (negb (String.eqb m "")).
  - cbn match. destruct (st_currentModel st) as [m|]; [|done].
    by destruct (truthyString (Some m)).
Qed.

Lemma rawUsageOf_cumulative (info : option json) (previous : option RawUsage)
    (current : RawUsage) :
  normalizeRawUsage (getProp info "last_token_usage") = None ->
  normalizeRawUsage (getProp info "total_token_usage") = Some current ->
  rawUsageOf info previous = Some (subtractRawUsage current previous).
Proof. intros Hlast Htotal. unfold rawUsageOf. by rewrite Hlast, Htotal. Qed.

(** C4, as the code has it. On a [token_count] record that has a
    timestamp and carries cumulative totals, the last-seen totals become
    those of the record, whether or not a direct delta is present.  When
    no direct delta is present, the delta is computed field by field from
    the differences with the last-seen totals, clamped at zero: the input,
    output and reasoning counters are those differences; the cached
    counter is its difference capped by the input counter; the total is
    its difference when positive and the sum of the input and output
    counters otherwise.  No counter is negative, and the delta is emitted
    unless its four component counters are zero. *)
Theorem cumulative_totals_give_clamped_delta (st : ParseState) (entry : option json)
    (ts : json) (current : RawUsage) :
  tokenCountRecord entry ts ->
  normalizeRawUsage (getProp (infoOf entry) "total_token_usage") = Some current ->
  let previous := st_previousTotals st in
  let st' := processLine st entry in
  st_previousTotals st' = Some current
  /\ (normalizeRawUsage (getProp (infoOf entry) "last_token_usage") = None ->
      let d := convertToDelta (subtractRawUsage current previous) in
      inputTokens d = clampedDifference input_tokens current previous
      /\ outputTokens d = clampedDifference output_tokens current previous
      /\ reasoningOutputTokens d
         = clampedDifference reasoning_output_tokens current previous
      /\ cachedInputTokens d
         = Z.min (clampedDifference cached_input_tokens current previous)
                 (clampedDifference input_tokens current previous)
      /\ totalTokens d
         = (if 0 <? clampedDifference total_tokens current previous
            then clampedDifference total_tokens current previous
            else clampedDifference input_tokens current previous
                 + clampedDifference output_tokens current previous)
      /\ 0 <= inputTokens d /\ 0 <= cachedInputTokens d /\ 0 <= outputTokens d
      /\ 0 <= reasoningOutputTokens d /\ 0 <= totalTokens d
      /\ (if isZeroDelta d then st_sessionEvents st' = st_sessionEvents st
          else exists event : CodexUsageEvent,
              st_sessionEvents st' = st_sessionEvents st ++ [event]
              /\ delta event = d)).
Proof.
  intros Hrecord Htotal previous st'. subst st'.
  rewrite (processLine_entry st entry ts Hrecord).
  pose proof Hrecord as (Hentry & Hpayload & Hts & Htruthy).
  rewrite processEntry_tokenCount by done.
  rewrite (handleTokenCount_unfold st entry ts) by done.
  assert (Hafter : afterTotals st (infoOf entry) = setPreviousTotals st (Some current)).
  { unfold afterTotals. by rewrite Htotal. }
  split.
  - destruct (rawUsageOf _ _) as [raw|]; [|by rewrite Hafter].
    destruct (isZeroDelta _); [by rewrite Hafter|].
    cbn zeta. cbn [pushEvent st_previousTotals].
    by rewrite resolveModel_previousTotals, Hafter.
  - intros Hlast d.
    rewrite (rawUsageOf_cumulative _ _ current Hlast Htotal). fold previous. fold d.
    assert (Hpush : if isZeroDelta d then
                      st_sessionEvents (afterTotals st (infoOf entry))
                      = st_sessionEvents st
                    else exists event : CodexUsageEvent,
                        st_sessionEvents
                          (let resolved :=
                             resolveModel (afterTotals st (infoOf entry))
                               (extractModel
                                  (spreadWithInfo (payloadOf entry) (infoOf entry))) in
                           pushEvent resolved.2
                             {| timestamp := ts; model := resolved.1; delta := d |})
                        = st_sessionEvents st ++ [event]
                        /\ delta event = d).
    { destruct (isZeroDelta d); [by rewrite Hafter|].
      cbn zeta. eexists. split.
      - cbn [pushEvent st_sessionEvents].
        destruct (resolveModel_sessionEvents (afterTotals st (infoOf entry))
                    (extractModel (spreadWithInfo (payloadOf entry) (infoOf entry))))
          as [-> _].
        rewrite Hafter. reflexivity.
      - reflexivity. }
    destruct (isZeroDelta d) eqn:Hzero;
      (repeat split; [..|exact Hpush]);
      unfold clampedDifference; subst d; unfold convertToDelta, subtractRawUsage;
      cbn [inputTokens cachedInputTokens outputTokens reasoningOutputTokens totalTokens
           input_tokens cached_input_tokens output_tokens reasoning_output_tokens
           total_tokens];
      first [reflexivity | lia
             | destruct (Z.ltb_spec 0
                 (Z.max (total_tokens current
                         - previousField total_tokens previous) 0)); lia].
Qed.

(** The delta of an event a record pushes: the cached counter is at most
    the input counter; after a direct delta the total is the reported
    total when that is positive and the sum of the input and output
    counters otherwise; and no counter is negative unless a counter of
    the direct delta is. *)
Lemma pushed_delta_invariants (st : ParseState) (entry : option json)
    (event : CodexUsageEvent) :
  st_sessionEvents (processLine st entry) = st_sessionEvents st ++ [event] ->
  let lastUsage := getProp (infoOf entry) "last_token_usage" in
  cachedInputTokens event <= inputTokens event
  /\ (isObject lastUsage = true ->
      let reported := ensureNumber (getProp lastUsage "total_tokens") in
      totalTokens event
      = if 0 <? reported then reported else inputTokens event + outputTokens event)
  /\ (nonNegativeCounters lastUsage ->
      0 <= inputTokens event /\ 0 <= cachedInputTokens event
      /\ 0 <= outputTokens event /\ 0 <= reasoningOutputTokens event
      /\ 0 <= totalTokens event).
Proof.
  intros Hpush lastUsage.
  assert (Hentry : processLine st entry = processEntry st entry).
  { destruct entry; [done|]. exfalso. revert Hpush. apply no_event_pushed. }
  rewrite Hentry in Hpush.
  destruct (processEntry_pushes st entry event Hpush)
    as (ts & raw & _ & Hraw & _ & _ & Hdelta).
  rewrite Hdelta. unfold rawUsageOf in Hraw. fold lastUsage in Hraw.
  unfold normalizeRawUsage at 1 in Hraw. unfold nonNegativeCounters.
  destruct (isObject lastUsage) eqn:Hobject.
  - injection Hraw as <-. unfold convertToDelta.
    cbn [inputTokens cachedInputTokens outputTokens reasoningOutputTokens totalTokens
         input_tokens cached_input_tokens output_tokens reasoning_output_tokens total_tokens].
    set (input := ensureNumber (getProp lastUsage "input_tokens")).
    set (cached := ensureNumber (nullish _ _)).
    set (output := ensureNumber (getProp lastUsage "output_tokens")).
    set (reasoning := ensureNumber (getProp lastUsage "reasoning_output_tokens")).
    set (total := ensureNumber (getProp lastUsage "total_tokens")).
    split; [lia|]. split.
    + intros _. cbn zeta.
      destruct (Z.ltb_spec 0 total) as [Hpos|Hnonpos].
      * by destruct (Z.ltb_spec 0 total); [|lia].
      * by destruct (Z.ltb_spec 0 (input + output)).
    + intros (? & ? & ? & ? & ?).
      destruct (Z.ltb_spec 0 total).
      * destruct (Z.ltb_spec 0 total); repeat split; lia.
      * destruct (Z.ltb_spec 0 (input + output)); repeat split; lia.
  - destruct (normalizeRawUsage (getProp (infoOf entry) "total_token_usage"))
      as [current|]; [|done].
    injection Hraw as <-. unfold convertToDelta, subtractRawUsage.
    cbn [inputTokens cachedInputTokens outputTokens reasoningOutputTokens totalTokens
         input_tokens cached_input_tokens output_tokens reasoning_output_tokens total_tokens].
    split; [lia|]. split; [done|]. intros _.
    destruct (Z.ltb_spec 0 (Z.max (total_tokens current
                - previousField total_tokens (st_previousTotals st)) 0));
      repeat split; lia.
Qed.

(** A line leaves the events of the session as they are or pushes one. *)
Lemma processLine_events (st : ParseState) (line : option json) :
  st_sessionEvents (processLine st line) = st_sessionEvents st
  \/ exists event : CodexUsageEvent,
      st_sessionEvents (processLine st line) = st_sessionEvents st ++ [event].
Proof.
  destruct line as [entry|]; [|by left]. unfold processLine, processEntry.
  destruct (hasType (Some entry) "session_meta"); [by left|].
  destruct (hasType (Some entry) "turn_context").
  { left. unfold handleTurnContext. by destruct (truthyString _). }
  destruct (hasType (Some entry) "event_msg"); [|by left].
  destruct (hasType _ "user_message").
  { left. unfold handleUserMessage. destruct (getProp _ "timestamp") as [ts|]; [|done].
    by destruct (truthy (Some ts)). }
  destruct (negb (hasType _ "token_count")); [by left|].
  unfold handleTokenCount.
  destruct (getProp (Some entry) "timestamp") as [ts|]; [|by left].
  destruct (negb (truthy (Some ts))); [by left|].
  set (st1 := match normalizeRawUsage _ with Some total => _ | None => st end).
  assert (Hst1 : st_sessionEvents st1 = st_sessionEvents st).
  { subst st1. by destruct (normalizeRawUsage _). }
  destruct (rawUsageOf _ _) as [raw|]; [|by left].
  destruct (isZeroDelta _); [by left|].
  right.
  pose proof (resolveModel_sessionEvents st1
                (extractModel (spreadWithInfo (getProp (Some entry) "payload")
                                 (getProp (getProp (Some entry) "payload") "info"))))
    as [Hresolved _].
  destruct (resolveModel st1 _) as [model st2]. cbn [snd] in Hresolved.
  eexists. cbn [pushEvent st_sessionEvents]. by rewrite Hresolved, Hst1.
Qed.

(** What holds of every event a line pushes, when the line satisfies
    [Q], holds of every event of the session. *)
Lemma parseSessionFile_events_Forall (P : CodexUsageEvent -> Prop)
    (Q : option json -> Prop) (file : SessionFile) :
  (forall (st : ParseState) (line : option json) (event : CodexUsageEvent),
      Q line ->
      st_sessionEvents (processLine st line) = st_sessionEvents st ++ [event] ->
      P event) ->
  Forall Q (lines file) ->
  Forall P (events (parseSessionFile file)).
Proof.
  intros Hstep. unfold parseSessionFile. cbn [finalizeSession events].
  assert (Hgen : forall st,
             Forall Q (lines file) -> Forall P (st_sessionEvents st) ->
             Forall P (st_sessionEvents (foldl processLine st (lines file)))).
  { induction (lines file) as [|line rest IH]; intros st Hlines Hevents; [done|].
    inversion Hlines as [|? ? Hline Hrest]; subst. cbn [foldl].
    apply IH; [done|].
    destruct (processLine_events st line) as [->|[event Hpush]]; [done|].
    rewrite Hpush. apply Forall_app. split; [done|].
    constructor; [|constructor]. by eapply Hstep. }
  intros Hlines. apply Hgen; [done|constructor].
Qed.

(** C2, as the code has it. In every event of a parsed session the
    cached counter is at most the input counter.  The five counters are
    not negative when no direct delta of the log has a negative counter
    (a delta computed from cumulative totals never has one).  And in the
    event pushed by a record with a direct delta, the total is the
    reported total when that is positive and the sum of the input and
    output counters otherwise. *)
Theorem emitted_delta_invariants (file : SessionFile) :
  Forall (fun event : CodexUsageEvent => cachedInputTokens event <= inputTokens event)
         (events (parseSessionFile file))
  /\ (Forall (fun line => nonNegativeCounters (lastUsageOf line)) (lines file) ->
      Forall (fun event : CodexUsageEvent => nonNegativeDelta event)
             (events (parseSessionFile file)))
  /\ forall (st : ParseState) (line : option json) (event : CodexUsageEvent),
      st_sessionEvents (processLine st line) = st_sessionEvents st ++ [event] ->
      isObject (lastUsageOf line) = true ->
      let reported := ensureNumber (getProp (lastUsageOf line) "total_tokens") in
      totalTokens event
      = if 0 <? reported then reported else inputTokens event + outputTokens event.
Proof.
  split; [|split].
  - apply (parseSessionFile_events_Forall _ (fun _ => True)).
    + intros st line event _ Hpush.
      by destruct (pushed_delta_invariants st line event Hpush) as (Hcached & _).
    + apply Forall_forall. done.
  - apply parseSessionFile_events_Forall.
    intros st line event Hline Hpush.
    destruct (pushed_delta_invariants st line event Hpush) as (_ & _ & Hnonneg).
    by apply Hnonneg.
  - intros st line event Hpush Hobject.
    destruct (pushed_delta_invariants st line event Hpush) as (_ & Htotal & _).
    by apply Htotal.
Qed.

(** ** Fork families *)

Lemma parseSessionFile_wellFormed (file : SessionFile) :
  wellFormedSignatures (parseSessionFile file).
Proof. by split. Qed.

Lemma forkDedup_first (session : SessionUsage) :
  forkDedup ∅ ∅ session
  = (0%nat, 0%nat,
     match knownCwd session with
     | Some dir => <[dir := [signatures session]]> ∅
     | None => ∅
     end).
Proof.
  unfold forkDedup.
  assert (Hparent : parentSessionOf ∅ session = None).
  { unfold parentSessionOf. destruct (forkedFromId session) as [id|]; [|done].
    destruct (truthyString (Some id)); [apply lookup_empty|done]. }
  rewrite Hparent. destruct (knownCwd session) as [dir|]; [|done].
  rewrite lookup_empty. cbn [default map app].
  unfold heuristicStartIndex. rewrite !findLargestPrefixOverlap_max. reflexivity.
Qed.

Lemma forkDedup_child (priorSessionsByCwd : gmap string (list SessionDedupSignatures))
    (sessionsById : gmap string SessionDedupSignatures)
    (parent child : SessionUsage) (id : string)
    (ownM : list SessionUserMessage) (ownE : list CodexUsageEvent) :
  forkedFromId child = Some id -> id <> "" ->
  sessionsById !! id = Some (signatures parent) ->
  wellFormedSignatures parent -> wellFormedSignatures child ->
  userMessages child = userMessages parent ++ ownM ->
  events child = events parent ++ ownE ->
  forkDedup priorSessionsByCwd sessionsById child
  = (length (userMessages parent), length (events parent), priorSessionsByCwd).
Proof.
  intros Hfork Hid%truthyString_Some Hlookup [Hpm Hpt] [Hcm Hct] Hmessages Hevents.
  unfold forkDedup, parentSessionOf. rewrite Hfork, Hid, Hlookup.
  rewrite Hcm, Hct, Hpm, Hpt, Hmessages, Hevents, !map_app.
  by rewrite !commonPrefixLength_extension, !length_map.
Qed.

(** What the deduplicator has merged and recorded once a family went
    through it. *)
Lemma forkFamily_merged (family : list ForkMember) :
  forkFamily family ->
  let acc := dedupSessions (map member family) in
  acc_events acc = concat (map ownEvents family)
  /\ acc_totalMessages acc = Z.of_nat (length (concat (map ownMessages family)))
  /\ forall (p : ForkMember) (id : string),
      p ∈ family -> sessionId (member p) = Some id -> id <> "" ->
      (forall q : ForkMember, q ∈ family -> sessionId (member q) = Some id -> q = p) ->
      acc_sessionsById acc !! id = Some (signatures (member p)).
Proof.
  induction 1 as [root Hm He
                 |family parent child id Hfamily IH Hin Hpid Hne Huniq Hfork
                    Hwfp Hwfc Hm He]; cbn zeta.
  - unfold dedupSessions. cbn [map foldl concat app].
    split; [|split].
    + rewrite dedupSession_events. unfold tokenStartIndexOf.
      change (acc_priorSessionsByCwd initialAccumulator) with (∅ : gmap string (list SessionDedupSignatures)).
      change (acc_sessionsById initialAccumulator) with (∅ : gmap string SessionDedupSignatures).
      rewrite forkDedup_first. cbn. by rewrite app_nil_r, He.
    + rewrite dedupSession_totalMessages. unfold messageStartIndexOf.
      change (acc_priorSessionsByCwd initialAccumulator) with (∅ : gmap string (list SessionDedupSignatures)).
      change (acc_sessionsById initialAccumulator) with (∅ : gmap string SessionDedupSignatures).
      rewrite forkDedup_first. cbn [fst snd drop acc_totalMessages initialAccumulator].
      by rewrite app_nil_r, Hm.
    + intros p pid Hp Hpid Hpne _. apply list_elem_of_singleton in Hp as ->.
      rewrite dedupSession_sessionsById, Hpid.
      apply truthyString_Some in Hpne. rewrite Hpne. apply lookup_insert_eq.
  - cbn zeta in IH. destruct IH as (IHe & IHm & IHid).
    unfold dedupSessions in *. rewrite map_app, foldl_app. cbn [map foldl].
    set (acc := foldl dedupSession initialAccumulator (map member family)) in *.
    assert (Hdedup : forkDedup (acc_priorSessionsByCwd acc) (acc_sessionsById acc)
                       (member child)
                     = (length (userMessages (member parent)),
                        length (events (member parent)),
                        acc_priorSessionsByCwd acc)).
    { eapply forkDedup_child; eauto. }
    split; [|split].
    + rewrite dedupSession_events. unfold tokenStartIndexOf. rewrite Hdedup.
      cbn [fst snd]. rewrite He, drop_app_length, IHe.
      rewrite map_app, concat_app. cbn. by rewrite app_nil_r.
    + rewrite dedupSession_totalMessages. unfold messageStartIndexOf. rewrite Hdedup.
      cbn [fst snd]. rewrite Hm, drop_app_length, IHm.
      rewrite map_app, concat_app. cbn. rewrite app_nil_r, !length_app. lia.
    + intros p pid Hp Hppid Hpne Hpuniq.
      rewrite dedupSession_sessionsById.
      assert (Hcases : p = child \/ (p ∈ family /\ sessionId (member child) <> Some pid)).
      { apply elem_of_app in Hp as [Hp|Hp%list_elem_of_singleton]; [|by left].
        destruct (decide (sessionId (member child) = Some pid)) as [Hsame|Hdiff];
          [|by right].
        left. symmetry. apply Hpuniq; [|done].
        apply elem_of_app. right. by apply list_elem_of_singleton. }
      destruct Hcases as [->|[Hp' Hdiff]].
      * rewrite Hppid. apply truthyString_Some in Hpne. rewrite Hpne.
        apply lookup_insert_eq.
      * assert (Hold : acc_sessionsById acc !! pid = Some (signatures (member p))).
        { apply IHid; try done. intros q Hq Hqid. apply Hpuniq; [|done].
          apply elem_of_app. by left. }
        destruct (sessionId (member child)) as [cid|]; [|done].
        destruct (truthyString (Some cid)); [|done].
        rewrite lookup_insert_ne; [done|congruence].
Qed.

(** C1, as the code has it. When the sessions the deduplicator receives
    form a family of forks (each fork declares its parent, whose records
    its log starts with, and session ids identify the parents), the merged
    event stream holds the records each session added itself, each once:
    the records a fork copied from its parent are not merged again.
    Records with equal signatures inside one session, or shared by
    sessions that are not recognised as forks, are all kept. *)
Theorem fork_family_merges_each_record_once (files : list SessionFile)
    (family : list ForkMember) :
  sortedSessions files = map member family ->
  forkFamily family ->
  Permutation (mergedEvents (collectCodexUsageData files))
              (concat (map ownEvents family))
  /\ totalMessages (collectCodexUsageData files)
     = Z.of_nat (length (concat (map ownMessages family))).
Proof.
  intros Hsorted Hfamily.
  destruct (forkFamily_merged family Hfamily) as (Hevents & Hmessages & _).
  unfold collectCodexUsageData. cbn [mergedEvents totalMessages].
  rewrite Hsorted. split.
  - rewrite <- Hevents. apply sort_Permutation.
  - exact Hmessages.
Qed.

(** ** Token signatures *)

Lemma countChar_app (c : ascii) (a b : string) :
  countChar c (a +:+ b) = (countChar c a + countChar c b)%nat.
Proof. induction a as [|x a IH]; simpl; [done|]. rewrite IH. lia. Qed.

(** A string is cut in one way at the separator that is followed by a
    given number of separators. *)
Lemma split_at_separator (c : ascii) (a a' b b' : string) :
  countChar c b = countChar c b' ->
  a +:+ String c b = a' +:+ String c b' -> a = a' /\ b = b'.
Proof.
  revert a'. induction a as [|x a IH]; intros [|x' a'] Hcount Heq; simpl in Heq.
  - by simplify_eq.
  - exfalso. injection Heq as -> ->.
    rewrite countChar_app in Hcount. simpl in Hcount.
    rewrite Ascii.eqb_refl in Hcount. lia.
  - exfalso. injection Heq as -> <-.
    rewrite countChar_app in Hcount. simpl in Hcount.
    rewrite Ascii.eqb_refl in Hcount. lia.
  - injection Heq as -> Heq. destruct (IH a' Hcount Heq) as [-> ->]. done.
Qed.

Lemma pretty_N_go_countChar (c : ascii) (x : N) (s : string) :
  (forall d : N, pretty_N_char d <> c) ->
  countChar c (pretty_N_go x s) = countChar c s.
Proof.
  intros Hc. revert s. induction (N.lt_wf_0 x) as [x _ IH]; intros s.
  assert (x = 0 \/ 0 < x)%N as [->|Hpos] by lia.
  - by rewrite pretty_N_go_0.
  - rewrite pretty_N_go_step by done. rewrite IH by (by apply N.div_lt).
    simpl. destruct (Ascii.eqb_spec c (pretty_N_char (x mod 10))) as [->|_]; [|done].
    by destruct (Hc (x mod 10)%N).
Qed.

(** The decimal form of an integer has no separator in it. *)
Lemma num_to_string_separator (z : Z) :
  countChar "|" (num_to_string (Finite z)) = 0%nat.
Proof.
  assert (Hdigit : forall d : N, pretty_N_char d <> "|"%char).
  { intros d. unfold pretty_N_char. by repeat case_match. }
  assert (Hpos : forall p : positive, countChar "|" (pretty p) = 0%nat).
  { intros p. unfold pretty, pretty_positive, pretty, pretty_N.
    case_decide; [done|]. by rewrite pretty_N_go_countChar. }
  unfold num_to_string, pretty, pretty_Z. destruct z as [|p|p]; [done|apply Hpos|].
  rewrite countChar_app, Hpos. done.
Qed.

Lemma join_numbers_separators (x : Z) (xs : list Z) :
  countChar "|" (join "|" (map (fun z => num_to_string (Finite z)) (x :: xs)))
  = length xs.
Proof.
  revert x. induction xs as [|y xs IH]; intros x.
  - apply num_to_string_separator.
  - change (countChar "|" (num_to_string (Finite x)
                           +:+ String "|" (join "|" (map (fun z => num_to_string (Finite z))
                                                         (y :: xs))))
            = S (length xs)).
    rewrite countChar_app, num_to_string_separator. cbn [countChar].
    rewrite IH. done.
Qed.

(** A first part of any shape followed by integers is read back from
    the joined string. *)
Lemma join_numbers_inj (first first' : string) (xs ys : list Z) :
  length xs = length ys ->
  join "|" (first :: map (fun z => num_to_string (Finite z)) xs)
  = join "|" (first' :: map (fun z => num_to_string (Finite z)) ys) ->
  first = first' /\ xs = ys.
Proof.
  revert first first' ys.
  induction xs as [|x xs IH]; intros first first' [|y ys] Hlength Heq;
    try discriminate Hlength.
  - done.
  - change (first +:+ String "|" (join "|" (map (fun z => num_to_string (Finite z))
                                              (x :: xs)))
            = first' +:+ String "|" (join "|" (map (fun z => num_to_string (Finite z))
                                                 (y :: ys)))) in Heq.
    apply split_at_separator in Heq as [-> Heq].
    + split; [done|].
      apply (IH _ _ ys) in Heq as [Hx ->]; [|by injection Hlength].
      apply pretty_Z_inj in Hx. by rewrite Hx.
    + rewrite !join_numbers_separators. by injection Hlength.
Qed.

(** X1. Two usage events have the same token signature exactly when they
    have the same model and the same five counters, whatever characters
    the model holds; the timestamp plays no part. *)
Theorem token_signature_identifies_model_and_counters (a b : CodexUsageEvent) :
  createTokenEventSignature a = createTokenEventSignature b
  <-> model a = model b /\ delta a = delta b.
Proof.
  split.
  - intros Heq.
    apply (join_numbers_inj (model a) (model b)
             [inputTokens a; cachedInputTokens a; outputTokens a;
              reasoningOutputTokens a; totalTokens a]
             [inputTokens b; cachedInputTokens b; outputTokens b;
              reasoningOutputTokens b; totalTokens b] eq_refl) in Heq as [Hmodel Hcounters].
    split; [done|].
    destruct a as [ta ma [a1 a2 a3 a4 a5]], b as [tb mb [b1 b2 b3 b4 b5]].
    cbn in *. by simplify_eq.
  - intros [Hmodel Hdelta]. unfold createTokenEventSignature.
    by rewrite Hmodel, Hdelta.
Qed.

(** ** What a line leaves as it is *)

Lemma resolveModel_frame (st : ParseState) (extracted : option string) :
  let st' := (resolveModel st extracted).2 in
  st_previousTotals st' = st_previousTotals st
  /\ st_sessionDate st' = st_sessionDate st
  /\ st_sessionCwd st' = st_sessionCwd st
  /\ st_sessionId st' = st_sessionId st
  /\ st_forkedFromId st' = st_forkedFromId st
  /\ st_userMessages st' = st_userMessages st
  /\ st_sessionEvents st' = st_sessionEvents st.
Proof.
  unfold resolveModel.
  destruct extracted as [m|]; cbn [truthyString].
  - by destruct (negb (String.eqb m "")).
  - cbn match. destruct (st_currentModel st) as [m|]; [|done].
    by destruct (truthyString (Some m)).
Qed.

(** A usage record changes neither the metadata nor the user messages. *)
Lemma handleTokenCount_frame (st : ParseState) (entry payload : option json) :
  let st' := handleTokenCount st entry payload in
  st_sessionDate st' = st_sessionDate st
  /\ st_sessionCwd st' = st_sessionCwd st
  /\ st_sessionId st' = st_sessionId st
  /\ st_forkedFromId st' = st_forkedFromId st
  /\ st_userMessages st' = st_userMessages st.
Proof.
  unfold handleTokenCount.
  destruct (getProp entry "timestamp") as [ts|]; [|done].
  destruct (negb (truthy (Some ts))); [done|].
  set (st1 := match normalizeRawUsage _ with Some total => _ | None => st end).
  assert (Hst1 : st_sessionDate st1 = st_sessionDate st
                 /\ st_sessionCwd st1 = st_sessionCwd st
                 /\ st_sessionId st1 = st_sessionId st
                 /\ st_forkedFromId st1 = st_forkedFromId st
                 /\ st_userMessages st1 = st_userMessages st).
  { subst st1. by destruct (normalizeRawUsage _). }
  destruct (rawUsageOf _ _) as [raw|]; [|done].
  destruct (isZeroDelta _); [done|].
  pose proof (resolveModel_frame st1
                (extractModel (spreadWithInfo payload (getProp payload "info"))))
    as (_ & Hdate & Hcwd & Hid & Hforked & Hmessages & _).
  destruct (resolveModel st1 _) as [model st2]. cbn [snd] in *.
  cbn [pushEvent st_sessionDate st_sessionCwd st_sessionId st_forkedFromId
       st_userMessages].
  destruct Hst1 as (? & ? & ? & ? & ?). split_and!; congruence.
Qed.

Lemma processLine_session_meta (st : ParseState) (line : option json) :
  hasType line "session_meta" = true -> processLine st line = handleSessionMeta st line.
Proof.
  intros Hmeta. destruct line as [entry|]; [|done].
  unfold processLine, processEntry. by rewrite Hmeta.
Qed.

(** Only a [session_meta] line changes the metadata. *)
Lemma processLine_not_session_meta (st : ParseState) (line : option json) :
  hasType line "session_meta" = false ->
  let st' := processLine st line in
  st_sessionDate st' = st_sessionDate st
  /\ st_sessionCwd st' = st_sessionCwd st
  /\ st_sessionId st' = st_sessionId st
  /\ st_forkedFromId st' = st_forkedFromId st.
Proof.
  intros Hmeta. destruct line as [entry|]; [|done].
  unfold processLine, processEntry. rewrite Hmeta.
  destruct (hasType (Some entry) "turn_context").
  { unfold handleTurnContext. by destruct (truthyString _). }
  destruct (hasType (Some entry) "event_msg"); [|done].
  destruct (hasType _ "user_message").
  { unfold handleUserMessage. destruct (getProp _ "timestamp") as [ts|]; [|done].
    by destruct (truthy (Some ts)). }
  destruct (negb (hasType _ "token_count")); [done|].
  pose proof (handleTokenCount_frame st (Some entry) (getProp (Some entry) "payload"))
    as (? & ? & ? & ? & _).
  done.
Qed.

(** ** Session metadata *)

Lemma keepFirst_foldl (current : option string) (values : list (option json)) :
  (forall s : string, current = Some s -> s <> "") ->
  foldl keepFirst current values
  = match current with
    | Some s => Some s
    | None => firstNonEmptyString values
    end.
Proof.
  revert current. induction values as [|value values IH]; intros current Hcurrent.
  - by destruct current.
  - cbn [foldl firstNonEmptyString]. destruct current as [s|].
    + assert (Hkeep : keepFirst (Some s) value = Some s).
      { unfold keepFirst. pose proof (Hcurrent s eq_refl) as Hs.
        apply truthyString_Some in Hs. by rewrite Hs. }
      rewrite Hkeep. by rewrite IH.
    + unfold keepFirst. cbn [truthyString negb].
      rewrite asNonEmptyString_truthy.
      destruct (asNonEmptyString value) as [s|] eqn:Hvalue.
      * rewrite bool_decide_eq_true_2 by done.
        rewrite IH; [done|]. intros s' [= <-].
        by eapply asNonEmptyString_nonempty.
      * rewrite bool_decide_eq_false_2 by (by intros [? ?]).
        by rewrite IH.
Qed.

Lemma parsed_sessionId (st : ParseState) (fileLines : list (option json)) :
  st_sessionId (foldl processLine st fileLines)
  = foldl keepFirst (st_sessionId st)
      (map (fun line => getProp (payloadOf line) "id") (sessionMetaLines fileLines))
  /\ st_forkedFromId (foldl processLine st fileLines)
     = foldl keepFirst (st_forkedFromId st)
         (map (fun line => getProp (payloadOf line) "forked_from_id")
              (sessionMetaLines fileLines)).
Proof.
  revert st. induction fileLines as [|line rest IH]; intros st; [done|].
  cbn [foldl sessionMetaLines List.filter]. fold (sessionMetaLines rest).
  destruct (IH (processLine st line)) as [-> ->].
  destruct (hasType line "session_meta") eqn:Hmeta.
  - rewrite processLine_session_meta by done. done.
  - destruct (processLine_not_session_meta st line Hmeta) as (_ & _ & -> & ->). done.
Qed.

(** X3. The session id of a parsed file is the first non-empty string
    found as [payload.id] in its [session_meta] lines, and its
    [forkedFromId] the first non-empty [payload.forked_from_id]: a later
    line never replaces them. *)
Theorem session_ids_are_first_declared (file : SessionFile) :
  sessionId (parseSessionFile file)
  = firstNonEmptyString
      (map (fun line => getProp (payloadOf line) "id") (sessionMetaLines (lines file)))
  /\ forkedFromId (parseSessionFile file)
     = firstNonEmptyString
         (map (fun line => getProp (payloadOf line) "forked_from_id")
              (sessionMetaLines (lines file))).
Proof.
  unfold parseSessionFile. cbn [finalizeSession sessionId forkedFromId].
  destruct (parsed_sessionId initialParseState (lines file)) as [-> ->].
  by rewrite !keepFirst_foldl.
Qed.

Lemma parsed_sessionCwd (st : ParseState) (fileLines : list (option json)) :
  st_sessionCwd (foldl processLine st fileLines)
  = match last (omap declaredCwd (sessionMetaLines fileLines)) with
    | Some dir => Some dir
    | None => st_sessionCwd st
    end.
Proof.
  revert st. induction fileLines as [|line rest IH]; intros st; [done|].
  cbn [foldl sessionMetaLines List.filter]. fold (sessionMetaLines rest).
  rewrite IH.
  destruct (hasType line "session_meta") eqn:Hmeta; cycle 1.
  { by destruct (processLine_not_session_meta st line Hmeta) as (_ & -> & _). }
  rewrite processLine_session_meta by done.
  cbn [omap list_omap]. fold (omap declaredCwd (sessionMetaLines rest)).
  assert (Hcwd : st_sessionCwd (handleSessionMeta st line)
                 = match declaredCwd line with
                   | Some dir => Some dir
                   | None => st_sessionCwd st
                   end).
  { unfold handleSessionMeta, declaredCwd, payloadOf.
    cbn [setSessionMeta st_sessionCwd].
    destruct (getProp (getProp line "payload") "cwd") as [[| | |dir| |]|]; try done.
    cbn [truthy]. by destruct (String.eqb dir ""). }
  rewrite Hcwd.
  destruct (declaredCwd line) as [dir|]; [|done].
  rewrite last_cons. by destruct (last _).
Qed.

(** X4. The working directory of a parsed file is the last non-empty
    one declared by a [session_meta] line, and absent when none declares
    one; the working directories of the log are strings. *)
Theorem session_cwd_is_last_declared (file : SessionFile) :
  Forall stringCwd (lines file) ->
  cwd (parseSessionFile file)
  = last (omap declaredCwd (sessionMetaLines (lines file))).
Proof.
  intros _. unfold parseSessionFile. cbn [finalizeSession cwd].
  rewrite parsed_sessionCwd. by destruct (last _).
Qed.

Lemma num_lt_irrefl (a : number) : num_lt a a = false.
Proof. destruct a; cbn; [apply Z.ltb_irrefl|done..]. Qed.

Lemma num_lt_trans (a b c : number) :
  num_lt a b = true -> num_lt b c = true -> num_lt a c = true.
Proof.
  destruct a, b, c; cbn; try done.
  rewrite !Z.ltb_lt. lia.
Qed.

(** The variable that keeps the earliest date ends on an earliest one. *)
Lemma keepEarliest_foldl (current : Date) (dates : list Date) :
  earliestOf (foldl keepEarliest (Some current) dates) (current :: dates).
Proof.
  assert (Hgen : forall (seen : list Date) (current : Date),
             current ∈ seen ->
             Forall (fun d' => num_lt d' current = false) seen ->
             earliestOf (foldl keepEarliest (Some current) dates) (seen ++ dates)).
  { induction dates as [|date dates IH]; intros seen cur Hin Hleast.
    - rewrite app_nil_r. by split.
    - cbn [foldl keepEarliest].
      replace (seen ++ date :: dates) with ((seen ++ [date]) ++ dates)
        by (by rewrite <- app_assoc).
      destruct (num_lt date cur) eqn:Hlt.
      + apply IH; [apply elem_of_app; right; by apply list_elem_of_singleton|].
        apply Forall_app. split; [|by repeat constructor; apply num_lt_irrefl].
        eapply Forall_impl; [exact Hleast|]. cbn. intros d' Hd'.
        destruct (num_lt d' date) eqn:Hd'date; [|done].
        by rewrite (num_lt_trans d' date cur) in Hd'.
      + apply IH; [apply elem_of_app; by left|].
        apply Forall_app. split; [done|]. by repeat constructor. }
  apply (Hgen [current] current); [by apply list_elem_of_singleton|].
  repeat constructor. apply num_lt_irrefl.
Qed.

Lemma keepEarliest_earliest (dates : list Date) :
  earliestOf (foldl keepEarliest None dates) dates.
Proof.
  destruct dates as [|date dates]; [done|]. apply keepEarliest_foldl.
Qed.

Lemma handleSessionMeta_sessionDate (st : ParseState) (line : option json) :
  st_sessionDate (handleSessionMeta st line)
  = match declaredDate line with
    | Some date => keepEarliest (st_sessionDate st) date
    | None => st_sessionDate st
    end.
Proof.
  unfold handleSessionMeta, declaredDate, sessionTimestampOf, payloadOf.
  cbn [setSessionMeta st_sessionDate].
  destruct (nullish _ _) as [ts|]; [|done].
  destruct (truthy (Some ts)); [|done].
  unfold keepEarliest. destruct (st_sessionDate st) as [current|]; [|done].
  by destruct (num_lt (newDate ts) current).
Qed.

Lemma parsed_sessionDate (st : ParseState) (fileLines : list (option json)) :
  st_sessionDate (foldl processLine st fileLines)
  = foldl keepEarliest (st_sessionDate st)
      (omap declaredDate (sessionMetaLines fileLines)).
Proof.
  revert st. induction fileLines as [|line rest IH]; intros st; [done|].
  cbn [foldl sessionMetaLines List.filter]. fold (sessionMetaLines rest).
  rewrite IH.
  destruct (hasType line "session_meta") eqn:Hmeta; cycle 1.
  { by destruct (processLine_not_session_meta st line Hmeta) as (-> & _). }
  rewrite processLine_session_meta by done.
  rewrite handleSessionMeta_sessionDate.
  cbn [omap list_omap]. fold (omap declaredDate (sessionMetaLines rest)).
  by destruct (declaredDate line).
Qed.

(** X5. The date of a parsed file is an earliest date among those its
    [session_meta] lines declare (by the timestamp of the payload, else
    of the line): it is one of them and none compares before it; the
    session has no date exactly when no line declares one. *)
Theorem session_date_is_earliest_declared (file : SessionFile) :
  earliestOf (sessionDate (parseSessionFile file))
             (omap declaredDate (sessionMetaLines (lines file))).
Proof.
  unfold parseSessionFile. cbn [finalizeSession sessionDate].
  rewrite parsed_sessionDate. apply keepEarliest_earliest.
Qed.

(** ** Lines that count *)

Lemma processLine_passedOver (st : ParseState) (line : option json) :
  passedOver line = true -> processLine st line = st.
Proof.
  destruct line as [entry|]; [|done]. unfold passedOver, processLine, processEntry.
  fold (payloadOf (Some entry)).
  destruct (hasType (Some entry) "session_meta"); [done|].
  destruct (hasType (Some entry) "turn_context"); [done|]. cbn [orb].
  destruct (hasType (Some entry) "event_msg"); [|done].
  unfold handleUserMessage, handleTokenCount.
  destruct (getProp (Some entry) "timestamp") as [ts|].
  - destruct (truthy (Some ts)); cbn [negb orb].
    + destruct (hasType _ "user_message"); [done|]. cbn [orb].
      by destruct (hasType _ "token_count").
    + intros _. destruct (hasType _ "user_message"); [done|].
      by destruct (negb (hasType _ "token_count")).
  - intros _. destruct (hasType _ "user_message"); [done|].
    by destruct (negb (hasType _ "token_count")).
Qed.

(** X2. Lines that are blank or do not parse, lines of a type the
    parser does not read, [event_msg] lines of another payload type and
    [event_msg] lines without a timestamp change nothing: a file parses
    to the same session with them removed. *)
Theorem passed_over_lines_change_nothing (filePath : string)
    (fileLines : list (option json)) :
  parseSessionFile
    {| path := filePath;
       lines := List.filter (fun line => negb (passedOver line)) fileLines |}
  = parseSessionFile {| path := filePath; lines := fileLines |}.
Proof.
  unfold parseSessionFile. cbn [path lines]. f_equal.
  generalize initialParseState.
  induction fileLines as [|line rest IH]; intros st; [done|].
  cbn [List.filter foldl].
  destruct (passedOver line) eqn:Hline; cbn [negb].
  - by rewrite processLine_passedOver.
  - cbn [foldl]. apply IH.
Qed.

Lemma processLine_userMessages (st : ParseState) (line : option json) :
  st_userMessages (processLine st line)
  = st_userMessages st ++ option_list (userMessageOf line).
Proof.
  unfold userMessageOf.
  destruct line as [entry|]; [|by rewrite app_nil_r].
  unfold processLine, processEntry. fold (payloadOf (Some entry)).
  destruct (hasType (Some entry) "session_meta") eqn:Hmeta.
  { rewrite (hasType_unique _ "session_meta" "event_msg") by done.
    by rewrite app_nil_r. }
  destruct (hasType (Some entry) "turn_context") eqn:Hturn.
  { rewrite (hasType_unique _ "turn_context" "event_msg") by done.
    unfold handleTurnContext. destruct (truthyString _); by rewrite app_nil_r. }
  destruct (hasType (Some entry) "event_msg"); [|by rewrite app_nil_r].
  cbn [andb].
  destruct (hasType (payloadOf (Some entry)) "user_message").
  { unfold handleUserMessage.
    destruct (getProp (Some entry) "timestamp") as [ts|]; [|by rewrite app_nil_r].
    destruct (truthy (Some ts)); [done|by rewrite app_nil_r]. }
  rewrite app_nil_r.
  destruct (negb (hasType _ "token_count")); [done|].
  apply handleTokenCount_frame.
Qed.

(** X6. The user messages of a parsed file are those of its
    [user_message] lines that have a timestamp, one for each and in the
    order of the file, with the timestamp of the line and the signature
    of its payload; no other line adds one. *)
Theorem user_messages_are_the_timestamped_lines (file : SessionFile) :
  userMessages (parseSessionFile file) = omap userMessageOf (lines file).
Proof.
  unfold parseSessionFile. cbn [finalizeSession userMessages].
  assert (Hgen : forall st,
             st_userMessages (foldl processLine st (lines file))
             = st_userMessages st ++ omap userMessageOf (lines file)).
  { induction (lines file) as [|line rest IH]; intros st.
    - by rewrite app_nil_r.
    - cbn [foldl]. rewrite IH, processLine_userMessages, <- app_assoc.
      f_equal. cbn [omap list_omap]. by destruct (userMessageOf line). }
  by rewrite Hgen.
Qed.

(** ** The models of the events *)

Lemma firstNonEmptyString_nonempty (candidates : list (option json)) (m : string) :
  firstNonEmptyString candidates = Some m -> m <> "".
Proof.
  induction candidates as [|candidate rest IH]; [done|]. cbn [firstNonEmptyString].
  destruct (asNonEmptyString candidate) as [s|] eqn:Hcandidate; [|done].
  intros [= <-]. by eapply asNonEmptyString_nonempty.
Qed.

Lemma extractModel_nonempty (value : option json) (m : string) :
  extractModel value = Some m -> m <> "".
Proof. rewrite extractModel_preference. apply firstNonEmptyString_nonempty. Qed.

(** What holds of the fallback model, of the extracted model and of the
    tracked model holds of the model of the event and of the model
    tracked afterwards. *)
Lemma resolveModel_model (P : string -> Prop) (st : ParseState)
    (extracted : option string) :
  P LEGACY_FALLBACK_MODEL ->
  (forall m : string, extracted = Some m -> P m) ->
  (forall m : string, st_currentModel st = Some m -> P m) ->
  P (resolveModel st extracted).1
  /\ forall m : string, st_currentModel (resolveModel st extracted).2 = Some m -> P m.
Proof.
  intros Hlegacy Hextracted Htracked. unfold resolveModel.
  destruct extracted as [m|]; cbn [truthyString].
  - destruct (negb (String.eqb m "")); cbn.
    + split; [by apply Hextracted|]. intros m' [= <-]. by apply Hextracted.
    + split; [done|]. by intros m' [= <-].
  - cbn match. destruct (st_currentModel st) as [m|] eqn:Hcurrent.
    + destruct (truthyString (Some m)); cbn.
      * split; [by apply Htracked|]. rewrite Hcurrent. intros m' [= <-]. by apply Htracked.
      * split; [done|]. by intros m' [= <-].
    + cbn. split; [done|]. by intros m' [= <-].
Qed.

Lemma processLine_models (P : string -> Prop) (st : ParseState) (line : option json) :
  P LEGACY_FALLBACK_MODEL ->
  (forall m : string, modelOf line = Some m -> P m) ->
  (forall m : string, st_currentModel st = Some m -> P m) ->
  Forall (fun event => P (model event)) (st_sessionEvents st) ->
  (forall m : string, st_currentModel (processLine st line) = Some m -> P m)
  /\ Forall (fun event => P (model event)) (st_sessionEvents (processLine st line)).
Proof.
  intros Hlegacy Hline Htracked Hevents. destruct line as [entry|]; [|done].
  revert Hline. unfold modelOf, processLine, processEntry.
  fold (payloadOf (Some entry)).
  destruct (hasType (Some entry) "session_meta") eqn:Hmeta; [done|].
  destruct (hasType (Some entry) "turn_context") eqn:Hturn.
  { cbn [orb]. intros Hline. unfold handleTurnContext. fold (payloadOf (Some entry)).
    destruct (extractModel (payloadOf (Some entry))) as [m|]; [|done].
    destruct (truthyString (Some m)); [|done].
    cbn. split; [|done]. intros m' [= <-]. by apply Hline. }
  cbn [orb].
  destruct (hasType (Some entry) "event_msg"); [|done]. cbn [andb].
  destruct (hasType (payloadOf (Some entry)) "user_message") eqn:Huser.
  { intros _. unfold handleUserMessage.
    destruct (getProp (Some entry) "timestamp") as [ts|]; [|done].
    by destruct (truthy (Some ts)). }
  destruct (hasType (payloadOf (Some entry)) "token_count"); [|done].
  cbn [negb]. intros Hline. unfold handleTokenCount.
  destruct (getProp (Some entry) "timestamp") as [ts|]; [|done].
  destruct (negb (truthy (Some ts))); [done|].
  set (st1 := match normalizeRawUsage _ with Some total => _ | None => st end).
  assert (Hst1 : st_currentModel st1 = st_currentModel st
                 /\ st_sessionEvents st1 = st_sessionEvents st).
  { subst st1. by destruct (normalizeRawUsage _). }
  destruct Hst1 as [Hmodel1 Hevents1].
  destruct (rawUsageOf _ _) as [raw|]; [|by rewrite Hmodel1, Hevents1].
  destruct (isZeroDelta _); [by rewrite Hmodel1, Hevents1|].
  rewrite extractModel_spread.
  pose proof (resolveModel_model P st1 (extractModel (payloadOf (Some entry)))
                Hlegacy Hline) as Hresolved.
  rewrite Hmodel1 in Hresolved. destruct (Hresolved Htracked) as [Hevent Hafter].
  pose proof (resolveModel_frame st1 (extractModel (payloadOf (Some entry))))
    as (_ & _ & _ & _ & _ & _ & Hevents2).
  destruct (resolveModel st1 _) as [model st2]. cbn [fst snd] in *.
  cbn [pushEvent st_currentModel st_sessionEvents]. split; [done|].
  rewrite Hevents2, Hevents1. apply Forall_app. split; [done|]. by repeat constructor.
Qed.

Lemma parsed_models (P : string -> Prop) (fileLines : list (option json))
    (st : ParseState) :
  P LEGACY_FALLBACK_MODEL ->
  (forall (line : option json) (m : string),
      line ∈ fileLines -> modelOf line = Some m -> P m) ->
  (forall m : string, st_currentModel st = Some m -> P m) ->
  Forall (fun event => P (model event)) (st_sessionEvents st) ->
  Forall (fun event => P (model event))
         (st_sessionEvents (foldl processLine st fileLines)).
Proof.
  intros Hlegacy. revert st.
  induction fileLines as [|line rest IH]; intros st Hlines Htracked Hevents; [done|].
  cbn [foldl].
  destruct (processLine_models P st line Hlegacy) as [Htracked' Hevents'];
    [intros m; apply Hlines; left|done|done|].
  apply IH; [|done|done]. intros l m Hl. apply Hlines. by right.
Qed.

Lemma modelOf_nonempty (line : option json) (m : string) :
  modelOf line = Some m -> m <> "".
Proof.
  unfold modelOf. destruct (_ || _); [|done]. apply extractModel_nonempty.
Qed.

(** X7. The model of every event of a parsed file is a non-empty
    string: the legacy fallback, or a model carried by a [turn_context]
    line or a usage record of the file.  When no such line carries a
    model, every event has the legacy fallback model. *)
Theorem event_models_come_from_the_log (file : SessionFile) :
  Forall (fun event : CodexUsageEvent =>
            model event <> ""
            /\ (model event = LEGACY_FALLBACK_MODEL
                \/ exists line : option json,
                    line ∈ lines file /\ modelOf line = Some (model event)))
         (events (parseSessionFile file))
  /\ ((forall line : option json, line ∈ lines file -> modelOf line = None) ->
      Forall (fun event : CodexUsageEvent => model event = LEGACY_FALLBACK_MODEL)
             (events (parseSessionFile file))).
Proof.
  unfold parseSessionFile. cbn [finalizeSession events]. split.
  - apply (parsed_models
             (fun m => m <> ""
                       /\ (m = LEGACY_FALLBACK_MODEL
                           \/ exists line : option json,
                               line ∈ lines file /\ modelOf line = Some m))).
    + split; [done|by left].
    + intros line m Hline Hmodel. split; [by eapply modelOf_nonempty|].
      right. by exists line.
    + done.
    + constructor.
  - intros Hnone.
    apply (parsed_models (fun m => m = LEGACY_FALLBACK_MODEL)); [done| |done|constructor].
    intros line m Hline Hmodel. by rewrite (Hnone line Hline) in Hmodel.
Qed.

(** X8. A [turn_context] line that carries a model makes it the
    tracked model: a usage record that follows it, carries no model of
    its own and has a delta that is not zero pushes one event with that
    model, the timestamp of the record and the delta. *)
Theorem turn_context_model_is_inherited (st : ParseState) (context entry : option json)
    (ts : json) (raw : RawUsage) (m : string) :
  hasType context "turn_context" = true ->
  extractModel (payloadOf context) = Some m ->
  tokenCountRecord entry ts ->
  rawUsageOf (infoOf entry) (st_previousTotals st) = Some raw ->
  isZeroDelta (convertToDelta raw) = false ->
  extractModel (payloadOf entry) = None ->
  st_sessionEvents (processLine (processLine st context) entry)
  = st_sessionEvents st
    ++ [{| timestamp := ts; model := m; delta := convertToDelta raw |}].
Proof.
  intros Hcontext Hmodel Hrecord Hraw Hzero Hnone.
  assert (Hst : processLine st context = setCurrentModel st (Some m) false).
  { destruct context as [c|]; [|done]. unfold processLine, processEntry.
    rewrite (hasType_unique _ "turn_context" "session_meta") by done.
    rewrite Hcontext. unfold handleTurnContext. fold (payloadOf (Some c)).
    rewrite Hmodel.
    assert (Hm : truthyString (Some m) = true)
      by (apply truthyString_Some; by eapply extractModel_nonempty).
    by rewrite Hm. }
  assert (Hextract : extractModel (spreadWithInfo (payloadOf entry) (infoOf entry))
                     = None)
    by (unfold infoOf; by rewrite extractModel_spread).
  assert (Hm : truthyString (Some m) = true)
    by (apply truthyString_Some; by eapply extractModel_nonempty).
  rewrite Hst. rewrite (processLine_entry _ entry ts) by done.
  rewrite (processEntry_emits _ entry ts raw) by done.
  rewrite Hextract, resolveModel_tracked.
  destruct (afterTotals_fields (setCurrentModel st (Some m) false) (infoOf entry))
    as (Hevents & Hcurrent & _).
  rewrite Hcurrent. cbn [setCurrentModel st_currentModel].
  rewrite Hm. cbn [fst snd pushEvent st_sessionEvents]. by rewrite Hevents.
Qed.

(** ** Deltas of cumulative totals add up *)

(** What a line does to the last-seen totals and to the events, when it
    has no direct delta. *)
Lemma processLine_cumulative (st : ParseState) (line : option json) :
  isObject (lastUsageOf line) = false ->
  match cumulativeTotalOf line with
  | Some current =>
      st_previousTotals (processLine st line) = Some current
      /\ let d := convertToDelta (subtractRawUsage current (st_previousTotals st)) in
         if isZeroDelta d
         then st_sessionEvents (processLine st line) = st_sessionEvents st
         else exists event : CodexUsageEvent,
             st_sessionEvents (processLine st line) = st_sessionEvents st ++ [event]
             /\ delta event = d
  | None =>
      st_previousTotals (processLine st line) = st_previousTotals st
      /\ st_sessionEvents (processLine st line) = st_sessionEvents st
  end.
Proof.
  intros Hdirect. unfold cumulativeTotalOf, isUsageRecord.
  destruct line as [entry|]; [|done].
  unfold processLine.
  destruct (hasType (Some entry) "event_msg") eqn:Hevent; cbn [andb]; cycle 1.
  { unfold processEntry. rewrite Hevent.
    destruct (hasType (Some entry) "session_meta"); [done|].
    destruct (hasType (Some entry) "turn_context"); [|done].
    unfold handleTurnContext. by destruct (truthyString _). }
  destruct (hasType (payloadOf (Some entry)) "token_count") eqn:Hpayload;
    cbn [andb]; cycle 1.
  { unfold processEntry. fold (payloadOf (Some entry)).
    rewrite (hasType_unique _ "event_msg" "session_meta") by done.
    rewrite (hasType_unique _ "event_msg" "turn_context") by done.
    rewrite Hevent, Hpayload. cbn [negb].
    destruct (hasType (payloadOf (Some entry)) "user_message"); [|done].
    unfold handleUserMessage.
    destruct (getProp (Some entry) "timestamp") as [ts|]; [|done].
    by destruct (truthy (Some ts)). }
  rewrite processEntry_tokenCount by done.
  destruct (getProp (Some entry) "timestamp") as [ts|] eqn:Hts; cycle 1.
  { cbn [truthy]. unfold handleTokenCount. by rewrite Hts. }
  destruct (truthy (Some ts)) eqn:Htruthy; cycle 1.
  { unfold handleTokenCount. by rewrite Hts, Htruthy. }
  rewrite (handleTokenCount_unfold st (Some entry) ts) by done.
  assert (Hlast : normalizeRawUsage (getProp (infoOf (Some entry)) "last_token_usage")
                  = None).
  { unfold normalizeRawUsage. unfold lastUsageOf in Hdirect. by rewrite Hdirect. }
  unfold afterTotals.
  destruct (normalizeRawUsage (getProp (infoOf (Some entry)) "total_token_usage"))
    as [current|] eqn:Htotal.
  - rewrite (rawUsageOf_cumulative _ _ current) by done.
    cbn zeta.
    destruct (isZeroDelta (convertToDelta (subtractRawUsage current _))); [done|].
    pose proof (resolveModel_frame (setPreviousTotals st (Some current))
                  (extractModel (spreadWithInfo (payloadOf (Some entry))
                                                (infoOf (Some entry)))))
      as (Hprevious & _ & _ & _ & _ & _ & Hevents).
    destruct (resolveModel _ _) as [model st2]. cbn [fst snd] in *.
    cbn [pushEvent st_previousTotals st_sessionEvents].
    rewrite Hprevious, Hevents. split; [done|]. by eexists.
  - unfold rawUsageOf. by rewrite Hlast, Htotal.
Qed.

Lemma sumOf_app (counter : UsageDelta -> Z) (l : list CodexUsageEvent)
    (event : CodexUsageEvent) :
  sumOf counter (l ++ [event]) = sumOf counter l + counter event.
Proof.
  unfold sumOf. induction l as [|e l IH]; cbn [app foldr]; [lia|]. rewrite IH. lia.
Qed.

Section Conservation.

Context (rawCounter : RawUsage -> Z) (deltaCounter : UsageDelta -> Z).

Hypothesis counter_difference :
  forall (current : RawUsage) (previous : option RawUsage),
    deltaCounter (convertToDelta (subtractRawUsage current previous))
    = Z.max (rawCounter current - previousField rawCounter previous) 0.

Hypothesis counter_zero :
  forall d : UsageDelta, isZeroDelta d = true -> deltaCounter d = 0.

Lemma parsed_counter_sum (fileLines : list (option json)) (st : ParseState) :
  Forall (fun line => isObject (lastUsageOf line) = false) fileLines ->
  let previous := previousField rawCounter (st_previousTotals st) in
  nonDecreasingFrom previous (map rawCounter (recordedTotals fileLines)) ->
  sumOf deltaCounter (st_sessionEvents (foldl processLine st fileLines))
  = sumOf deltaCounter (st_sessionEvents st)
    + default previous (last (map rawCounter (recordedTotals fileLines)))
    - previous.
Proof.
  revert st. induction fileLines as [|line rest IH]; intros st Hdirect previous Hsorted.
  - cbn. lia.
  - inversion Hdirect as [|? ? Hline Hrest]; subst. cbn [foldl].
    pose proof (processLine_cumulative st line Hline) as Hstep.
    revert Hsorted. unfold recordedTotals. cbn [omap list_omap].
    fold (omap cumulativeTotalOf rest). fold (recordedTotals rest).
    destruct (cumulativeTotalOf line) as [current|].
    + cbn [map nonDecreasingFrom]. intros [Hle Hsorted].
      destruct Hstep as [Hprevious Hevents]. cbn zeta in Hevents.
      rewrite IH; [|done|by rewrite Hprevious].
      rewrite Hprevious. cbn [previousField].
      rewrite last_cons.
      assert (Hsum : sumOf deltaCounter (st_sessionEvents (processLine st line))
                     = sumOf deltaCounter (st_sessionEvents st)
                       + rawCounter current - previous).
      { pose proof (counter_difference current (st_previousTotals st)) as Hdiff.
        fold previous in Hdiff.
        destruct (isZeroDelta _) eqn:Hzero.
        - rewrite Hevents. apply counter_zero in Hzero. lia.
        - destruct Hevents as (event & -> & Hdelta). rewrite sumOf_app, Hdelta. lia. }
      rewrite Hsum. destruct (last (map rawCounter (recordedTotals rest))); cbn; lia.
    + intros Hsorted. destruct Hstep as [Hprevious Hevents].
      rewrite IH; [|done|by rewrite Hprevious].
      by rewrite Hprevious, Hevents.
Qed.

End Conservation.

Lemma isZeroDelta_counters (d : UsageDelta) :
  isZeroDelta d = true ->
  inputTokens d = 0 /\ cachedInputTokens d = 0 /\ outputTokens d = 0
  /\ reasoningOutputTokens d = 0.
Proof. unfold isZeroDelta. rewrite !andb_true_iff, !Z.eqb_eq. tauto. Qed.

(** X9. In a file whose usage records carry cumulative totals only,
    the deltas add up: when the input totals the parser records never
    decrease, the input tokens of the events of the session sum to the
    last recorded input total (zero when there is none), and so do the
    output tokens and the reasoning tokens. *)
Theorem cumulative_deltas_add_up_to_last_total (file : SessionFile) :
  Forall (fun line => isObject (lastUsageOf line) = false) (lines file) ->
  let totals := recordedTotals (lines file) in
  let sessionEvents := events (parseSessionFile file) in
  (nonDecreasingFrom 0 (map input_tokens totals) ->
   sumOf inputTokens sessionEvents = default 0 (last (map input_tokens totals)))
  /\ (nonDecreasingFrom 0 (map output_tokens totals) ->
      sumOf outputTokens sessionEvents = default 0 (last (map output_tokens totals)))
  /\ (nonDecreasingFrom 0 (map reasoning_output_tokens totals) ->
      sumOf reasoningOutputTokens sessionEvents
      = default 0 (last (map reasoning_output_tokens totals))).
Proof.
  intros Hdirect totals sessionEvents. subst totals sessionEvents.
  unfold parseSessionFile. cbn [finalizeSession events].
  split_and!; intros Hsorted.
  - rewrite (parsed_counter_sum input_tokens inputTokens); [cbn; lia| | |done|done].
    + done.
    + intros d Hd. by apply isZeroDelta_counters in Hd as (? & ? & ? & ?).
  - rewrite (parsed_counter_sum output_tokens outputTokens); [cbn; lia| | |done|done].
    + done.
    + intros d Hd. by apply isZeroDelta_counters in Hd as (? & ? & ? & ?).
  - rewrite (parsed_counter_sum reasoning_output_tokens reasoningOutputTokens);
      [cbn; lia| | |done|done].
    + done.
    + intros d Hd. by apply isZeroDelta_counters in Hd as (? & ? & ? & ?).
Qed.

(** ** What the deduplicator keeps *)

Lemma concat_map_Permutation {A B : Type} (f : A -> list B) (l1 l2 : list A) :
  Permutation l1 l2 -> Permutation (concat (map f l1)) (concat (map f l2)).
Proof.
  induction 1 as [|x l1 l2 _ IH|x y l|l1 l2 l3 _ IH1 _ IH2]; cbn [map concat].
  - done.
  - by rewrite IH.
  - rewrite !app_assoc. by rewrite (Permutation_app_comm (f y) (f x)).
  - by rewrite IH1.
Qed.

Lemma dedupSessions_submseteq (sessions : list SessionUsage) (acc : Accumulator) :
  acc_events (foldl dedupSession acc sessions)
  ⊆+ acc_events acc ++ concat (map events sessions).
Proof.
  revert acc. induction sessions as [|session sessions IH]; intros acc.
  - cbn. by rewrite app_nil_r.
  - cbn [foldl map concat]. rewrite IH, dedupSession_events, <- app_assoc.
    apply submseteq_skips_l, submseteq_skips_r. apply sublist_submseteq, sublist_drop.
Qed.

(** X10. The merged events are, with their multiplicity, among the
    events of the parsed files: deduplication only removes events, it
    neither adds nor repeats one. *)
Theorem merged_events_are_among_the_parsed (files : list SessionFile) :
  mergedEvents (collectCodexUsageData files)
  ⊆+ concat (map (fun file => events (parseSessionFile file)) files).
Proof.
  cbn [collectCodexUsageData mergedEvents].
  rewrite sort_Permutation. unfold dedupSessions.
  rewrite dedupSessions_submseteq. cbn [initialAccumulator acc_events app].
  unfold sortedSessions.
  rewrite (concat_map_Permutation events _ _ (sort_Permutation _ _)).
  by rewrite map_map.
Qed.

Lemma sum_list_with_map {A B : Type} (f : B -> nat) (g : A -> B) (l : list A) :
  sum_list_with f (map g l) = sum_list_with (fun x => f (g x)) l.
Proof. induction l as [|x l IH]; cbn [map sum_list_with]; [done|]. by rewrite IH. Qed.

Lemma dedupSessions_totalMessages_bounds (sessions : list SessionUsage)
    (acc : Accumulator) :
  acc_totalMessages acc <= acc_totalMessages (foldl dedupSession acc sessions)
  /\ acc_totalMessages (foldl dedupSession acc sessions)
     <= acc_totalMessages acc
        + Z.of_nat (sum_list_with (fun session => length (userMessages session)) sessions).
Proof.
  revert acc. induction sessions as [|session sessions IH]; intros acc.
  - cbn. lia.
  - cbn [foldl sum_list_with]. destruct (IH (dedupSession acc session)) as [Hlow Hhigh].
    rewrite dedupSession_totalMessages in Hlow, Hhigh.
    rewrite length_drop in Hlow, Hhigh. lia.
Qed.

(** X11. The total number of messages is never negative and never more
    than the number of user messages of the parsed files. *)
Theorem total_messages_within_the_parsed (files : list SessionFile) :
  0 <= totalMessages (collectCodexUsageData files)
  /\ totalMessages (collectCodexUsageData files)
     <= Z.of_nat (sum_list_with
                    (fun file => length (userMessages (parseSessionFile file))) files).
Proof.
  cbn [collectCodexUsageData totalMessages]. unfold dedupSessions.
  destruct (dedupSessions_totalMessages_bounds (sortedSessions files) initialAccumulator)
    as [Hlow Hhigh].
  cbn [initialAccumulator acc_totalMessages] in Hlow, Hhigh.
  split; [done|]. etrans; [exact Hhigh|].
  unfold sortedSessions. rewrite (sort_Permutation compareSessionsByDate).
  rewrite sum_list_with_map. lia.
Qed.

Lemma dedupSession_projects (acc : Accumulator) (session : SessionUsage) :
  acc_projects (dedupSession acc session)
  = match knownCwd session with
    | Some dir => {[dir]} ∪ acc_projects acc
    | None => acc_projects acc
    end.
Proof.
  unfold dedupSession.
  destruct (forkDedup _ _ session) as [[m t] prior].
  by destruct (foldl countMessage _ _).
Qed.

Lemma dedupSessions_projects (sessions : list SessionUsage) (acc : Accumulator)
    (dir : string) :
  dir ∈ acc_projects (foldl dedupSession acc sessions)
  <-> dir ∈ acc_projects acc
      \/ exists session : SessionUsage, session ∈ sessions /\ knownCwd session = Some dir.
Proof.
  revert acc. induction sessions as [|session sessions IH]; intros acc.
  - cbn. split; [by left|]. intros [?|(s & Hs & _)]; [done|]. by inversion Hs.
  - cbn [foldl]. rewrite IH, dedupSession_projects. split.
    + intros [Hdir|(s & Hs & Hcwd)].
      * destruct (knownCwd session) as [d|] eqn:Hd; [|by left].
        apply elem_of_union in Hdir as [Hdir|Hdir]; [|by left].
        apply elem_of_singleton in Hdir as ->.
        right. exists session. split; [left|done].
      * right. exists s. split; [by right|done].
    + intros [Hdir|(s & Hs & Hcwd)].
      * left. destruct (knownCwd session); [|done].
        apply elem_of_union. by right.
      * apply elem_of_cons in Hs as [->|Hs].
        -- left. rewrite Hcwd. apply elem_of_union. left. by apply elem_of_singleton.
        -- right. by exists s.
Qed.

(** X12. When the working directories of the logs are strings, a
    directory is among the projects exactly when it is the non-empty
    working directory of a parsed file, whether or not the records of
    that file were deduplicated away. *)
Theorem projects_are_the_working_directories (files : list SessionFile) (dir : string) :
  Forall (fun file => Forall stringCwd (lines file)) files ->
  (dir ∈ projects (collectCodexUsageData files)
   <-> exists file : SessionFile,
         file ∈ files /\ knownCwd (parseSessionFile file) = Some dir).
Proof.
  intros _.
  cbn [collectCodexUsageData projects]. unfold dedupSessions.
  rewrite dedupSessions_projects. cbn [initialAccumulator acc_projects].
  split.
  - intros [Hempty|(session & Hsession & Hcwd)];
      [by apply not_elem_of_empty in Hempty|].
    unfold sortedSessions in Hsession. rewrite sort_Permutation in Hsession.
    apply list_elem_of_In, in_map_iff in Hsession as (file & <- & Hfile).
    exists file. split; [by apply list_elem_of_In|done].
  - intros (file & Hfile & Hcwd). right. exists (parseSessionFile file).
    split; [|done]. unfold sortedSessions. rewrite sort_Permutation.
    apply list_elem_of_In, in_map, list_elem_of_In, Hfile.
Qed.

Lemma dedupSession_earliestSessionDate (acc : Accumulator) (session : SessionUsage) :
  acc_earliestSessionDate (dedupSession acc session)
  = match sessionDate session with
    | Some date => keepEarliest (acc_earliestSessionDate acc) date
    | None => acc_earliestSessionDate acc
    end.
Proof.
  unfold dedupSession.
  destruct (forkDedup _ _ session) as [[m t] prior].
  by destruct (foldl countMessage _ _).
Qed.

Lemma dedupSessions_earliestSessionDate (sessions : list SessionUsage)
    (acc : Accumulator) :
  acc_earliestSessionDate (foldl dedupSession acc sessions)
  = foldl keepEarliest (acc_earliestSessionDate acc) (omap sessionDate sessions).
Proof.
  revert acc. induction sessions as [|session sessions IH]; intros acc; [done|].
  cbn [foldl omap list_omap]. fold (omap sessionDate sessions).
  rewrite IH, dedupSession_earliestSessionDate.
  by destruct (sessionDate session).
Qed.

Lemma earliestOf_Permutation (date : option Date) (dates dates' : list Date) :
  Permutation dates dates' -> earliestOf date dates -> earliestOf date dates'.
Proof.
  intros Hperm. destruct date as [d|]; cbn.
  - by rewrite Hperm.
  - intros ->. by apply Permutation_nil in Hperm.
Qed.

(** X13. The earliest session date of the collection is an earliest
    one among the dates of the parsed files: it is the date of one of
    them and the date of none compares before it; there is none
    exactly when no file has a date. *)
Theorem earliest_session_date_is_earliest (files : list SessionFile) :
  earliestOf (earliestSessionDate (collectCodexUsageData files))
             (omap (fun file => sessionDate (parseSessionFile file)) files).
Proof.
  cbn [collectCodexUsageData earliestSessionDate]. unfold dedupSessions.
  rewrite dedupSessions_earliestSessionDate. cbn [initialAccumulator acc_earliestSessionDate].
  apply (earliestOf_Permutation _ (omap sessionDate (sortedSessions files)));
    [|apply keepEarliest_earliest].
  unfold sortedSessions. rewrite (sort_Permutation compareSessionsByDate).
  clear. induction files as [|file files IH]; [done|].
  cbn [map omap list_omap]. fold (omap sessionDate (map parseSessionFile files)).
  fold (omap (fun file => sessionDate (parseSessionFile file)) files).
  destruct (sessionDate (parseSessionFile file)); by rewrite IH.
Qed.

Lemma max_list_bounded (bound : nat) (ns : list nat) :
  Forall (fun n => (n <= bound)%nat) ns -> (max_list ns <= bound)%nat.
Proof. induction 1 as [|n ns Hn _ IH]; simpl; lia. Qed.

(** A sequence of three signatures or more that is among the candidates
    is matched in full. *)
Lemma heuristicStartIndex_full (sequence : list string)
    (candidateSequences : list (list string)) :
  sequence ∈ candidateSequences -> (3 <= length sequence)%nat ->
  heuristicStartIndex sequence candidateSequences = length sequence.
Proof.
  intros Hin Hlength.
  assert (Hmax : max_list (map (commonPrefixLength sequence) candidateSequences)
                 = length sequence).
  { apply Nat.le_antisymm.
    - apply max_list_bounded, Forall_forall. intros n Hn.
      apply list_elem_of_In, in_map_iff in Hn as (candidate & <- & _).
      rewrite commonPrefixLength_prefixMatch. apply prefixMatch_le_l.
    - apply max_list_elem_of_le, list_elem_of_In, in_map_iff.
      exists sequence. split; [|by apply list_elem_of_In].
      pose proof (commonPrefixLength_extension sequence []) as Hfull.
      by rewrite app_nil_r in Hfull. }
  destruct (heuristicStartIndex_spec sequence candidateSequences) as [Happly _].
  cbn zeta in Happly. rewrite Hmax in Happly. apply Happly.
  split; [done|]. by intros _.
Qed.

(** X14. A session whose two signature sequences are those of an
    earlier session of its working directory, with no parent found
    under a declared id and three records or more of each kind, adds
    nothing: no message, no day count and no event. *)
Theorem same_directory_copy_adds_nothing (acc : Accumulator) (session : SessionUsage)
    (dir : string) :
  parentSessionOf (acc_sessionsById acc) session = None ->
  knownCwd session = Some dir ->
  signatures session ∈ default [] (acc_priorSessionsByCwd acc !! dir) ->
  wellFormedSignatures session ->
  (3 <= length (userMessages session))%nat ->
  (3 <= length (events session))%nat ->
  acc_totalMessages (dedupSession acc session) = acc_totalMessages acc
  /\ acc_dailyActivity (dedupSession acc session) = acc_dailyActivity acc
  /\ acc_events (dedupSession acc session) = acc_events acc.
Proof.
  intros Hparent Hcwd Hcopy [Hmessages Htokens] Hm Ht.
  assert (Hmstart : messageStartIndexOf acc session = length (userMessages session)).
  { unfold messageStartIndexOf, forkDedup. rewrite Hparent, Hcwd. cbn [fst].
    rewrite heuristicStartIndex_full.
    - by rewrite Hmessages, length_map.
    - apply list_elem_of_In, in_map, list_elem_of_In, Hcopy.
    - by rewrite Hmessages, length_map. }
  assert (Htstart : tokenStartIndexOf acc session = length (events session)).
  { unfold tokenStartIndexOf, forkDedup. rewrite Hparent, Hcwd. cbn [fst snd].
    rewrite heuristicStartIndex_full.
    - by rewrite Htokens, length_map.
    - apply list_elem_of_In, in_map, list_elem_of_In, Hcopy.
    - by rewrite Htokens, length_map. }
  rewrite dedupSession_totalMessages, dedupSession_dailyActivity, dedupSession_events.
  rewrite Hmstart, Htstart, !drop_all. cbn. split_and!; [lia|done|by rewrite app_nil_r].
Qed.

(** ** Day counts *)

Lemma countMessage_positive (P : string -> Prop) (messages : list SessionUserMessage)
    (total : Z) (daily : gmap string Z) :
  (forall (key : string) (count : Z), daily !! key = Some count -> 1 <= count /\ P key) ->
  Forall (fun message => P (formatDateKey (newDate (messageTimestamp message)))) messages ->
  forall (key : string) (count : Z),
    (foldl countMessage (total, daily) messages).2 !! key = Some count ->
    1 <= count /\ P key.
Proof.
  revert total daily. induction messages as [|message messages IH];
    intros total daily Hdaily Hmessages; [done|].
  inversion Hmessages as [|? ? Hmessage Hrest]; subst.
  cbn [foldl]. rewrite countMessage_spec. cbn zeta. apply IH; [|done].
  intros key count.
  destruct (decide (key = formatDateKey (newDate (messageTimestamp message)))) as [->|Hkey].
  - rewrite lookup_insert_eq. intros [= <-]. split; [|done].
    destruct (daily !! _) as [n|] eqn:Hn; cbn; [|lia].
    destruct (Hdaily _ _ Hn). lia.
  - rewrite lookup_insert_ne by done. apply Hdaily.
Qed.

Lemma dedupSessions_dailyActivity (P : string -> Prop) (sessions : list SessionUsage)
    (acc : Accumulator) :
  (forall (key : string) (count : Z),
      acc_dailyActivity acc !! key = Some count -> 1 <= count /\ P key) ->
  Forall (fun session =>
            Forall (fun message => P (formatDateKey (newDate (messageTimestamp message))))
                   (userMessages session)) sessions ->
  forall (key : string) (count : Z),
    acc_dailyActivity (foldl dedupSession acc sessions) !! key = Some count ->
    1 <= count /\ P key.
Proof.
  revert acc. induction sessions as [|session sessions IH]; intros acc Hacc Hsessions;
    [done|].
  inversion Hsessions as [|? ? Hsession Hrest]; subst. cbn [foldl].
  apply IH; [|done]. rewrite dedupSession_dailyActivity.
  apply countMessage_positive; [done|]. by apply Forall_drop.
Qed.

(** X15. Every day recorded in the daily activity has a count of one
    or more, and its key is the date key of a user message of a parsed
    file: no day is recorded without a message. *)
Theorem daily_activity_days_have_messages (files : list SessionFile) (key : string)
    (count : Z) :
  dailyActivity (collectCodexUsageData files) !! key = Some count ->
  1 <= count
  /\ exists (file : SessionFile) (message : SessionUserMessage),
      file ∈ files /\ message ∈ userMessages (parseSessionFile file)
      /\ formatDateKey (newDate (messageTimestamp message)) = key.
Proof.
  cbn [collectCodexUsageData dailyActivity]. unfold dedupSessions.
  apply (dedupSessions_dailyActivity
           (fun key => exists (file : SessionFile) (message : SessionUserMessage),
                file ∈ files /\ message ∈ userMessages (parseSessionFile file)
                /\ formatDateKey (newDate (messageTimestamp message)) = key)).
  - intros k c Hk. cbn [initialAccumulator acc_dailyActivity] in Hk.
    by rewrite lookup_empty in Hk.
  - apply Forall_forall. intros session Hsession.
    unfold sortedSessions in Hsession. rewrite sort_Permutation in Hsession.
    apply list_elem_of_In, in_map_iff in Hsession as (file & <- & Hfile).
    apply Forall_forall. intros message Hmessage.
    exists file, message. split_and!; [by apply list_elem_of_In|done|done].
Qed.

(** ** The order of discovery *)

(** A list has one arrangement in an order that is antisymmetric on its
    elements. *)
Lemma StronglySorted_unique_on {A : Type} (R : A -> A -> Prop) (l1 l2 : list A) :
  (forall x y : A, x ∈ l1 -> y ∈ l1 -> R x y -> R y x -> x = y) ->
  StronglySorted R l1 -> StronglySorted R l2 -> Permutation l1 l2 -> l1 = l2.
Proof.
  revert l2. induction l1 as [|x l1 IH]; intros l2 Hanti H1 H2 Hperm.
  - apply Permutation_nil in Hperm. by subst.
  - destruct l2 as [|y l2]; [by apply Permutation_sym, Permutation_nil in Hperm|].
    inversion H1 as [|? ? Hs1 Hx]; inversion H2 as [|? ? Hs2 Hy]; subst.
    assert (Heq : x = y).
    { assert (Hxin : x ∈ y :: l2) by (rewrite <- Hperm; left).
      assert (Hyin : y ∈ x :: l1) by (rewrite Hperm; left).
      apply elem_of_cons in Hxin as [->|Hxin]; [done|].
      apply elem_of_cons in Hyin as [->|Hyin]; [done|].
      apply Hanti; [left|by right| |].
      - by apply (proj1 (Forall_forall _ _) Hx).
      - by apply (proj1 (Forall_forall _ _) Hy). }
    subst y. f_equal. apply IH; [|done|done|by apply Permutation_cons_inv in Hperm].
    intros a b Ha Hb. apply Hanti; by right.
Qed.

Lemma NoDup_map_eq {A B : Type} (g : A -> B) (l : list A) (x y : A) :
  NoDup (map g l) -> x ∈ l -> y ∈ l -> g x = g y -> x = y.
Proof.
  induction l as [|a l IH]; cbn [map]; intros Hnodup Hx Hy Heq; [by inversion Hx|].
  apply NoDup_cons in Hnodup as [Ha Hnodup].
  apply elem_of_cons in Hx as [->|Hx]; apply elem_of_cons in Hy as [->|Hy].
  - done.
  - exfalso. apply Ha. rewrite Heq. apply list_elem_of_In, in_map, list_elem_of_In, Hy.
  - exfalso. apply Ha. rewrite <- Heq. apply list_elem_of_In, in_map, list_elem_of_In, Hx.
  - by apply IH.
Qed.

Section FileOrder.

(** [localeCompare] is a total order of the file paths: two paths that
    compare as equal are the same path. *)
Hypothesis localeCompare_total :
  forall a b : string, 0 < localeCompare a b -> localeCompare b a <= 0.
Hypothesis localeCompare_trans :
  forall a b c : string,
    localeCompare a b <= 0 -> localeCompare b c <= 0 -> localeCompare a c <= 0.
Hypothesis localeCompare_antisym :
  forall a b : string, localeCompare a b <= 0 -> localeCompare b a <= 0 -> a = b.

Lemma compareSessionsByDate_antisym (a b : SessionUsage) :
  validSessionDate (sessionDate a) -> validSessionDate (sessionDate b) ->
  notAfter compareSessionsByDate a b -> notAfter compareSessionsByDate b a ->
  filePath a = filePath b.
Proof.
  intros Ha Hb Hab Hba.
  apply compareSessionsByDate_precedes in Hab, Hba; try done.
  revert Ha Hb Hab Hba. unfold sessionPrecedes, validSessionDate.
  destruct (sessionDate a) as [da|], (sessionDate b) as [db|].
  - intros [ta ->] [tb ->]. cbn. intros [Hlt|[Heq Hab]] [Hlt'|[Heq' Hba]]; try lia.
    by apply localeCompare_antisym.
  - by intros [ta ->] _ _ ?.
  - by intros _ [tb ->] ?.
  - intros _ _. apply localeCompare_antisym.
Qed.

(** X16. The collection does not depend on the order in which the
    files were discovered: for files with distinct paths and valid
    dates, and a [localeCompare] that is a total order of the paths,
    any rearrangement of the files gives the same result. *)
Theorem collection_independent_of_discovery_order (files files' : list SessionFile) :
  Permutation files files' ->
  Forall validFile files ->
  NoDup (map path files) ->
  collectCodexUsageData files' = collectCodexUsageData files.
Proof.
  intros Hperm Hvalid Hnodup.
  assert (Hparsed : Forall validSession (map parseSessionFile files)).
  { clear -Hvalid. induction Hvalid as [|file rest Hfile Hrest IH]; simpl; constructor;
      [by apply parseSessionFile_valid|done]. }
  assert (Hparsed' : Forall validSession (map parseSessionFile files')).
  { by rewrite <- Hperm. }
  assert (Hsorted : forall l : list SessionFile,
             Forall validSession (map parseSessionFile l) ->
             StronglySorted (notAfter compareSessionsByDate) (sortedSessions l)).
  { intros l Hl. apply (sort_StronglySorted _ validSession); [| |exact Hl].
    - intros a b [Ha _] [Hb _]. by apply compareSessionsByDate_total.
    - intros a b c [Ha _] [Hb _] [Hc _]. by apply compareSessionsByDate_trans. }
  assert (Hsessions : sortedSessions files' = sortedSessions files).
  { symmetry. apply (StronglySorted_unique_on (notAfter compareSessionsByDate));
      [|by apply Hsorted|by apply Hsorted|].
    - intros a b Ha Hb Hab Hba.
      unfold sortedSessions in Ha, Hb. rewrite sort_Permutation in Ha, Hb.
      assert (Hpath : filePath a = filePath b).
      { apply compareSessionsByDate_antisym; [| |done|done].
        - by apply (proj1 (Forall_forall _ _) Hparsed a Ha).
        - by apply (proj1 (Forall_forall _ _) Hparsed b Hb). }
      apply list_elem_of_In, in_map_iff in Ha as (fa & <- & Hfa).
      apply list_elem_of_In, in_map_iff in Hb as (fb & <- & Hfb).
      f_equal. apply (NoDup_map_eq path files); [done|by apply list_elem_of_In..|done].
    - unfold sortedSessions. rewrite !sort_Permutation. by rewrite Hperm. }
  unfold collectCodexUsageData. rewrite Hsessions. f_equal.
  by rewrite Hperm.
Qed.

End FileOrder.

(** ** Discovery of the session files *)

Lemma substring_whole (s : string) : substring 0 (String.length s) s = s.
Proof. induction s as [|c s IH]; cbn; [done|]. by rewrite IH. Qed.

Lemma substring_skip (n m : nat) (c : ascii) (s : string) :
  substring (S n) m (String c s) = substring n m s.
Proof. by destruct m. Qed.

Lemma substring_append (p suffix : string) :
  substring (String.length p) (String.length suffix) (p +:+ suffix) = suffix.
Proof.
  induction p as [|c p IH].
  - apply substring_whole.
  - change (substring (S (String.length p)) (String.length suffix)
                      (String c (p +:+ suffix)) = suffix).
    by rewrite substring_skip.
Qed.

Lemma substring_split (s : string) (k : nat) :
  (k <= String.length s)%nat ->
  s = substring 0 k s +:+ substring k (String.length s - k) s.
Proof.
  revert k. induction s as [|c s IH]; intros k Hk.
  - cbn in Hk. by replace k with 0%nat by lia.
  - destruct k as [|k].
    + rewrite Nat.sub_0_r, substring_whole. by destruct s.
    + cbn [String.length] in *. rewrite substring_skip.
      change (String c s
              = String c (substring 0 k s
                          +:+ substring k (String.length s - k) s)).
      f_equal. apply IH. lia.
Qed.

Lemma length_append (a b : string) :
  String.length (a +:+ b) = (String.length a + String.length b)%nat.
Proof.
  induction a as [|c a IH]; [done|].
  change (S (String.length (a +:+ b)) = S (String.length a + String.length b)).
  by rewrite IH.
Qed.

(** [endsWith] holds exactly of the strings that are a stem followed by
    the suffix. *)
Lemma endsWith_spec (s suffix : string) :
  endsWith s suffix = true <-> exists stem : string, s = stem +:+ suffix.
Proof.
  unfold endsWith. rewrite andb_true_iff, Nat.leb_le, String.eqb_eq. split.
  - intros [Hlength Hend].
    exists (substring 0 (String.length s - String.length suffix) s).
    etrans; [apply (substring_split s (String.length s - String.length suffix)); lia|].
    f_equal.
    replace (String.length s - (String.length s - String.length suffix))%nat
      with (String.length suffix) by lia.
    exact Hend.
  - intros [stem ->]. rewrite length_append. split; [lia|].
    replace (String.length stem + String.length suffix - String.length suffix)%nat
      with (String.length stem) by lia.
    apply substring_append.
Qed.

Section SessionFiles.

Variable homedir : string.
Variable pathJoin : string -> string -> string.
Variable readdir : string -> option (list Dirent).

(** [entry] is an entry of the directory [dir]. *)
Definition entryOf (dir : string) (entry : Dirent) : Prop :=
  exists entries : list Dirent, readdir dir = Some entries /\ entry ∈ entries.

(** The files found under a day directory. *)
Definition foundInDay (dayPath file : string) : Prop :=
  exists entry : Dirent,
    entryOf dayPath entry /\ isFile entry = true
    /\ endsWith (name entry) ".jsonl" = true
    /\ file = pathJoin dayPath (name entry).

(** The files found under a month directory. *)
Definition foundInMonth (monthPath file : string) : Prop :=
  exists day : Dirent,
    entryOf monthPath day /\ isDirectory day = true
    /\ foundInDay (pathJoin monthPath (name day)) file.

Lemma directoryNames_elem (entries : list Dirent) (dirName : string) :
  dirName ∈ directoryNames entries
  <-> exists entry : Dirent,
        entry ∈ entries /\ isDirectory entry = true /\ name entry = dirName.
Proof.
  unfold directoryNames. rewrite list_elem_of_In, in_map_iff. split.
  - intros (entry & Hname & Hentry). apply filter_In in Hentry as [Hentry Hdir].
    exists entry. split_and!; [by apply list_elem_of_In|done|done].
  - intros (entry & Hentry & Hdir & Hname). exists entry. split; [done|].
    apply filter_In. split; [by apply list_elem_of_In|done].
Qed.

Lemma pushSessionFiles_elem (dayPath : string) (files : list string)
    (entries : list Dirent) (file : string) :
  file ∈ pushSessionFiles pathJoin dayPath files entries
  <-> file ∈ files
      \/ exists entry : Dirent,
          entry ∈ entries /\ isFile entry = true
          /\ endsWith (name entry) ".jsonl" = true
          /\ file = pathJoin dayPath (name entry).
Proof.
  unfold pushSessionFiles. revert files.
  induction entries as [|entry entries IH]; intros files; cbn [foldl].
  - split; [by left|]. intros [Hfile|(entry & Hentry & _)]; [done|]. by inversion Hentry.
  - rewrite IH. split.
    + intros [Hfile|(e & He & Hjsonl)].
      * destruct (isFile entry && endsWith (name entry) ".jsonl") eqn:Hkeep; [|by left].
        apply elem_of_app in Hfile as [Hfile|Hfile]; [by left|].
        apply list_elem_of_singleton in Hfile as ->.
        apply andb_true_iff in Hkeep as [? ?].
        right. exists entry. split_and!; [left|done..].
      * right. exists e. split; [by right|done].
    + intros [Hfile|(e & He & Hisfile & Hjsonl & Hpath)].
      * left. destruct (isFile entry && endsWith (name entry) ".jsonl"); [|done].
        apply elem_of_app. by left.
      * apply elem_of_cons in He as [->|He].
        -- left. rewrite Hisfile, Hjsonl. cbn [andb].
           apply elem_of_app. right. by apply list_elem_of_singleton.
        -- right. by exists e.
Qed.

Lemma listDay_elem (monthPath : string) (days : list string) (files : list string)
    (file : string) :
  file ∈ foldl (listDay pathJoin readdir monthPath) files days
  <-> file ∈ files
      \/ exists day : string, day ∈ days /\ foundInDay (pathJoin monthPath day) file.
Proof.
  revert files. induction days as [|day days IH]; intros files; cbn [foldl].
  - split; [by left|]. intros [Hfile|(day & Hday & _)]; [done|]. by inversion Hday.
  - rewrite IH. unfold listDay. split.
    + intros [Hfile|(d & Hd & Hfound)].
      * destruct (readdir (pathJoin monthPath day)) as [entries|] eqn:Hread; [|by left].
        apply pushSessionFiles_elem in Hfile as [Hfile|(entry & Hentry & Hrest)];
          [by left|].
        right. exists day. split; [left|]. exists entry. split; [by exists entries|done].
      * right. exists d. split; [by right|done].
    + intros [Hfile|(d & Hd & Hfound)].
      * left. destruct (readdir (pathJoin monthPath day)); [|done].
        apply pushSessionFiles_elem. by left.
      * apply elem_of_cons in Hd as [->|Hd]; [|right; by exists d].
        left. destruct Hfound as (entry & (entries & Hread & Hentry) & Hrest).
        rewrite Hread. apply pushSessionFiles_elem. right. by exists entry.
Qed.

Lemma listMonth_elem (yearPath : string) (months : list string) (files : list string)
    (file : string) :
  file ∈ foldl (listMonth pathJoin readdir yearPath) files months
  <-> file ∈ files
      \/ exists month : string,
          month ∈ months /\ foundInMonth (pathJoin yearPath month) file.
Proof.
  revert files. induction months as [|month months IH]; intros files; cbn [foldl].
  - split; [by left|]. intros [Hfile|(month & Hmonth & _)]; [done|]. by inversion Hmonth.
  - rewrite IH. unfold listMonth. split.
    + intros [Hfile|(m & Hm & Hfound)].
      * destruct (readdir (pathJoin yearPath month)) as [entries|] eqn:Hread; [|by left].
        apply listDay_elem in Hfile as [Hfile|(dayName & Hday & Hfound)]; [by left|].
        apply directoryNames_elem in Hday as (day & Hday & Hdir & <-).
        right. exists month. split; [left|]. exists day.
        split; [by exists entries|done].
      * right. exists m. split; [by right|done].
    + intros [Hfile|(m & Hm & Hfound)].
      * left. destruct (readdir (pathJoin yearPath month)); [|done].
        apply listDay_elem. by left.
      * apply elem_of_cons in Hm as [->|Hm]; [|right; by exists m].
        left. destruct Hfound as (day & (entries & Hread & Hday) & Hdir & Hfound).
        rewrite Hread. apply listDay_elem. right. exists (name day).
        split; [|done]. apply directoryNames_elem. by exists day.
Qed.

(** X17. The session files of a year are the regular files named with
    the suffix [.jsonl] in the directories found three levels down: in a
    directory of a directory of the year's directory.  Nothing else is
    listed, and a directory that cannot be read contributes nothing. *)
Theorem session_files_are_the_jsonl_files_of_the_days (year : number) (file : string) :
  file ∈ listCodexSessionFiles homedir pathJoin readdir year
  <-> exists (month day entry : Dirent) (stem : string),
        let yearPath :=
          pathJoin (CODEX_SESSIONS_PATH homedir pathJoin) (num_to_string year) in
        let monthPath := pathJoin yearPath (name month) in
        let dayPath := pathJoin monthPath (name day) in
        entryOf yearPath month /\ isDirectory month = true
        /\ entryOf monthPath day /\ isDirectory day = true
        /\ entryOf dayPath entry /\ isFile entry = true
        /\ name entry = stem +:+ ".jsonl"
        /\ file = pathJoin dayPath (name entry).
Proof.
  unfold listCodexSessionFiles. cbn zeta.
  set (yearPath := pathJoin (CODEX_SESSIONS_PATH homedir pathJoin) (num_to_string year)).
  split.
  - destruct (readdir yearPath) as [entries|] eqn:Hread; [|by intros ?%elem_of_nil].
    intros Hfile.
    apply listMonth_elem in Hfile as [Hfile|(monthName & Hmonth & Hfound)];
      [by apply elem_of_nil in Hfile|].
    apply directoryNames_elem in Hmonth as (month & Hmonth & Hmdir & <-).
    destruct Hfound as (day & Hday & Hddir & entry & Hentry & Hisfile & Hjsonl & Hpath).
    apply endsWith_spec in Hjsonl as [stem Hstem].
    exists month, day, entry, stem. split_and!; try done. by exists entries.
  - intros (month & day & entry & stem & (entries & Hread & Hmonth) & Hmdir
            & Hday & Hddir & Hentry & Hisfile & Hstem & Hpath).
    rewrite Hread. apply listMonth_elem. right. exists (name month).
    split; [apply directoryNames_elem; by exists month|].
    exists day. split_and!; [done..|]. exists entry. split_and!; [done..| |done].
    apply endsWith_spec. by exists stem.
Qed.

End SessionFiles.

(** ** First prompt *)

Section FirstPromptProperties.

Variable lessThanOther : json -> json -> bool.

Lemma firstPromptStep_timestamp (minTs : option json) (line : option json) :
  firstPromptStep lessThanOther minTs line
  = match promptTimestampOf line with
    | Some ts =>
        match minTs with
        | None => Some ts
        | Some current => if lessThan lessThanOther ts current then Some ts else minTs
        end
    | None => minTs
    end.
Proof.
  unfold firstPromptStep, promptTimestampOf.
  destruct (getProp line "ts") as [ts|]; [|done].
  by destruct (truthy (Some ts)).
Qed.

Lemma firstPrompt_elem (historyLines : list (option json)) (minTs : option json) :
  match foldl (firstPromptStep lessThanOther) minTs historyLines with
  | Some ts => minTs = Some ts \/ ts ∈ promptTimestamps historyLines
  | None => minTs = None /\ promptTimestamps historyLines = []
  end.
Proof.
  revert minTs. induction historyLines as [|line rest IH]; intros minTs.
  - cbn. destruct minTs; [by left|done].
  - cbn [foldl]. specialize (IH (firstPromptStep lessThanOther minTs line)).
    unfold promptTimestamps in *. cbn [omap list_omap].
    fold (omap promptTimestampOf rest) in *.
    destruct (foldl _ _ rest) as [ts|]; rewrite firstPromptStep_timestamp in IH.
    + destruct (promptTimestampOf line) as [t|].
      * destruct IH as [Hstep|Hrest]; [|right; by right].
        destruct minTs as [current|]; [|simplify_eq; right; left].
        destruct (lessThan lessThanOther t current); simplify_eq;
          [right; left|by left].
      * destruct IH as [Hstep|Hrest]; [by left|by right].
    + destruct IH as [Hstep Hrest].
      destruct (promptTimestampOf line) as [t|]; [|done].
      destruct minTs as [current|]; [|done].
      by destruct (lessThan lessThanOther t current).
Qed.

(** X18. The first prompt timestamp is the [ts] of a line of the
    history, one that is truthy.  The result is [null] exactly when the
    history cannot be read or no line that parses has a truthy [ts]. *)
Theorem first_prompt_is_a_timestamp_of_the_history
    (history : option (list (option json))) :
  match getCodexFirstPromptTimestamp lessThanOther history with
  | Some ts =>
      exists historyLines : list (option json),
        history = Some historyLines /\ ts ∈ promptTimestamps historyLines
  | None =>
      forall historyLines : list (option json),
        history = Some historyLines -> promptTimestamps historyLines = []
  end.
Proof.
  destruct history as [historyLines|]; [|done].
  cbn [getCodexFirstPromptTimestamp].
  pose proof (firstPrompt_elem historyLines None) as Helem.
  destruct (foldl _ _ _) as [ts|].
  - exists historyLines. split; [done|]. by destruct Helem.
  - intros ? [= <-]. apply Helem.
Qed.

Lemma firstPrompt_numbers (historyLines : list (option json)) (current : option number) :
  Forall (fun ts => is_Some (numberOf ts)) (promptTimestamps historyLines) ->
  foldl (firstPromptStep lessThanOther) (JNumber <$> current) historyLines
  = JNumber <$> foldl keepEarliest current
                      (omap numberOf (promptTimestamps historyLines)).
Proof.
  revert current. induction historyLines as [|line rest IH]; intros current; [done|].
  cbn [foldl]. rewrite firstPromptStep_timestamp.
  unfold promptTimestamps. cbn [omap list_omap].
  fold (omap promptTimestampOf rest). fold (promptTimestamps rest).
  destruct (promptTimestampOf line) as [ts|]; [|apply IH].
  intros Hnumbers. inversion Hnumbers as [|? ? [n Hn] Hrest]; subst.
  destruct ts as [| |t| | |]; try discriminate Hn. injection Hn as ->.
  cbn [omap list_omap numberOf foldl].
  fold (omap numberOf (promptTimestamps rest)).
  rewrite <- IH by done. f_equal.
  destruct current as [c|]; [|done]. cbn [fmap option_fmap option_map lessThan keepEarliest].
  by destruct (num_lt n c).
Qed.

(** X19. When every truthy [ts] of the history is a number, the first
    prompt timestamp is an earliest one: it is one of them and none is
    less than it; a [ts] of zero counts as absent. *)
Theorem first_prompt_is_the_least_timestamp (historyLines : list (option json)) :
  Forall (fun ts => is_Some (numberOf ts)) (promptTimestamps historyLines) ->
  exists first : option number,
    getCodexFirstPromptTimestamp lessThanOther (Some historyLines) = JNumber <$> first
    /\ earliestOf first (omap numberOf (promptTimestamps historyLines)).
Proof.
  intros Hnumbers. cbn [getCodexFirstPromptTimestamp].
  exists (foldl keepEarliest None (omap numberOf (promptTimestamps historyLines))).
  split; [|apply keepEarliest_earliest].
  by rewrite <- firstPrompt_numbers.
Qed.

End FirstPromptProperties.

(** ** Date keys *)

Lemma pretty_nonnegative_countChar (c : ascii) (z : Z) :
  (forall d : N, pretty_N_char d <> c) -> 0 <= z ->
  countChar c (pretty z) = 0%nat.
Proof.
  intros Hc Hz. unfold pretty, pretty_Z. destruct z as [|p|p]; [|  |lia].
  - cbn. destruct (Ascii.eqb_spec c "0") as [->|_]; [|done].
    by destruct (Hc 0%N).
  - unfold pretty, pretty_positive, pretty, pretty_N.
    case_decide; [done|]. by rewrite pretty_N_go_countChar.
Qed.

Lemma padStart2_countChar (c : ascii) (s : string) :
  c <> "0"%char -> countChar c (padStart2 s) = countChar c s.
Proof.
  intros Hc. unfold padStart2.
  destruct s as [|c1 [|c2 s]]; cbn [String.length]; [| |done].
  - cbn. destruct (Ascii.eqb_spec c "0"); [done|]. done.
  - change ("0" +:+ String c1 "") with (String "0" (String c1 "")).
    cbn [countChar]. destruct (Ascii.eqb_spec c "0"); [done|]. done.
Qed.

(** The two-character forms of the numbers below one hundred differ. *)
Lemma padStart2_pretty_inj (n m : Z) :
  0 <= n <= 99 -> 0 <= m <= 99 ->
  padStart2 (pretty n) = padStart2 (pretty m) -> n = m.
Proof.
  intros Hn Hm Heq.
  assert (Hnodup : NoDup (map (fun k : nat => padStart2 (pretty (Z.of_nat k)))
                              (seq 0 100))).
  { assert (Hdecide : bool_decide
                        (NoDup (map (fun k : nat => padStart2 (pretty (Z.of_nat k)))
                                    (seq 0 100))) = true)
      by (vm_compute; reflexivity).
    by apply bool_decide_eq_true in Hdecide. }
  assert (Hnat : Z.to_nat n = Z.to_nat m).
  { apply (NoDup_map_eq (fun k : nat => padStart2 (pretty (Z.of_nat k))) (seq 0 100));
      [done|apply elem_of_seq; lia|apply elem_of_seq; lia|].
    by rewrite !Z2Nat.id by lia. }
  lia.
Qed.

(** X20. Two dates for which the getters answer calendar days have the
    same date key exactly when they have the same year, month and day
    of the month: the daily activity never merges two days. *)
Theorem date_keys_identify_the_calendar_day (a b : Date) :
  calendarDay a -> calendarDay b ->
  (formatDateKey a = formatDateKey b
   <-> getFullYear a = getFullYear b /\ getMonth a = getMonth b
       /\ getDate a = getDate b).
Proof.
  intros ([ya Hya] & (ma & Hma & Hmonth_a) & (da & Hda & Hday_a))
         ([yb Hyb] & (mb & Hmb & Hmonth_b) & (db & Hdb & Hday_b)).
  unfold formatDateKey. rewrite Hya, Hma, Hda, Hyb, Hmb, Hdb.
  cbn [num_to_string num_add].
  assert (Hdash : forall d : N, pretty_N_char d <> "-"%char).
  { intros d. unfold pretty_N_char. by repeat case_match. }
  assert (Hpadded : forall z : Z, 0 <= z -> countChar "-" (padStart2 (pretty z)) = 0%nat).
  { intros z Hz. rewrite padStart2_countChar by done.
    by apply pretty_nonnegative_countChar. }
  split.
  - intros Heq.
    change (pretty ya +:+ String "-" (padStart2 (pretty (ma + 1))
                                      +:+ String "-" (padStart2 (pretty da)))
            = pretty yb +:+ String "-" (padStart2 (pretty (mb + 1))
                                        +:+ String "-" (padStart2 (pretty db))))
      in Heq.
    apply split_at_separator in Heq as [Hyear Heq];
      [|by rewrite !countChar_app; cbn [countChar]; rewrite !Hpadded by lia].
    apply split_at_separator in Heq as [Hmonth Hday];
      [|by rewrite !Hpadded by lia].
    apply pretty_Z_inj in Hyear.
    apply padStart2_pretty_inj in Hmonth; [|lia..].
    apply padStart2_pretty_inj in Hday; [|lia..].
    split_and!; f_equal; lia.
  - intros (Hyear & Hmonth & Hday). by simplify_eq.
Qed.

(** ** The session a declared id names *)

Lemma dedupSessions_sessionsById (sessions : list SessionUsage) (acc : Accumulator)
    (id : string) :
  id <> "" ->
  acc_sessionsById (foldl dedupSession acc sessions) !! id
  = match last (List.filter (fun session => bool_decide (sessionId session = Some id))
                            sessions) with
    | Some session => Some (signatures session)
    | None => acc_sessionsById acc !! id
    end.
Proof.
  intros Hid. revert acc. induction sessions as [|session sessions IH]; intros acc;
    [done|].
  cbn [foldl List.filter]. rewrite IH, dedupSession_sessionsById.
  case_bool_decide as Hsession.
  - rewrite last_cons, Hsession.
    assert (Htruthy : truthyString (Some id) = true) by (by apply truthyString_Some).
    rewrite Htruthy, lookup_insert_eq. by destruct (last _).
  - destruct (last _); [done|].
    destruct (sessionId session) as [id'|]; [|done].
    destruct (truthyString (Some id')); [|done].
    rewrite lookup_insert_ne; [done|]. by intros ->.
Qed.

(** X21. The session registered under an id is the last processed
    session that has this id: when two files carry the same session
    id, a fork that declares it is compared with the later one. *)
Theorem declared_id_names_the_last_session (sessions : list SessionUsage) (id : string) :
  id <> "" ->
  acc_sessionsById (dedupSessions sessions) !! id
  = signatures
      <$> last (List.filter (fun session => bool_decide (sessionId session = Some id))
                            sessions).
Proof.
  intros Hid. unfold dedupSessions. rewrite dedupSessions_sessionsById by done.
  by destruct (last _).
Qed.

(** ** Sessions that share nothing *)

Lemma heuristicStartIndex_nil (sequence : list string) :
  heuristicStartIndex sequence [] = 0%nat.
Proof.
  unfold heuristicStartIndex, findLargestPrefixOverlap.
  cbn [length Nat.eqb]. rewrite orb_true_r. by destruct (shouldApplyForkDedup _ _).
Qed.

(** A session that declares no parent, in a directory that has no
    candidate yet, keeps all its records. *)
Lemma forkDedup_fresh (priorSessionsByCwd : gmap string (list SessionDedupSignatures))
    (sessionsById : gmap string SessionDedupSignatures) (session : SessionUsage) :
  forkedFromId session = None ->
  (forall dir : string, knownCwd session = Some dir -> priorSessionsByCwd !! dir = None) ->
  forkDedup priorSessionsByCwd sessionsById session
  = (0%nat, 0%nat,
     match knownCwd session with
     | Some dir => <[dir := [signatures session]]> priorSessionsByCwd
     | None => priorSessionsByCwd
     end).
Proof.
  intros Hforked Hfresh. unfold forkDedup, parentSessionOf. rewrite Hforked.
  destruct (knownCwd session) as [dir|]; [|done].
  rewrite (Hfresh dir eq_refl). cbn [default map app].
  by rewrite !heuristicStartIndex_nil.
Qed.

Lemma dedupSessions_independent (sessions : list SessionUsage) (acc : Accumulator) :
  Forall (fun session => forkedFromId session = None) sessions ->
  NoDup (omap knownCwd sessions) ->
  (forall (session : SessionUsage) (dir : string),
      session ∈ sessions -> knownCwd session = Some dir ->
      acc_priorSessionsByCwd acc !! dir = None) ->
  acc_events (foldl dedupSession acc sessions)
  = acc_events acc ++ concat (map events sessions)
  /\ acc_totalMessages (foldl dedupSession acc sessions)
     = acc_totalMessages acc
       + Z.of_nat (sum_list_with (fun session => length (userMessages session)) sessions).
Proof.
  revert acc. induction sessions as [|session sessions IH];
    intros acc Hforked Hnodup Hfresh.
  - cbn. rewrite app_nil_r. split; [done|lia].
  - inversion Hforked as [|? ? Hsession Hrest]; subst.
    assert (Hdedup : forkDedup (acc_priorSessionsByCwd acc) (acc_sessionsById acc) session
                     = (0%nat, 0%nat,
                        match knownCwd session with
                        | Some dir =>
                            <[dir := [signatures session]]> (acc_priorSessionsByCwd acc)
                        | None => acc_priorSessionsByCwd acc
                        end)).
    { apply forkDedup_fresh; [done|]. intros dir Hdir. apply (Hfresh session); [left|done]. }
    cbn [foldl map concat sum_list_with].
    destruct (IH (dedupSession acc session)) as [Hevents Hmessages]; [done| | |].
    + revert Hnodup. cbn [omap list_omap]. fold (omap knownCwd sessions).
      destruct (knownCwd session); [|done]. by intros [_ ?]%NoDup_cons.
    + intros other dir Hother Hdir.
      rewrite dedupSession_priorSessionsByCwd, Hdedup. cbn [snd].
      destruct (knownCwd session) as [own|] eqn:Hown;
        [|apply (Hfresh other); [by right|done]].
      rewrite lookup_insert_ne; [apply (Hfresh other); [by right|done]|].
      intros ->. revert Hnodup. cbn [omap list_omap]. fold (omap knownCwd sessions).
      rewrite Hown. intros [Hnew _]%NoDup_cons. apply Hnew.
      apply list_elem_of_omap. by exists other.
    + rewrite Hevents, Hmessages, dedupSession_events, dedupSession_totalMessages.
      unfold tokenStartIndexOf, messageStartIndexOf. rewrite Hdedup. cbn [fst snd].
      rewrite !drop_0, <- app_assoc. split; [done|]. lia.
Qed.

(** X22. When the working directories of the logs are strings,
    sessions that declare no parent and whose working directories, when
    known, are all different share nothing: every event of every file is
    merged, and the total number of messages is the number of user
    messages of the files. *)
Theorem independent_sessions_are_merged_in_full (files : list SessionFile) :
  Forall (fun file => Forall stringCwd (lines file)) files ->
  Forall (fun file => forkedFromId (parseSessionFile file) = None) files ->
  NoDup (omap (fun file => knownCwd (parseSessionFile file)) files) ->
  Permutation (mergedEvents (collectCodexUsageData files))
              (concat (map (fun file => events (parseSessionFile file)) files))
  /\ totalMessages (collectCodexUsageData files)
     = Z.of_nat (sum_list_with
                   (fun file => length (userMessages (parseSessionFile file))) files).
Proof.
  intros _ Hforked Hnodup.
  assert (Hperm : Permutation (sortedSessions files) (map parseSessionFile files))
    by apply sort_Permutation.
  assert (Homap : forall l : list SessionFile,
             omap knownCwd (map parseSessionFile l)
             = omap (fun file => knownCwd (parseSessionFile file)) l).
  { induction l as [|file l IH]; [done|]. cbn [map omap list_omap].
    fold (omap knownCwd (map parseSessionFile l)).
    fold (omap (fun file => knownCwd (parseSessionFile file)) l).
    by rewrite IH. }
  destruct (dedupSessions_independent (sortedSessions files) initialAccumulator)
    as [Hevents Hmessages].
  - rewrite Hperm. apply Forall_forall. intros session Hsession.
    apply list_elem_of_In, in_map_iff in Hsession as (file & <- & Hfile).
    by apply (proj1 (Forall_forall _ _) Hforked file), list_elem_of_In.
  - rewrite Hperm, Homap. exact Hnodup.
  - intros session dir _ _. apply lookup_empty.
  - cbn [collectCodexUsageData mergedEvents totalMessages]. unfold dedupSessions.
    rewrite Hevents, Hmessages. cbn [initialAccumulator acc_events acc_totalMessages app].
    split.
    + rewrite sort_Permutation.
      rewrite (concat_map_Permutation events _ _ Hperm). by rewrite map_map.
    + rewrite Hperm, sum_list_with_map. lia.
Qed.

(** ** A parent that is not known *)

(** X23. A session that declares a parent under an id no processed
    session has is treated as one that declares none: the
    same-directory heuristic decides what it keeps, and it becomes a
    candidate of its directory. *)
Theorem unknown_parent_is_ignored (acc : Accumulator) (session : SessionUsage)
    (id : string) :
  forkedFromId session = Some id ->
  acc_sessionsById acc !! id = None ->
  dedupSession acc session = dedupSession acc (withoutParent session).
Proof.
  intros Hforked Hunknown.
  assert (Hdedup : forkDedup (acc_priorSessionsByCwd acc) (acc_sessionsById acc) session
                   = forkDedup (acc_priorSessionsByCwd acc) (acc_sessionsById acc)
                               (withoutParent session)).
  { unfold forkDedup, parentSessionOf. rewrite Hforked. cbn [withoutParent forkedFromId].
    rewrite Hunknown. by destruct (truthyString (Some id)). }
  unfold dedupSession. by rewrite Hdedup.
Qed.

(** ** Where the events come from *)

(** X24. Every event of a parsed file carries the timestamp of a
    [token_count] record of the file that has a truthy timestamp, and at
    least one of its four component counters is not zero: no event is
    made of a zero delta or of a record without a timestamp. *)
Theorem events_come_from_usage_records (file : SessionFile) :
  Forall (fun event : CodexUsageEvent =>
            isZeroDelta event = false
            /\ exists line : option json,
                line ∈ lines file /\ tokenCountRecord line (timestamp event))
         (events (parseSessionFile file)).
Proof.
  apply (parseSessionFile_events_Forall _ (fun line => line ∈ lines file));
    [|by apply Forall_forall].
  intros st line event Hline Hpush.
  destruct line as [entry|]; [|by apply no_event_pushed in Hpush].
  apply processEntry_pushes in Hpush as (ts & raw & Hrecord & _ & Hzero & <- & Hdelta).
  split; [by rewrite Hdelta|]. by exists (Some entry).
Qed.

End Collector.

(** * Worked logs

    Stand-ins for what the runtime provides, and small logs on which the
    collector is run. *)

(** [new Date(n)] for a number of milliseconds. *)
Definition exampleNewDate (v : json) : Date :=
  match v with
  | JNumber (Finite ms) => Finite ms
  | _ => NaN
  end.

(** A serialisation that keeps the message text. *)
Definition exampleStringify (v : json) : string :=
  match getProp (Some v) "message" with
  | Some (JString text) => text
  | _ => ""
  end.

(** A stand-in calendar: the year counts the days since the epoch, and
    the month and the day of the month are constant. *)
Definition exampleGetFullYear (date : Date) : number :=
  match date with
  | Finite ms => Finite (ms / 86400000)
  | _ => NaN
  end.
Definition exampleGetMonth (date : Date) : number :=
  match date with
  | Finite _ => Finite 0
  | _ => NaN
  end.
Definition exampleGetDate (date : Date) : number :=
  match date with
  | Finite _ => Finite 1
  | _ => NaN
  end.

(** The order of the character codes. *)
Definition exampleLocaleCompare (a b : string) : Z :=
  match String.compare a b with
  | Eq => 0
  | Lt => -1
  | Gt => 1
  end.

Abbreviation exampleProcessLine := (processLine exampleNewDate exampleStringify).
Abbreviation exampleParse := (parseSessionFile exampleNewDate exampleStringify).
Abbreviation exampleDedupSession :=
  (dedupSession exampleNewDate exampleGetFullYear exampleGetMonth exampleGetDate).
Abbreviation exampleDedupSessions :=
  (dedupSessions exampleNewDate exampleGetFullYear exampleGetMonth exampleGetDate).
Abbreviation exampleSortedSessions :=
  (sortedSessions exampleNewDate exampleStringify exampleLocaleCompare).
Abbreviation exampleCollect :=
  (collectCodexUsageData exampleNewDate exampleStringify exampleGetFullYear
     exampleGetMonth exampleGetDate exampleLocaleCompare).

(** Lines of a log. *)
Definition optionalField (key : string) (value : option string) : list (string * json) :=
  match value with
  | Some s => [(key, JString s)]
  | None => []
  end.

Definition sessionMetaLine (id forkedFrom : option string) (dir : string) (time : Z)
  : option json :=
  Some (JObject [ ("type", JString "session_meta");
                  ("payload",
                   JObject (optionalField "id" id
                            ++ optionalField "forked_from_id" forkedFrom
                            ++ [ ("cwd", JString dir);
                                 ("timestamp", JNumber (Finite time)) ])) ]).

Definition userMessageLine (time : Z) (text : string) : option json :=
  Some (JObject [ ("type", JString "event_msg");
                  ("timestamp", JNumber (Finite time));
                  ("payload", JObject [ ("type", JString "user_message");
                                        ("message", JString text) ]) ]).

Definition usageObject (input cached output : Z) : json :=
  JObject [ ("input_tokens", JNumber (Finite input));
            ("cached_input_tokens", JNumber (Finite cached));
            ("output_tokens", JNumber (Finite output)) ].

(** A [token_count] record with a direct delta. *)
Definition tokenCountLine (time input output : Z) : option json :=
  Some (JObject [ ("type", JString "event_msg");
                  ("timestamp", JNumber (Finite time));
                  ("payload",
                   JObject [ ("type", JString "token_count");
                             ("info",
                              JObject [ ("last_token_usage",
                                         usageObject input 0 output) ]) ]) ]).

(** A [token_count] record with cumulative totals only. *)
Definition cumulativeLine (time input cached output : Z) : option json :=
  Some (JObject [ ("type", JString "event_msg");
                  ("timestamp", JNumber (Finite time));
                  ("payload",
                   JObject [ ("type", JString "token_count");
                             ("info",
                              JObject [ ("total_token_usage",
                                         usageObject input cached output) ]) ]) ]).

(** The records of a first session, of a fork of it, and of a third
    session of the same directory that continues the fork without
    declaring it. *)
Definition rootRecords : list (option json) :=
  [ userMessageLine 1001 "hello"; tokenCountLine 1002 10 5;
    userMessageLine 1003 "next"; tokenCountLine 1004 20 7;
    userMessageLine 1005 "third"; tokenCountLine 1006 30 9 ].

Definition forkRecords : list (option json) :=
  [ userMessageLine 2001 "fourth"; tokenCountLine 2002 40 11;
    userMessageLine 2003 "fifth"; tokenCountLine 2004 50 13;
    userMessageLine 2005 "sixth"; tokenCountLine 2006 60 15 ].

Definition rootLog : SessionFile :=
  {| path := "2025/01/01/a.jsonl";
     lines := sessionMetaLine (Some "a") None "/proj" 1000 :: rootRecords |}.

Definition forkLog : SessionFile :=
  {| path := "2025/01/01/b.jsonl";
     lines := sessionMetaLine (Some "b") (Some "a") "/proj" 2000
              :: rootRecords ++ forkRecords |}.

Definition siblingLog : SessionFile :=
  {| path := "2025/01/01/c.jsonl";
     lines := sessionMetaLine (Some "c") None "/proj" 3000
              :: rootRecords ++ forkRecords
                 ++ [ userMessageLine 3001 "seventh"; tokenCountLine 3002 70 17 ] |}.

(** A fork of the first session in which the third turn was retried: the
    three messages are those of the parent, the third usage event is
    not. *)
Definition retryLog : SessionFile :=
  {| path := "2025/01/01/r.jsonl";
     lines := [ sessionMetaLine (Some "r") (Some "a") "/proj" 2500;
                userMessageLine 1001 "hello"; tokenCountLine 1002 10 5;
                userMessageLine 1003 "next"; tokenCountLine 1004 20 7;
                userMessageLine 1005 "third"; tokenCountLine 2501 31 9;
                userMessageLine 2502 "again"; tokenCountLine 2503 40 11 ] |}.

(** Two sessions of one directory that share two leading messages and two
    leading usage events, with no declared relation. *)
Definition shortLog : SessionFile :=
  {| path := "2025/01/02/p.jsonl";
     lines := sessionMetaLine (Some "p") None "/proj" 1000 :: take 4 rootRecords |}.

Definition copyLog : SessionFile :=
  {| path := "2025/01/02/q.jsonl";
     lines := sessionMetaLine (Some "q") None "/proj" 2000
              :: take 4 rootRecords
                 ++ [ userMessageLine 2001 "own"; tokenCountLine 2002 30 9 ] |}.

(** A record with cumulative totals and no timestamp. *)
Definition untimedCumulativeLine (input cached output : Z) : option json :=
  Some (JObject [ ("type", JString "event_msg");
                  ("payload",
                   JObject [ ("type", JString "token_count");
                             ("info",
                              JObject [ ("total_token_usage",
                                         usageObject input cached output) ]) ]) ]).

(** A [token_count] record that names its model. *)
Definition modelLine (time input output : Z) (name : string) : option json :=
  Some (JObject [ ("type", JString "event_msg");
                  ("timestamp", JNumber (Finite time));
                  ("payload",
                   JObject [ ("type", JString "token_count");
                             ("info",
                              JObject [ ("model_name", JString name);
                                        ("last_token_usage",
                                         usageObject input 0 output) ]) ]) ]).

(** The sessions the parser makes of the logs. *)
Definition rootSession : SessionUsage := exampleParse rootLog.
Definition forkSession : SessionUsage := exampleParse forkLog.
Definition siblingSession : SessionUsage := exampleParse siblingLog.
Definition retrySession : SessionUsage := exampleParse retryLog.

(** The first session and its fork as a family: the fork added the
    records after the three it copied. *)
Definition rootMember : ForkMember :=
  {| member := rootSession;
     ownMessages := userMessages rootSession;
     ownEvents := events rootSession |}.

Definition forkMember : ForkMember :=
  {| member := forkSession;
     ownMessages := drop 3 (userMessages forkSession);
     ownEvents := drop 3 (events forkSession) |}.

Definition exampleFamily : list ForkMember := [rootMember; forkMember].

(** The event of the first usage record of [rootLog]. *)
Definition firstEvent : CodexUsageEvent :=
  {| timestamp := JNumber (Finite 1002);
     model := "gpt-5";
     delta := {| inputTokens := 10; cachedInputTokens := 0; outputTokens := 5;
                 reasoningOutputTokens := 0; totalTokens := 15 |} |}.

(** Cumulative totals and usages the worked records normalise to. *)
Definition secondTotals : RawUsage :=
  {| input_tokens := 100; cached_input_tokens := 80; output_tokens := 0;
     reasoning_output_tokens := 0; total_tokens := 100 |}.

Definition laterTotals : RawUsage :=
  {| input_tokens := 150; cached_input_tokens := 0; output_tokens := 80;
     reasoning_output_tokens := 0; total_tokens := 230 |}.

Definition zeroUsage : RawUsage :=
  {| input_tokens := 0; cached_input_tokens := 0; output_tokens := 0;
     reasoning_output_tokens := 0; total_tokens := 0 |}.

Definition firstUsage : RawUsage :=
  {| input_tokens := 10; cached_input_tokens := 0; output_tokens := 5;
     reasoning_output_tokens := 0; total_tokens := 15 |}.

(** ** The stand-in comparator orders the paths *)

Lemma exampleLocaleCompare_le (a b : string) :
  exampleLocaleCompare a b <= 0 <-> String.le a b.
Proof.
  unfold exampleLocaleCompare, String.le, String.leb.
  destruct (String.compare a b); simpl; split; (done || lia).
Qed.

Lemma exampleLocaleCompare_total (a b : string) :
  0 < exampleLocaleCompare a b -> exampleLocaleCompare b a <= 0.
Proof.
  intros Hgt. apply exampleLocaleCompare_le.
  destruct (String.le_total a b) as [Hab|Hba]; [|done].
  apply exampleLocaleCompare_le in Hab. lia.
Qed.

Lemma exampleLocaleCompare_trans (a b c : string) :
  exampleLocaleCompare a b <= 0 -> exampleLocaleCompare b c <= 0 ->
  exampleLocaleCompare a c <= 0.
Proof.
  rewrite !exampleLocaleCompare_le. intros Hab Hbc. by etrans.
Qed.

(** Every timestamp of a log whose timestamps are numbers of
    milliseconds is valid. *)
Ltac valid_lines :=
  repeat first
    [ apply Forall_nil
    | apply Forall_cons
    | split
    | (let ts := fresh "ts" in
       let Hts := fresh "Hts" in
       intros ts Hts; vm_compute in Hts;
       first [ discriminate Hts
             | injection Hts as <-; eexists; reflexivity ]) ].

(** ** C1 on the worked logs *)

(** The two usage events and the two messages that [copyLog] shares with
    [shortLog] are merged twice: two leading records are below the
    threshold of the heuristic. *)
Lemma copied_records_below_threshold_merged_twice :
  let data := exampleCollect [shortLog; copyLog] in
  ~ NoDup (mergedEvents data)
  /\ ~ NoDup (map createTokenEventSignature (mergedEvents data))
  /\ totalMessages data = 5
  /\ length (remove_dups (messageSignatures (exampleParse shortLog)
                          ++ messageSignatures (exampleParse copyLog))) = 3%nat.
Proof.
  cbv zeta. split; [|split; [|split]].
  - vm_compute. intros Hnodup. inversion Hnodup as [|? ? Hnotin _]; subst.
    apply Hnotin. left.
  - vm_compute. intros Hnodup. inversion Hnodup as [|? ? Hnotin _]; subst.
    apply Hnotin. left.
  - vm_compute. reflexivity.
  - vm_compute. reflexivity.
Qed.

Lemma fork_family_witness :
  exampleSortedSessions [forkLog; rootLog] = map member exampleFamily
  /\ forkFamily exampleFamily
  /\ Permutation (mergedEvents (exampleCollect [forkLog; rootLog]))
                 (concat (map ownEvents exampleFamily))
  /\ totalMessages (exampleCollect [forkLog; rootLog])
     = Z.of_nat (length (concat (map ownMessages exampleFamily))).
Proof.
  assert (Hsorted : exampleSortedSessions [forkLog; rootLog] = map member exampleFamily)
    by (vm_compute; reflexivity).
  assert (Hfamily : forkFamily exampleFamily).
  { apply (forkFamily_fork [rootMember] rootMember forkMember "a").
    - apply forkFamily_root; reflexivity.
    - apply list_elem_of_singleton. reflexivity.
    - vm_compute. reflexivity.
    - discriminate.
    - intros other Hother _. by apply list_elem_of_singleton in Hother.
    - vm_compute. reflexivity.
    - apply parseSessionFile_wellFormed.
    - apply parseSessionFile_wellFormed.
    - vm_compute. reflexivity.
    - vm_compute. reflexivity. }
  split; [exact Hsorted|]. split; [exact Hfamily|].
  exact (fork_family_merges_each_record_once exampleNewDate exampleStringify
           exampleGetFullYear exampleGetMonth exampleGetDate exampleLocaleCompare
           [forkLog; rootLog] exampleFamily Hsorted Hfamily).
Defined.

(** ** C2 on the worked logs *)

(** A direct delta with a negative counter is emitted as it is. *)
Lemma negative_counter_gives_negative_delta :
  exists event : CodexUsageEvent,
    st_sessionEvents (exampleProcessLine initialParseState (tokenCountLine 1000 (-5) 3))
    = [event]
    /\ inputTokens event = -5
    /\ cachedInputTokens event = -5
    /\ totalTokens event = -2.
Proof.
  eexists. split; [vm_compute; reflexivity|]. split_and!; reflexivity.
Qed.

Lemma emitted_delta_invariants_witness :
  Forall (fun line => nonNegativeCounters (lastUsageOf line)) (lines rootLog)
  /\ Forall (fun event : CodexUsageEvent => nonNegativeDelta event)
            (events (exampleParse rootLog))
  /\ st_sessionEvents (exampleProcessLine initialParseState (tokenCountLine 1002 10 5))
     = st_sessionEvents initialParseState ++ [firstEvent]
  /\ isObject (lastUsageOf (tokenCountLine 1002 10 5)) = true
  /\ totalTokens firstEvent
     = (let reported :=
          ensureNumber (getProp (lastUsageOf (tokenCountLine 1002 10 5)) "total_tokens") in
        if 0 <? reported then reported
        else inputTokens firstEvent + outputTokens firstEvent).
Proof.
  assert (Hlines : Forall (fun line => nonNegativeCounters (lastUsageOf line))
                          (lines rootLog)).
  { unfold nonNegativeCounters.
    repeat first [apply Forall_nil | apply Forall_cons | split];
      vm_compute; discriminate. }
  assert (Hpush : st_sessionEvents
                    (exampleProcessLine initialParseState (tokenCountLine 1002 10 5))
                  = st_sessionEvents initialParseState ++ [firstEvent])
    by (vm_compute; reflexivity).
  assert (Hobject : isObject (lastUsageOf (tokenCountLine 1002 10 5)) = true)
    by (vm_compute; reflexivity).
  destruct (emitted_delta_invariants exampleNewDate exampleStringify rootLog)
    as (_ & Hnonneg & Htotal).
  split; [exact Hlines|]. split; [exact (Hnonneg Hlines)|].
  split; [exact Hpush|]. split; [exact Hobject|].
  exact (Htotal initialParseState (tokenCountLine 1002 10 5) firstEvent Hpush Hobject).
Defined.

(** ** C3 on the worked logs *)

(** The fork has a working directory and is not added to its candidate
    list. *)
Lemma fork_not_added_to_directory_candidates :
  let acc := exampleDedupSessions [rootSession] in
  knownCwd forkSession = Some "/proj"
  /\ acc_priorSessionsByCwd (exampleDedupSession acc forkSession) !! "/proj"
     = Some [signatures rootSession]
  /\ acc_priorSessionsByCwd (exampleDedupSession acc forkSession) !! "/proj"
     <> Some (default [] (acc_priorSessionsByCwd acc !! "/proj")
              ++ [signatures forkSession]).
Proof.
  cbv zeta. split; [vm_compute; reflexivity|].
  split; [vm_compute; reflexivity|].
  intros Heq. vm_compute in Heq. discriminate Heq.
Qed.

Lemma session_recorded_witness :
  acc_sessionsById (exampleDedupSession initialAccumulator rootSession) !! "a"
  = Some (signatures rootSession)
  /\ acc_priorSessionsByCwd (exampleDedupSession initialAccumulator rootSession) !! "/proj"
     = Some (default [] (acc_priorSessionsByCwd initialAccumulator !! "/proj")
             ++ [signatures rootSession])
  /\ acc_priorSessionsByCwd
       (exampleDedupSession (exampleDedupSessions [rootSession]) forkSession)
     = acc_priorSessionsByCwd (exampleDedupSessions [rootSession]).
Proof.
  destruct (session_recorded_after_dedup exampleNewDate exampleGetFullYear
              exampleGetMonth exampleGetDate initialAccumulator rootSession)
    as (Hid & Hcwd & _).
  destruct (session_recorded_after_dedup exampleNewDate exampleGetFullYear
              exampleGetMonth exampleGetDate
              (exampleDedupSessions [rootSession]) forkSession)
    as (_ & _ & Hparent).
  split; [apply Hid; [vm_compute; reflexivity|discriminate]|].
  split; [apply Hcwd; vm_compute; reflexivity|].
  apply Hparent. vm_compute. eexists. reflexivity.
Defined.

(** ** C4 on the worked logs *)

(** After totals of 90 input and 10 cached tokens, totals of 100 and 80
    give a cached difference of 70 and an emitted cached counter of 10;
    and a record without a timestamp leaves the last-seen totals as they
    were. *)
Lemma cached_difference_capped_and_untimed_totals_ignored :
  let st := exampleProcessLine initialParseState (cumulativeLine 1000 90 10 0) in
  normalizeRawUsage
    (getProp (infoOf (cumulativeLine 1001 100 80 0)) "last_token_usage") = None
  /\ normalizeRawUsage
       (getProp (infoOf (cumulativeLine 1001 100 80 0)) "total_token_usage")
     = Some secondTotals
  /\ clampedDifference cached_input_tokens secondTotals (st_previousTotals st) = 70
  /\ (exists event : CodexUsageEvent,
         st_sessionEvents (exampleProcessLine st (cumulativeLine 1001 100 80 0))
         = st_sessionEvents st ++ [event]
         /\ cachedInputTokens event = 10)
  /\ normalizeRawUsage
       (getProp (infoOf (untimedCumulativeLine 100 80 0)) "total_token_usage")
     = Some secondTotals
  /\ st_previousTotals (exampleProcessLine st (untimedCumulativeLine 100 80 0))
     = st_previousTotals st
  /\ st_previousTotals st <> Some secondTotals.
Proof.
  cbv zeta. split_and!; try (vm_compute; reflexivity).
  - eexists. split; [vm_compute; reflexivity|reflexivity].
  - intros Heq. vm_compute in Heq. discriminate Heq.
Qed.

Lemma cumulative_totals_witness :
  let st := exampleProcessLine initialParseState (cumulativeLine 1000 100 0 50) in
  let entry := cumulativeLine 1001 150 0 80 in
  tokenCountRecord entry (JNumber (Finite 1001))
  /\ normalizeRawUsage (getProp (infoOf entry) "total_token_usage") = Some laterTotals
  /\ normalizeRawUsage (getProp (infoOf entry) "last_token_usage") = None
  /\ st_previousTotals (exampleProcessLine st entry) = Some laterTotals
  /\ inputTokens (convertToDelta (subtractRawUsage laterTotals (st_previousTotals st)))
     = clampedDifference input_tokens laterTotals (st_previousTotals st).
Proof.
  cbv zeta.
  assert (Hrecord : tokenCountRecord (cumulativeLine 1001 150 0 80) (JNumber (Finite 1001)))
    by (split_and!; vm_compute; reflexivity).
  assert (Htotal : normalizeRawUsage
                     (getProp (infoOf (cumulativeLine 1001 150 0 80)) "total_token_usage")
                   = Some laterTotals) by (vm_compute; reflexivity).
  assert (Hlast : normalizeRawUsage
                    (getProp (infoOf (cumulativeLine 1001 150 0 80)) "last_token_usage")
                  = None) by (vm_compute; reflexivity).
  split; [exact Hrecord|]. split; [exact Htotal|]. split; [exact Hlast|].
  pose proof (cumulative_totals_give_clamped_delta exampleNewDate exampleStringify
                (exampleProcessLine initialParseState (cumulativeLine 1000 100 0 50))
                (cumulativeLine 1001 150 0 80) (JNumber (Finite 1001)) laterTotals
                Hrecord Htotal) as H.
  cbv zeta in H. destruct H as [Hprevious Hdelta].
  split; [exact Hprevious|].
  destruct (Hdelta Hlast) as (Hinput & _). exact Hinput.
Defined.

(** ** C5 on the worked logs *)

(** The third session continues the fork, which is in its directory and
    was processed before it, yet only the three records of the first
    session are discarded: the fork had an explicit parent and is not a
    candidate. *)
Lemma heuristic_skips_explicit_fork_of_directory :
  let acc := exampleDedupSessions [rootSession; forkSession] in
  exampleSortedSessions [siblingLog; forkLog; rootLog]
  = [rootSession; forkSession; siblingSession]
  /\ parentSessionOf (acc_sessionsById acc) siblingSession = None
  /\ knownCwd rootSession = Some "/proj"
  /\ knownCwd forkSession = Some "/proj"
  /\ knownCwd siblingSession = Some "/proj"
  /\ max_list (map (commonPrefixLength (tokenSignatures siblingSession))
                   [tokenSignatures rootSession; tokenSignatures forkSession]) = 6%nat
  /\ max_list (map (commonPrefixLength (messageSignatures siblingSession))
                   [messageSignatures rootSession; messageSignatures forkSession]) = 6%nat
  /\ clearsGuard 6 (length (tokenSignatures siblingSession))
  /\ clearsGuard 6 (length (messageSignatures siblingSession))
  /\ tokenStartIndexOf acc siblingSession = 3%nat
  /\ messageStartIndexOf acc siblingSession = 3%nat.
Proof.
  cbv zeta. unfold clearsGuard.
  split_and!; try (vm_compute; reflexivity); vm_compute; lia.
Qed.

Lemma heuristic_overlap_witness :
  let acc := exampleDedupSessions [rootSession; forkSession] in
  parentSessionOf (acc_sessionsById acc) siblingSession = None
  /\ knownCwd siblingSession = Some "/proj"
  /\ tokenStartIndexOf acc siblingSession = 3%nat
  /\ messageStartIndexOf acc siblingSession = 3%nat.
Proof.
  cbv zeta.
  assert (Hparent : parentSessionOf
                      (acc_sessionsById (exampleDedupSessions [rootSession; forkSession]))
                      siblingSession = None) by (vm_compute; reflexivity).
  assert (Hcwd : knownCwd siblingSession = Some "/proj") by (vm_compute; reflexivity).
  split; [exact Hparent|]. split; [exact Hcwd|].
  pose proof (heuristic_overlap_applies_iff_guard
                (exampleDedupSessions [rootSession; forkSession]) siblingSession "/proj"
                Hparent Hcwd) as H.
  cbv zeta in H. destruct H as (_ & _ & Hmessage & _ & Htoken & _).
  split.
  - rewrite Htoken; [vm_compute; reflexivity|]. vm_compute. split; lia.
  - rewrite Hmessage; [vm_compute; reflexivity|]. vm_compute. split; lia.
Defined.

(** ** C6 on the worked logs *)

(** The retried fork loses its three copied messages and its two copied
    usage events: the two overlaps are computed apart. *)
Lemma explicit_fork_witness :
  let acc := exampleDedupSessions [rootSession] in
  forkedFromId retrySession = Some "a"
  /\ acc_sessionsById acc !! "a" = Some (signatures rootSession)
  /\ messageStartIndexOf acc retrySession = 3%nat
  /\ tokenStartIndexOf acc retrySession = 2%nat
  /\ acc_events (exampleDedupSession acc retrySession)
     = acc_events acc
       ++ drop (commonPrefixLength (tokenSignatures retrySession)
                                   (tokenSignatures (signatures rootSession)))
               (events retrySession).
Proof.
  cbv zeta.
  assert (Hfork : forkedFromId retrySession = Some "a") by (vm_compute; reflexivity).
  assert (Hparent : acc_sessionsById (exampleDedupSessions [rootSession]) !! "a"
                    = Some (signatures rootSession)) by (vm_compute; reflexivity).
  assert (Hid : "a" <> "") by discriminate.
  split; [exact Hfork|]. split; [exact Hparent|].
  pose proof (explicit_fork_discards_longest_common_prefix exampleNewDate
                exampleGetFullYear exampleGetMonth exampleGetDate
                (exampleDedupSessions [rootSession]) retrySession "a"
                (signatures rootSession) Hfork Hid Hparent) as H.
  cbv zeta in H. destruct H as (_ & _ & Hmessage & Htoken & _ & Hevents).
  split; [rewrite Hmessage; vm_compute; reflexivity|].
  split; [rewrite Htoken; vm_compute; reflexivity|].
  exact Hevents.
Defined.

(** ** C7 on the worked logs *)

Lemma zero_delta_witness :
  let st := exampleProcessLine initialParseState (cumulativeLine 1000 100 0 50) in
  let entry := cumulativeLine 1001 100 0 50 in
  hasType entry "event_msg" = true
  /\ hasType (payloadOf entry) "token_count" = true
  /\ rawUsageOf (infoOf entry) (st_previousTotals st) = Some zeroUsage
  /\ st_sessionEvents (exampleProcessLine st entry) = st_sessionEvents st.
Proof.
  cbv zeta.
  assert (Hentry : hasType (cumulativeLine 1001 100 0 50) "event_msg" = true)
    by (vm_compute; reflexivity).
  assert (Hpayload : hasType (payloadOf (cumulativeLine 1001 100 0 50)) "token_count"
                     = true) by (vm_compute; reflexivity).
  assert (Hraw : rawUsageOf (infoOf (cumulativeLine 1001 100 0 50))
                   (st_previousTotals
                      (exampleProcessLine initialParseState
                         (cumulativeLine 1000 100 0 50)))
                 = Some zeroUsage) by (vm_compute; reflexivity).
  split; [exact Hentry|]. split; [exact Hpayload|]. split; [exact Hraw|].
  apply (zero_delta_pushes_no_event exampleNewDate exampleStringify _ _ zeroUsage
           Hentry Hpayload Hraw); vm_compute; reflexivity.
Defined.

(** ** C8 on the worked logs *)

(** Three sessions found in the order late, unreadable, early: the
    timestamp of the second is not a date.  And a session whose second
    usage record has such a timestamp. *)
Definition unreadableMetaLine (id : string) (dir : string) (time : string) : option json :=
  Some (JObject [ ("type", JString "session_meta");
                  ("payload", JObject [ ("id", JString id);
                                        ("cwd", JString dir);
                                        ("timestamp", JString time) ]) ]).

Definition stampedCountLine (time : json) (input output : Z) : option json :=
  Some (JObject [ ("type", JString "event_msg");
                  ("timestamp", time);
                  ("payload",
                   JObject [ ("type", JString "token_count");
                             ("info",
                              JObject [ ("last_token_usage",
                                         usageObject input 0 output) ]) ]) ]).

Definition lateLog : SessionFile :=
  {| path := "2025/01/04/x.jsonl";
     lines := [ sessionMetaLine (Some "x") None "/late" 2000 ] |}.

Definition unreadableLog : SessionFile :=
  {| path := "2025/01/04/y.jsonl";
     lines := [ unreadableMetaLine "y" "/unreadable" "soon" ] |}.

Definition earlyLog : SessionFile :=
  {| path := "2025/01/04/z.jsonl";
     lines := [ sessionMetaLine (Some "z") None "/early" 1000 ] |}.

Definition unreadableEventLog : SessionFile :=
  {| path := "2025/01/04/w.jsonl";
     lines := [ sessionMetaLine (Some "w") None "/events" 1000;
                stampedCountLine (JNumber (Finite 2000)) 10 5;
                stampedCountLine (JString "soon") 20 7;
                stampedCountLine (JNumber (Finite 1000)) 30 9 ] |}.

(** C8, the claim as stated fails. With a session timestamp that is not
    a date the comparator answers [NaN] against it: the session dated
    2000 is fed to the deduplicator before the session dated 1000, and
    the order depends on the order of discovery.  With such a timestamp
    on a usage record, the event stamped 2000 is returned before the
    event stamped 1000. *)
Lemma invalid_date_leaves_sessions_and_events_unsorted :
  map sessionDate (exampleSortedSessions [lateLog; unreadableLog; earlyLog])
  = [Some (Finite 2000); Some NaN; Some (Finite 1000)]
  /\ ~ StronglySorted (sessionPrecedes exampleLocaleCompare)
         (exampleSortedSessions [lateLog; unreadableLog; earlyLog])
  /\ map sessionDate (exampleSortedSessions [earlyLog; unreadableLog; lateLog])
     = [Some (Finite 1000); Some NaN; Some (Finite 2000)]
  /\ map timestamp (mergedEvents (exampleCollect [unreadableEventLog]))
     = [JNumber (Finite 2000); JString "soon"; JNumber (Finite 1000)]
  /\ ~ StronglySorted (eventPrecedes exampleNewDate)
         (mergedEvents (exampleCollect [unreadableEventLog])).
Proof.
  assert (Hsessions : exampleSortedSessions [lateLog; unreadableLog; earlyLog]
                      = [exampleParse lateLog; exampleParse unreadableLog;
                         exampleParse earlyLog]) by (vm_compute; reflexivity).
  assert (Hevents : exists first second third : CodexUsageEvent,
             mergedEvents (exampleCollect [unreadableEventLog]) = [first; second; third]
             /\ timestamp first = JNumber (Finite 2000)
             /\ timestamp third = JNumber (Finite 1000)).
  { eexists _, _, _. split_and!; vm_compute; reflexivity. }
  split_and!.
  - vm_compute. reflexivity.
  - rewrite Hsessions. intros Hsorted.
    apply StronglySorted_inv in Hsorted as [_ Hfirst].
    apply Forall_inv_tail, Forall_inv in Hfirst. vm_compute in Hfirst.
    destruct Hfirst as [Hlt|[Heq _]]; discriminate.
  - vm_compute. reflexivity.
  - vm_compute. reflexivity.
  - destruct Hevents as (first & second & third & -> & Hfirst & Hthird).
    intros Hsorted.
    apply StronglySorted_inv in Hsorted as [_ Hhead].
    apply Forall_inv_tail, Forall_inv in Hhead.
    unfold eventPrecedes in Hhead. rewrite Hfirst, Hthird in Hhead.
    vm_compute in Hhead. by apply Hhead.
Qed.

Lemma sorted_witness :
  Forall (fun file => validSessionDate (sessionDate (exampleParse file)))
         [forkLog; siblingLog; rootLog]
  /\ Forall (validEvent exampleNewDate)
            (mergedEvents (exampleCollect [forkLog; siblingLog; rootLog]))
  /\ exampleSortedSessions [forkLog; siblingLog; rootLog]
     = [rootSession; forkSession; siblingSession]
  /\ StronglySorted (sessionPrecedes exampleLocaleCompare)
       (exampleSortedSessions [forkLog; siblingLog; rootLog])
  /\ StronglySorted (eventPrecedes exampleNewDate)
       (mergedEvents (exampleCollect [forkLog; siblingLog; rootLog])).
Proof.
  assert (Hdates : Forall (fun file => validSessionDate (sessionDate (exampleParse file)))
                          [forkLog; siblingLog; rootLog]).
  { repeat first [exact I | apply Forall_nil
                  | apply Forall_cons; split; [vm_compute; eexists; reflexivity|]]. }
  assert (Hmerged : exists merged : list CodexUsageEvent,
             mergedEvents (exampleCollect [forkLog; siblingLog; rootLog]) = merged
             /\ Forall (validEvent exampleNewDate) merged).
  { eexists. split; [vm_compute; reflexivity|].
    repeat first [exact I | apply Forall_nil
                  | apply Forall_cons; split; [vm_compute; eexists; reflexivity|]]. }
  assert (Hevents : Forall (validEvent exampleNewDate)
                           (mergedEvents (exampleCollect [forkLog; siblingLog; rootLog]))).
  { destruct Hmerged as (merged & -> & Hvalid). exact Hvalid. }
  split; [exact Hdates|]. split; [exact Hevents|]. split; [vm_compute; reflexivity|].
  pose proof (sessions_and_events_are_sorted exampleNewDate exampleStringify
                exampleGetFullYear exampleGetMonth exampleGetDate exampleLocaleCompare
                exampleLocaleCompare_total exampleLocaleCompare_trans
                [forkLog; siblingLog; rootLog]) as H.
  cbv zeta in H. destruct H as (_ & Hsessions & _ & _ & _ & Hsorted).
  split; [exact (Hsessions Hdates)|exact (Hsorted Hevents)].
Defined.

(** ** C9 on the worked logs *)

Lemma model_resolution_witness :
  let entry := modelLine 1000 10 5 " gpt-5.2-codex " in
  tokenCountRecord entry (JNumber (Finite 1000))
  /\ rawUsageOf (infoOf entry) (st_previousTotals initialParseState) = Some firstUsage
  /\ isZeroDelta (convertToDelta firstUsage) = false
  /\ exists event : CodexUsageEvent,
      st_sessionEvents (exampleProcessLine initialParseState entry)
      = st_sessionEvents initialParseState ++ [event]
      /\ model event = "gpt-5.2-codex"
      /\ st_currentModel (exampleProcessLine initialParseState entry)
         = Some "gpt-5.2-codex"
      /\ st_currentModelIsFallback (exampleProcessLine initialParseState entry) = false.
Proof.
  cbv zeta.
  assert (Hrecord : tokenCountRecord (modelLine 1000 10 5 " gpt-5.2-codex ")
                      (JNumber (Finite 1000)))
    by (split_and!; vm_compute; reflexivity).
  assert (Hraw : rawUsageOf (infoOf (modelLine 1000 10 5 " gpt-5.2-codex "))
                   (st_previousTotals initialParseState) = Some firstUsage)
    by (vm_compute; reflexivity).
  assert (Hzero : isZeroDelta (convertToDelta firstUsage) = false)
    by (vm_compute; reflexivity).
  split; [exact Hrecord|]. split; [exact Hraw|]. split; [exact Hzero|].
  destruct (token_count_model_resolution exampleNewDate exampleStringify
              initialParseState (modelLine 1000 10 5 " gpt-5.2-codex ")
              (JNumber (Finite 1000)) firstUsage Hrecord Hraw Hzero)
    as (event & Hevents & _ & Hmodel).
  exists event. split; [exact Hevents|]. exact Hmodel.
Defined.

(** ** More logs *)

(** A [turn_context] line that names a model. *)
Definition turnContextLine (name : string) : option json :=
  Some (JObject [ ("type", JString "turn_context");
                  ("payload", JObject [ ("model", JString name) ]) ]).

(** A session that declares two working directories. *)
Definition movedLog : SessionFile :=
  {| path := "2025/01/03/m.jsonl";
     lines := [ sessionMetaLine (Some "m") None "/old" 1000;
                userMessageLine 1001 "hello";
                sessionMetaLine (Some "n") None "/new" 900 ] |}.

(** A session whose usage records carry cumulative totals only; the
    second record repeats the totals of the first. *)
Definition cumulativeLog : SessionFile :=
  {| path := "2025/01/03/t.jsonl";
     lines := [ cumulativeLine 1000 100 0 10;
                cumulativeLine 2000 100 0 10;
                untimedCumulativeLine 900 0 90;
                cumulativeLine 3000 250 0 40 ] |}.

(** A copy of the first session, written later in the same directory
    under another id. *)
Definition duplicateLog : SessionFile :=
  {| path := "2025/01/03/d.jsonl";
     lines := sessionMetaLine (Some "d") None "/proj" 5000 :: rootRecords |}.

Definition duplicateSession : SessionUsage := exampleParse duplicateLog.

(** A session of another directory that carries the id of the first. *)
Definition resumedLog : SessionFile :=
  {| path := "2025/01/03/e.jsonl";
     lines := sessionMetaLine (Some "a") None "/other" 6000 :: forkRecords |}.

Definition resumedSession : SessionUsage := exampleParse resumedLog.

(** A history: a prompt, a blank line, a line with a zero [ts], an
    earlier prompt and a line without [ts]. *)
Definition exampleHistory : list (option json) :=
  [ Some (JObject [ ("ts", JNumber (Finite 300)) ]);
    None;
    Some (JObject [ ("ts", JNumber (Finite 0)) ]);
    Some (JObject [ ("ts", JNumber (Finite 100)) ]);
    Some (JObject [ ("text", JString "hello") ]) ].

(** A stand-in for the comparison of values that are not numbers. *)
Definition exampleLessThanOther (a b : json) : bool := false.

Lemma exampleLocaleCompare_antisym (a b : string) :
  exampleLocaleCompare a b <= 0 -> exampleLocaleCompare b a <= 0 -> a = b.
Proof.
  rewrite !exampleLocaleCompare_le. intros Hab Hba.
  by apply (anti_symm String.le).
Qed.

(** ** Further properties on the worked logs *)

Lemma session_cwd_witness :
  Forall stringCwd (lines movedLog)
  /\ cwd (exampleParse movedLog) = Some "/new".
Proof.
  assert (Hstring : Forall stringCwd (lines movedLog)).
  { repeat first [exact I | apply Forall_nil | apply Forall_cons; split; [exact I|]]. }
  split; [exact Hstring|].
  rewrite (session_cwd_is_last_declared exampleNewDate exampleStringify movedLog Hstring).
  vm_compute. reflexivity.
Defined.

Lemma turn_context_witness :
  let context := turnContextLine "gpt-5.1-codex" in
  let entry := tokenCountLine 1002 10 5 in
  hasType context "turn_context" = true
  /\ extractModel (payloadOf context) = Some "gpt-5.1-codex"
  /\ tokenCountRecord entry (JNumber (Finite 1002))
  /\ rawUsageOf (infoOf entry) (st_previousTotals initialParseState) = Some firstUsage
  /\ isZeroDelta (convertToDelta firstUsage) = false
  /\ extractModel (payloadOf entry) = None
  /\ st_sessionEvents
       (exampleProcessLine (exampleProcessLine initialParseState context) entry)
     = st_sessionEvents initialParseState
       ++ [{| timestamp := JNumber (Finite 1002);
              model := "gpt-5.1-codex";
              delta := convertToDelta firstUsage |}].
Proof.
  cbv zeta.
  assert (Hcontext : hasType (turnContextLine "gpt-5.1-codex") "turn_context" = true)
    by (vm_compute; reflexivity).
  assert (Hmodel : extractModel (payloadOf (turnContextLine "gpt-5.1-codex"))
                   = Some "gpt-5.1-codex") by (vm_compute; reflexivity).
  assert (Hrecord : tokenCountRecord (tokenCountLine 1002 10 5) (JNumber (Finite 1002)))
    by (split_and!; vm_compute; reflexivity).
  assert (Hraw : rawUsageOf (infoOf (tokenCountLine 1002 10 5))
                   (st_previousTotals initialParseState) = Some firstUsage)
    by (vm_compute; reflexivity).
  assert (Hzero : isZeroDelta (convertToDelta firstUsage) = false)
    by (vm_compute; reflexivity).
  assert (Hnone : extractModel (payloadOf (tokenCountLine 1002 10 5)) = None)
    by (vm_compute; reflexivity).
  split; [exact Hcontext|]. split; [exact Hmodel|]. split; [exact Hrecord|].
  split; [exact Hraw|]. split; [exact Hzero|]. split; [exact Hnone|].
  exact (turn_context_model_is_inherited exampleNewDate exampleStringify
           initialParseState (turnContextLine "gpt-5.1-codex") (tokenCountLine 1002 10 5)
           (JNumber (Finite 1002)) firstUsage "gpt-5.1-codex"
           Hcontext Hmodel Hrecord Hraw Hzero Hnone).
Defined.

Lemma cumulative_deltas_witness :
  Forall (fun line => isObject (lastUsageOf line) = false) (lines cumulativeLog)
  /\ nonDecreasingFrom 0 (map input_tokens (recordedTotals (lines cumulativeLog)))
  /\ nonDecreasingFrom 0 (map output_tokens (recordedTotals (lines cumulativeLog)))
  /\ length (events (exampleParse cumulativeLog)) = 2%nat
  /\ sumOf inputTokens (events (exampleParse cumulativeLog)) = 250
  /\ sumOf outputTokens (events (exampleParse cumulativeLog)) = 40.
Proof.
  assert (Hdirect : Forall (fun line => isObject (lastUsageOf line) = false)
                           (lines cumulativeLog)).
  { repeat first [exact I | apply Forall_nil | apply Forall_cons; split; [vm_compute; reflexivity|]]. }
  assert (Hinputs : map input_tokens (recordedTotals (lines cumulativeLog))
                    = [100; 100; 250]) by (vm_compute; reflexivity).
  assert (Houtputs : map output_tokens (recordedTotals (lines cumulativeLog))
                     = [10; 10; 40]) by (vm_compute; reflexivity).
  assert (Hin : nonDecreasingFrom 0 (map input_tokens (recordedTotals (lines cumulativeLog))))
    by (rewrite Hinputs; cbn; lia).
  assert (Hout : nonDecreasingFrom 0
                   (map output_tokens (recordedTotals (lines cumulativeLog))))
    by (rewrite Houtputs; cbn; lia).
  split; [exact Hdirect|]. split; [exact Hin|]. split; [exact Hout|].
  split; [vm_compute; reflexivity|].
  pose proof (cumulative_deltas_add_up_to_last_total exampleNewDate exampleStringify
                cumulativeLog Hdirect) as H.
  cbv zeta in H. destruct H as (Hinput & Houtput & _).
  split.
  - rewrite (Hinput Hin), Hinputs. reflexivity.
  - rewrite (Houtput Hout), Houtputs. reflexivity.
Defined.

Lemma same_directory_copy_witness :
  let acc := exampleDedupSessions [rootSession] in
  parentSessionOf (acc_sessionsById acc) duplicateSession = None
  /\ knownCwd duplicateSession = Some "/proj"
  /\ signatures duplicateSession ∈ default [] (acc_priorSessionsByCwd acc !! "/proj")
  /\ length (userMessages duplicateSession) = 3%nat
  /\ length (events duplicateSession) = 3%nat
  /\ acc_totalMessages (exampleDedupSession acc duplicateSession) = acc_totalMessages acc
  /\ acc_dailyActivity (exampleDedupSession acc duplicateSession) = acc_dailyActivity acc
  /\ acc_events (exampleDedupSession acc duplicateSession) = acc_events acc.
Proof.
  cbv zeta.
  assert (Hparent : parentSessionOf (acc_sessionsById (exampleDedupSessions [rootSession]))
                                    duplicateSession = None) by (vm_compute; reflexivity).
  assert (Hcwd : knownCwd duplicateSession = Some "/proj") by (vm_compute; reflexivity).
  assert (Hcandidates : default [] (acc_priorSessionsByCwd
                                      (exampleDedupSessions [rootSession]) !! "/proj")
                        = [signatures duplicateSession]) by (vm_compute; reflexivity).
  assert (Hcopy : signatures duplicateSession
                  ∈ default [] (acc_priorSessionsByCwd
                                  (exampleDedupSessions [rootSession]) !! "/proj")).
  { rewrite Hcandidates. left. }
  assert (Hformed : wellFormedSignatures duplicateSession)
    by (split; vm_compute; reflexivity).
  assert (Hmessages : length (userMessages duplicateSession) = 3%nat)
    by (vm_compute; reflexivity).
  assert (Hevents : length (events duplicateSession) = 3%nat)
    by (vm_compute; reflexivity).
  split; [exact Hparent|]. split; [exact Hcwd|]. split; [exact Hcopy|].
  split; [exact Hmessages|]. split; [exact Hevents|].
  apply (same_directory_copy_adds_nothing exampleNewDate exampleGetFullYear
           exampleGetMonth exampleGetDate (exampleDedupSessions [rootSession])
           duplicateSession "/proj" Hparent Hcwd Hcopy Hformed).
  - rewrite Hmessages. lia.
  - rewrite Hevents. lia.
Defined.

Lemma daily_activity_witness :
  dailyActivity (exampleCollect [rootLog]) !! "0-01-01" = Some 3
  /\ 1 <= 3
  /\ exists (file : SessionFile) (message : SessionUserMessage),
      file ∈ [rootLog] /\ message ∈ userMessages (exampleParse file)
      /\ formatDateKey exampleGetFullYear exampleGetMonth exampleGetDate
           (exampleNewDate (messageTimestamp message)) = "0-01-01".
Proof.
  assert (Hlookup : dailyActivity (exampleCollect [rootLog]) !! "0-01-01" = Some 3)
    by (vm_compute; reflexivity).
  split; [exact Hlookup|].
  exact (daily_activity_days_have_messages exampleNewDate exampleStringify
           exampleGetFullYear exampleGetMonth exampleGetDate exampleLocaleCompare
           [rootLog] "0-01-01" 3 Hlookup).
Defined.

Lemma discovery_order_witness :
  Permutation [rootLog; forkLog] [forkLog; rootLog]
  /\ Forall (validFile exampleNewDate) [rootLog; forkLog]
  /\ NoDup (map path [rootLog; forkLog])
  /\ exampleCollect [forkLog; rootLog] = exampleCollect [rootLog; forkLog].
Proof.
  assert (Hperm : Permutation [rootLog; forkLog] [forkLog; rootLog]) by apply perm_swap.
  assert (Hvalid : Forall (validFile exampleNewDate) [rootLog; forkLog]).
  { unfold validFile, validLine, validTimestamp. valid_lines. }
  assert (Hdecide : bool_decide (NoDup (map path [rootLog; forkLog])) = true)
    by (vm_compute; reflexivity).
  assert (Hnodup : NoDup (map path [rootLog; forkLog]))
    by (by apply bool_decide_eq_true in Hdecide).
  split; [exact Hperm|]. split; [exact Hvalid|]. split; [exact Hnodup|].
  exact (collection_independent_of_discovery_order exampleNewDate exampleStringify
           exampleGetFullYear exampleGetMonth exampleGetDate exampleLocaleCompare
           exampleLocaleCompare_total exampleLocaleCompare_trans
           exampleLocaleCompare_antisym [rootLog; forkLog] [forkLog; rootLog]
           Hperm Hvalid Hnodup).
Defined.

Lemma first_prompt_witness :
  Forall (fun ts => is_Some (numberOf ts)) (promptTimestamps exampleHistory)
  /\ getCodexFirstPromptTimestamp exampleLessThanOther (Some exampleHistory)
     = Some (JNumber (Finite 100))
  /\ exists first : option number,
      getCodexFirstPromptTimestamp exampleLessThanOther (Some exampleHistory)
      = JNumber <$> first
      /\ earliestOf first (omap numberOf (promptTimestamps exampleHistory)).
Proof.
  assert (Hnumbers : Forall (fun ts => is_Some (numberOf ts))
                            (promptTimestamps exampleHistory)).
  { assert (Htimestamps : promptTimestamps exampleHistory
                          = [JNumber (Finite 300); JNumber (Finite 100)])
      by (vm_compute; reflexivity).
    rewrite Htimestamps.
    repeat first [exact I | apply Forall_nil | apply Forall_cons; split; [by eexists|]]. }
  split; [exact Hnumbers|]. split; [vm_compute; reflexivity|].
  exact (first_prompt_is_the_least_timestamp exampleLessThanOther exampleHistory Hnumbers).
Defined.

Lemma date_keys_witness :
  let a := Finite 1001 in
  let b := Finite 172800000 in
  calendarDay exampleGetFullYear exampleGetMonth exampleGetDate a
  /\ calendarDay exampleGetFullYear exampleGetMonth exampleGetDate b
  /\ formatDateKey exampleGetFullYear exampleGetMonth exampleGetDate a = "0-01-01"
  /\ formatDateKey exampleGetFullYear exampleGetMonth exampleGetDate b = "2-01-01"
  /\ (formatDateKey exampleGetFullYear exampleGetMonth exampleGetDate a
      = formatDateKey exampleGetFullYear exampleGetMonth exampleGetDate b
      <-> exampleGetFullYear a = exampleGetFullYear b
          /\ exampleGetMonth a = exampleGetMonth b
          /\ exampleGetDate a = exampleGetDate b).
Proof.
  cbv zeta.
  assert (Ha : calendarDay exampleGetFullYear exampleGetMonth exampleGetDate (Finite 1001)).
  { split_and!; eexists; first [reflexivity | split; [reflexivity|lia]]. }
  assert (Hb : calendarDay exampleGetFullYear exampleGetMonth exampleGetDate
                           (Finite 172800000)).
  { split_and!; eexists; first [reflexivity | split; [reflexivity|lia]]. }
  split; [exact Ha|]. split; [exact Hb|].
  split; [vm_compute; reflexivity|]. split; [vm_compute; reflexivity|].
  exact (date_keys_identify_the_calendar_day exampleGetFullYear exampleGetMonth
           exampleGetDate (Finite 1001) (Finite 172800000) Ha Hb).
Defined.

Lemma declared_id_witness :
  "a" <> ""
  /\ acc_sessionsById (exampleDedupSessions [rootSession; resumedSession]) !! "a"
     = Some (signatures resumedSession)
  /\ acc_sessionsById (exampleDedupSessions [rootSession; resumedSession]) !! "a"
     = signatures
         <$> last (List.filter
                     (fun session => bool_decide (sessionId session = Some "a"))
                     [rootSession; resumedSession]).
Proof.
  assert (Hid : "a" <> "") by discriminate.
  split; [exact Hid|]. split; [vm_compute; reflexivity|].
  exact (declared_id_names_the_last_session exampleNewDate exampleGetFullYear
           exampleGetMonth exampleGetDate [rootSession; resumedSession] "a" Hid).
Defined.

Lemma projects_witness :
  Forall (fun file => Forall stringCwd (lines file)) [rootLog; resumedLog]
  /\ "/other" ∈ projects (exampleCollect [rootLog; resumedLog])
  /\ ("/other" ∈ projects (exampleCollect [rootLog; resumedLog])
      <-> exists file : SessionFile,
            file ∈ [rootLog; resumedLog] /\ knownCwd (exampleParse file) = Some "/other").
Proof.
  assert (Hstring : Forall (fun file => Forall stringCwd (lines file))
                           [rootLog; resumedLog]).
  { repeat first [exact I | apply Forall_nil | apply Forall_cons; split]. }
  pose proof (projects_are_the_working_directories exampleNewDate exampleStringify
                exampleGetFullYear exampleGetMonth exampleGetDate exampleLocaleCompare
                [rootLog; resumedLog] "/other" Hstring) as Hprojects.
  split; [exact Hstring|]. split; [|exact Hprojects].
  apply Hprojects. exists resumedLog. split; [right; left|vm_compute; reflexivity].
Defined.

Lemma independent_sessions_witness :
  Forall (fun file => Forall stringCwd (lines file)) [rootLog; resumedLog]
  /\ Forall (fun file => forkedFromId (exampleParse file) = None) [rootLog; resumedLog]
  /\ NoDup (omap (fun file => knownCwd (exampleParse file)) [rootLog; resumedLog])
  /\ Permutation (mergedEvents (exampleCollect [rootLog; resumedLog]))
                 (concat (map (fun file => events (exampleParse file))
                              [rootLog; resumedLog]))
  /\ totalMessages (exampleCollect [rootLog; resumedLog])
     = Z.of_nat (sum_list_with (fun file => length (userMessages (exampleParse file)))
                               [rootLog; resumedLog]).
Proof.
  assert (Hstring : Forall (fun file => Forall stringCwd (lines file))
                           [rootLog; resumedLog]).
  { repeat first [exact I | apply Forall_nil | apply Forall_cons; split]. }
  assert (Hforked : Forall (fun file => forkedFromId (exampleParse file) = None)
                           [rootLog; resumedLog]).
  { repeat first [exact I | apply Forall_nil | apply Forall_cons; split; [vm_compute; reflexivity|]]. }
  assert (Hdecide : bool_decide
                      (NoDup (omap (fun file => knownCwd (exampleParse file))
                                   [rootLog; resumedLog])) = true)
    by (vm_compute; reflexivity).
  assert (Hnodup : NoDup (omap (fun file => knownCwd (exampleParse file))
                               [rootLog; resumedLog]))
    by (by apply bool_decide_eq_true in Hdecide).
  split; [exact Hstring|]. split; [exact Hforked|]. split; [exact Hnodup|].
  exact (independent_sessions_are_merged_in_full exampleNewDate exampleStringify
           exampleGetFullYear exampleGetMonth exampleGetDate exampleLocaleCompare
           [rootLog; resumedLog] Hstring Hforked Hnodup).
Defined.

(** A copy of the first session that declares a parent no file has. *)
Definition orphanLog : SessionFile :=
  {| path := "2025/01/03/o.jsonl";
     lines := sessionMetaLine (Some "o") (Some "zzz") "/proj" 7000 :: rootRecords |}.

Definition orphanSession : SessionUsage := exampleParse orphanLog.

Lemma unknown_parent_witness :
  let acc := exampleDedupSessions [rootSession] in
  forkedFromId orphanSession = Some "zzz"
  /\ acc_sessionsById acc !! "zzz" = None
  /\ messageStartIndexOf acc orphanSession = 3%nat
  /\ exampleDedupSession acc orphanSession
     = exampleDedupSession acc (withoutParent orphanSession).
Proof.
  cbv zeta.
  assert (Hforked : forkedFromId orphanSession = Some "zzz") by (vm_compute; reflexivity).
  assert (Hunknown : acc_sessionsById (exampleDedupSessions [rootSession]) !! "zzz" = None)
    by (vm_compute; reflexivity).
  split; [exact Hforked|]. split; [exact Hunknown|].
  split; [vm_compute; reflexivity|].
  exact (unknown_parent_is_ignored exampleNewDate exampleGetFullYear exampleGetMonth
           exampleGetDate (exampleDedupSessions [rootSession]) orphanSession "zzz"
           Hforked Hunknown).
Defined.
